(** * Exchange adapters of panda-mcp: retry, pair cache, registry, vendor parsing

    A shallow embedding of [src/core/base_exchange.py],
    [src/core/exchange_factory.py] and [src/exchanges/{binance,bybit,hyperliquid}.py].

    Python objects returned by [response.json()] are values of [JSON]; a method
    that can raise is a function into [Result]; a method that talks to the
    network threads the log of HTTP requests ([Net]) through a state-and-error
    monad.  The remote side and the wall clock are oracles: [http n req] is the
    outcome of the [n]-th HTTP request of the run, [time_time n] the value of
    the [n]-th call of [time.time()].  Python's [float] is binary64, and so
    is [PrimFloat.float].

    httpx and tenacity are libraries the adapters call; [Net] and [Tenacity]
    give the part of their behaviour the adapters rely on. *)

From stdpp Require Import gmap strings list pretty.
From Stdlib Require Import ZArith Ascii Floats Sorted.

Set Warnings "-register-all,-inexact-float".

Local Open Scope string_scope.
Local Open Scope list_scope.
Local Open Scope Z_scope.

(** ** Python values and exceptions *)

Module Py.

(** What [json.loads] builds: [None], [bool], [int], [float], [str], [list]
    and [dict] (an insertion-ordered association list with distinct keys;
    lookups take the first binding of a key). *)
Inductive JSON : Type :=
| JNull
| JBool (b : bool)
| JInt (z : Z)
| JFloat (f : float)
| JStr (s : string)
| JArr (items : list JSON)
| JObj (fields : list (string * JSON)).

(** The exception classes the adapters raise or let through. *)
Inductive exn : Type :=
| ValueError (msg : string)
| NotImplementedError (msg : string)
| Exception_ (msg : string)            (* [raise Exception(...)] *)
| TransportError (msg : string)        (* httpx.TransportError, an httpx.HTTPError *)
| HTTPStatusError (status : Z)         (* httpx.HTTPStatusError, an httpx.HTTPError *)
| JSONDecodeError                      (* json.JSONDecodeError, a ValueError subclass *)
| RetryError (last_attempt : exn)      (* tenacity.RetryError *)
| TypeError
| AttributeError
| KeyError (key : string)
| KeyErrorInt (key : Z)                (* [KeyError(i)]: a dict indexed by an int *)
| IndexError
| OverflowError
| ZeroDivisionError.

(** [isinstance(e, httpx.HTTPError)]: what [except httpx.HTTPError] catches. *)
Definition is_HTTPError (e : exn) : bool :=
  match e with
  | TransportError _ | HTTPStatusError _ => true
  | _ => false
  end.

(** [isinstance(e, ValueError)]: what [except ValueError] catches. *)
Definition is_ValueError (e : exn) : bool :=
  match e with
  | ValueError _ | JSONDecodeError => true
  | _ => false
  end.

Inductive Result (A : Type) : Type :=
| Ok (a : A)
| Raise (e : exn).
Arguments Ok {A} a.
Arguments Raise {A} e.

Definition rbind {A B} (r : Result A) (k : A -> Result B) : Result B :=
  match r with
  | Ok a => k a
  | Raise e => Raise e
  end.

(** State-and-error monad: an exception keeps the state reached so far. *)
Definition M (S A : Type) : Type := S -> Result A * S.

Definition ret {S A} (a : A) : M S A := fun s => (Ok a, s).
Definition raise {S A} (e : exn) : M S A := fun s => (Raise e, s).
Definition bind {S A B} (m : M S A) (k : A -> M S B) : M S B :=
  fun s => match m s with
           | (Ok a, s') => k a s'
           | (Raise e, s') => (Raise e, s')
           end.
Definition lift {S A} (r : Result A) : M S A := fun s => (r, s).

(** [for x in xs: body] with an accumulator, stopping at the first exception. *)
Fixpoint for_each {A B} (body : B -> A -> Result B) (xs : list A) (acc : B) : Result B :=
  match xs with
  | [] => Ok acc
  | x :: rest => rbind (body acc x) (for_each body rest)
  end.

(** *** Strings

    A [str] is held as the UTF-8 bytes of its code points, a lone surrogate
    as its three-byte form.  The tables are those of Unicode 14.0, the
    version of CPython 3.11. *)

Definition ascii_lower (c : ascii) : ascii :=
  let n := nat_of_ascii c in
  if (65 <=? n)%nat && (n <=? 90)%nat then ascii_of_nat (n + 32) else c.

(** [Py_TOLOWER] along a text: the letters A-Z folded, every other byte kept. *)
Fixpoint ascii_lower_str (s : string) : string :=
  match s with
  | EmptyString => EmptyString
  | String c rest => String (ascii_lower c) (ascii_lower_str rest)
  end.

Definition byte_value (c : ascii) : Z := Z.of_nat (nat_of_ascii c).
Definition byte (n : Z) : ascii := ascii_of_nat (Z.to_nat n).

Definition is_continuation_byte (c : ascii) : bool :=
  let n := nat_of_ascii c in (128 <=? n)%nat && (n <? 192)%nat.

(** The characters of a [str] held as UTF-8 bytes: a byte followed by its
    continuation bytes. *)
Fixpoint utf8_chars (s : string) : list string :=
  match s with
  | EmptyString => []
  | String c rest =>
      let continued :=
        match rest with
        | String d _ => is_continuation_byte d
        | EmptyString => false
        end in
      match utf8_chars rest with
      | ch :: chs => if continued then String c ch :: chs else String c "" :: ch :: chs
      | [] => [String c ""]
      end
  end.

Fixpoint str_concat (parts : list string) : string :=
  match parts with
  | [] => ""
  | p :: rest => p +:+ str_concat rest
  end.

(** The six payload bits of a continuation byte. *)
Definition continuation (c : ascii) : option Z :=
  if is_continuation_byte c then Some (byte_value c - 128) else None.

(** The code point of one character in its shortest form; [None] for bytes
    that are no character. *)
Definition code_point (ch : string) : option Z :=
  match ch with
  | String a EmptyString =>
      if byte_value a <? 128 then Some (byte_value a) else None
  | String a (String b EmptyString) =>
      match continuation b with
      | Some y =>
          let cp := (byte_value a - 192) * 64 + y in
          if (192 <=? byte_value a) && (byte_value a <? 224) && (128 <=? cp)
          then Some cp else None
      | None => None
      end
  | String a (String b (String c EmptyString)) =>
      match continuation b, continuation c with
      | Some y, Some z =>
          let cp := ((byte_value a - 224) * 64 + y) * 64 + z in
          if (224 <=? byte_value a) && (byte_value a <? 240) && (2048 <=? cp)
          then Some cp else None
      | _, _ => None
      end
  | String a (String b (String c (String d EmptyString))) =>
      match continuation b, continuation c, continuation d with
      | Some y, Some z, Some w =>
          let cp := (((byte_value a - 240) * 64 + y) * 64 + z) * 64 + w in
          if (240 <=? byte_value a) && (byte_value a <? 248) && (65536 <=? cp)
             && (cp <=? 1114111)
          then Some cp else None
      | _, _, _ => None
      end
  | _ => None
  end.

(** The UTF-8 bytes of a code point. *)
Definition utf8_encode (cp : Z) : string :=
  if cp <? 128 then String (byte cp) ""
  else if cp <? 2048 then
    String (byte (192 + cp / 64)) (String (byte (128 + cp mod 64)) "")
  else if cp <? 65536 then
    String (byte (224 + cp / 4096))
      (String (byte (128 + (cp / 64) mod 64)) (String (byte (128 + cp mod 64)) ""))
  else
    String (byte (240 + cp / 262144))
      (String (byte (128 + (cp / 4096) mod 64))
         (String (byte (128 + (cp / 64) mod 64)) (String (byte (128 + cp mod 64)) ""))).

Fixpoint in_ranges (cp : Z) (ranges : list (Z * Z)) : bool :=
  match ranges with
  | [] => false
  | (first, last) :: rest => ((first <=? cp) && (cp <=? last)) || in_ranges cp rest
  end.

(** The code points [str.isspace] holds of ([Py_UNICODE_ISSPACE]). *)
Definition whitespace_ranges : list (Z * Z) :=
  [(9, 13); (28, 32); (133, 133); (160, 160); (5760, 5760); (8192, 8202); (8232, 8233);
   (8239, 8239); (8287, 8287); (12288, 12288)].

(** The runs of decimal digits ([Py_UNICODE_TODECIMAL]): in each run the digit
    of a code point is its offset modulo 10. *)
Definition decimal_ranges : list (Z * Z) :=
  [(48, 57); (1632, 1641); (1776, 1785); (1984, 1993); (2406, 2415); (2534, 2543); (2662, 2671);
   (2790, 2799); (2918, 2927); (3046, 3055); (3174, 3183); (3302, 3311); (3430, 3439);
   (3558, 3567); (3664, 3673); (3792, 3801); (3872, 3881); (4160, 4169); (4240, 4249);
   (6112, 6121); (6160, 6169); (6470, 6479); (6608, 6617); (6784, 6793); (6800, 6809);
   (6992, 7001); (7088, 7097); (7232, 7241); (7248, 7257); (42528, 42537); (43216, 43225);
   (43264, 43273); (43472, 43481); (43504, 43513); (43600, 43609); (44016, 44025);
   (65296, 65305); (66720, 66729); (68912, 68921); (69734, 69743); (69872, 69881);
   (69942, 69951); (70096, 70105); (70384, 70393); (70736, 70745); (70864, 70873);
   (71248, 71257); (71360, 71369); (71472, 71481); (71904, 71913); (72016, 72025);
   (72784, 72793); (73040, 73049); (73120, 73129); (92768, 92777); (92864, 92873);
   (93008, 93017); (120782, 120831); (123200, 123209); (123632, 123641); (125264, 125273);
   (130032, 130041)].

(** The case-ignorable code points ([_PyUnicode_IsCaseIgnorable]). *)
Definition case_ignorable_ranges : list (Z * Z) :=
  [(39, 39); (46, 46); (58, 58); (94, 94); (96, 96); (168, 168); (173, 173); (175, 175);
   (180, 180); (183, 184); (688, 879); (884, 885); (890, 890); (900, 901); (903, 903);
   (1155, 1161); (1369, 1369); (1375, 1375); (1425, 1469); (1471, 1471); (1473, 1474);
   (1476, 1477); (1479, 1479); (1524, 1524); (1536, 1541); (1552, 1562); (1564, 1564);
   (1600, 1600); (1611, 1631); (1648, 1648); (1750, 1757); (1759, 1768); (1770, 1773);
   (1807, 1807); (1809, 1809); (1840, 1866); (1958, 1968); (2027, 2037); (2042, 2042);
   (2045, 2045); (2070, 2093); (2137, 2139); (2184, 2184); (2192, 2193); (2200, 2207);
   (2249, 2306); (2362, 2362); (2364, 2364); (2369, 2376); (2381, 2381); (2385, 2391);
   (2402, 2403); (2417, 2417); (2433, 2433); (2492, 2492); (2497, 2500); (2509, 2509);
   (2530, 2531); (2558, 2558); (2561, 2562); (2620, 2620); (2625, 2626); (2631, 2632);
   (2635, 2637); (2641, 2641); (2672, 2673); (2677, 2677); (2689, 2690); (2748, 2748);
   (2753, 2757); (2759, 2760); (2765, 2765); (2786, 2787); (2810, 2815); (2817, 2817);
   (2876, 2876); (2879, 2879); (2881, 2884); (2893, 2893); (2901, 2902); (2914, 2915);
   (2946, 2946); (3008, 3008); (3021, 3021); (3072, 3072); (3076, 3076); (3132, 3132);
   (3134, 3136); (3142, 3144); (3146, 3149); (3157, 3158); (3170, 3171); (3201, 3201);
   (3260, 3260); (3263, 3263); (3270, 3270); (3276, 3277); (3298, 3299); (3328, 3329);
   (3387, 3388); (3393, 3396); (3405, 3405); (3426, 3427); (3457, 3457); (3530, 3530);
   (3538, 3540); (3542, 3542); (3633, 3633); (3636, 3642); (3654, 3662); (3761, 3761);
   (3764, 3772); (3782, 3782); (3784, 3789); (3864, 3865); (3893, 3893); (3895, 3895);
   (3897, 3897); (3953, 3966); (3968, 3972); (3974, 3975); (3981, 3991); (3993, 4028);
   (4038, 4038); (4141, 4144); (4146, 4151); (4153, 4154); (4157, 4158); (4184, 4185);
   (4190, 4192); (4209, 4212); (4226, 4226); (4229, 4230); (4237, 4237); (4253, 4253);
   (4348, 4348); (4957, 4959); (5906, 5908); (5938, 5939); (5970, 5971); (6002, 6003);
   (6068, 6069); (6071, 6077); (6086, 6086); (6089, 6099); (6103, 6103); (6109, 6109);
   (6155, 6159); (6211, 6211); (6277, 6278); (6313, 6313); (6432, 6434); (6439, 6440);
   (6450, 6450); (6457, 6459); (6679, 6680); (6683, 6683); (6742, 6742); (6744, 6750);
   (6752, 6752); (6754, 6754); (6757, 6764); (6771, 6780); (6783, 6783); (6823, 6823);
   (6832, 6862); (6912, 6915); (6964, 6964); (6966, 6970); (6972, 6972); (6978, 6978);
   (7019, 7027); (7040, 7041); (7074, 7077); (7080, 7081); (7083, 7085); (7142, 7142);
   (7144, 7145); (7149, 7149); (7151, 7153); (7212, 7219); (7222, 7223); (7288, 7293);
   (7376, 7378); (7380, 7392); (7394, 7400); (7405, 7405); (7412, 7412); (7416, 7417);
   (7468, 7530); (7544, 7544); (7579, 7679); (8125, 8125); (8127, 8129); (8141, 8143);
   (8157, 8159); (8173, 8175); (8189, 8190); (8203, 8207); (8216, 8217); (8228, 8228);
   (8231, 8231); (8234, 8238); (8288, 8292); (8294, 8303); (8305, 8305); (8319, 8319);
   (8336, 8348); (8400, 8432); (11388, 11389); (11503, 11505); (11631, 11631); (11647, 11647);
   (11744, 11775); (11823, 11823); (12293, 12293); (12330, 12333); (12337, 12341);
   (12347, 12347); (12441, 12446); (12540, 12542); (40981, 40981); (42232, 42237);
   (42508, 42508); (42607, 42610); (42612, 42621); (42623, 42623); (42652, 42655);
   (42736, 42737); (42752, 42785); (42864, 42864); (42888, 42890); (42994, 42996);
   (43000, 43001); (43010, 43010); (43014, 43014); (43019, 43019); (43045, 43046);
   (43052, 43052); (43204, 43205); (43232, 43249); (43263, 43263); (43302, 43309);
   (43335, 43345); (43392, 43394); (43443, 43443); (43446, 43449); (43452, 43453);
   (43471, 43471); (43493, 43494); (43561, 43566); (43569, 43570); (43573, 43574);
   (43587, 43587); (43596, 43596); (43632, 43632); (43644, 43644); (43696, 43696);
   (43698, 43700); (43703, 43704); (43710, 43711); (43713, 43713); (43741, 43741);
   (43756, 43757); (43763, 43764); (43766, 43766); (43867, 43871); (43881, 43883);
   (44005, 44005); (44008, 44008); (44013, 44013); (64286, 64286); (64434, 64450);
   (65024, 65039); (65043, 65043); (65056, 65071); (65106, 65106); (65109, 65109);
   (65279, 65279); (65287, 65287); (65294, 65294); (65306, 65306); (65342, 65342);
   (65344, 65344); (65392, 65392); (65438, 65439); (65507, 65507); (65529, 65531);
   (66045, 66045); (66272, 66272); (66422, 66426); (67456, 67461); (67463, 67504);
   (67506, 67514); (68097, 68099); (68101, 68102); (68108, 68111); (68152, 68154);
   (68159, 68159); (68325, 68326); (68900, 68903); (69291, 69292); (69446, 69456);
   (69506, 69509); (69633, 69633); (69688, 69702); (69744, 69744); (69747, 69748);
   (69759, 69761); (69811, 69814); (69817, 69818); (69821, 69821); (69826, 69826);
   (69837, 69837); (69888, 69890); (69927, 69931); (69933, 69940); (70003, 70003);
   (70016, 70017); (70070, 70078); (70089, 70092); (70095, 70095); (70191, 70193);
   (70196, 70196); (70198, 70199); (70206, 70206); (70367, 70367); (70371, 70378);
   (70400, 70401); (70459, 70460); (70464, 70464); (70502, 70508); (70512, 70516);
   (70712, 70719); (70722, 70724); (70726, 70726); (70750, 70750); (70835, 70840);
   (70842, 70842); (70847, 70848); (70850, 70851); (71090, 71093); (71100, 71101);
   (71103, 71104); (71132, 71133); (71219, 71226); (71229, 71229); (71231, 71232);
   (71339, 71339); (71341, 71341); (71344, 71349); (71351, 71351); (71453, 71455);
   (71458, 71461); (71463, 71467); (71727, 71735); (71737, 71738); (71995, 71996);
   (71998, 71998); (72003, 72003); (72148, 72151); (72154, 72155); (72160, 72160);
   (72193, 72202); (72243, 72248); (72251, 72254); (72263, 72263); (72273, 72278);
   (72281, 72283); (72330, 72342); (72344, 72345); (72752, 72758); (72760, 72765);
   (72767, 72767); (72850, 72871); (72874, 72880); (72882, 72883); (72885, 72886);
   (73009, 73014); (73018, 73018); (73020, 73021); (73023, 73029); (73031, 73031);
   (73104, 73105); (73109, 73109); (73111, 73111); (73459, 73460); (78896, 78904);
   (92912, 92916); (92976, 92982); (92992, 92995); (94031, 94031); (94095, 94111);
   (94176, 94177); (94179, 94180); (110576, 110579); (110581, 110587); (110589, 110590);
   (113821, 113822); (113824, 113827); (118528, 118573); (118576, 118598); (119143, 119145);
   (119155, 119170); (119173, 119179); (119210, 119213); (119362, 119364); (121344, 121398);
   (121403, 121452); (121461, 121461); (121476, 121476); (121499, 121503); (121505, 121519);
   (122880, 122886); (122888, 122904); (122907, 122913); (122915, 122916); (122918, 122922);
   (123184, 123197); (123566, 123566); (123628, 123631); (125136, 125142); (125252, 125259);
   (127995, 127999); (917505, 917505); (917536, 917631); (917760, 917999)].

(** The cased code points that are not case-ignorable ([_PyUnicode_IsCased],
    which the scan for a final sigma asks only of those). *)
Definition cased_ranges : list (Z * Z) :=
  [(65, 90); (97, 122); (170, 170); (181, 181); (186, 186); (192, 214); (216, 246); (248, 442);
   (444, 447); (452, 659); (661, 687); (880, 883); (886, 887); (891, 893); (895, 895);
   (902, 902); (904, 906); (908, 908); (910, 929); (931, 1013); (1015, 1153); (1162, 1327);
   (1329, 1366); (1376, 1416); (4256, 4293); (4295, 4295); (4301, 4301); (4304, 4346);
   (4349, 4351); (5024, 5109); (5112, 5117); (7296, 7304); (7312, 7354); (7357, 7359);
   (7424, 7467); (7531, 7543); (7545, 7578); (7680, 7957); (7960, 7965); (7968, 8005);
   (8008, 8013); (8016, 8023); (8025, 8025); (8027, 8027); (8029, 8029); (8031, 8061);
   (8064, 8116); (8118, 8124); (8126, 8126); (8130, 8132); (8134, 8140); (8144, 8147);
   (8150, 8155); (8160, 8172); (8178, 8180); (8182, 8188); (8450, 8450); (8455, 8455);
   (8458, 8467); (8469, 8469); (8473, 8477); (8484, 8484); (8486, 8486); (8488, 8488);
   (8490, 8493); (8495, 8500); (8505, 8505); (8508, 8511); (8517, 8521); (8526, 8526);
   (8544, 8575); (8579, 8580); (9398, 9449); (11264, 11387); (11390, 11492); (11499, 11502);
   (11506, 11507); (11520, 11557); (11559, 11559); (11565, 11565); (42560, 42605);
   (42624, 42651); (42786, 42863); (42865, 42887); (42891, 42894); (42896, 42954);
   (42960, 42961); (42963, 42963); (42965, 42969); (42997, 42998); (43002, 43002);
   (43824, 43866); (43872, 43880); (43888, 43967); (64256, 64262); (64275, 64279);
   (65313, 65338); (65345, 65370); (66560, 66639); (66736, 66771); (66776, 66811);
   (66928, 66938); (66940, 66954); (66956, 66962); (66964, 66965); (66967, 66977);
   (66979, 66993); (66995, 67001); (67003, 67004); (68736, 68786); (68800, 68850);
   (71840, 71903); (93760, 93823); (119808, 119892); (119894, 119964); (119966, 119967);
   (119970, 119970); (119973, 119974); (119977, 119980); (119982, 119993); (119995, 119995);
   (119997, 120003); (120005, 120069); (120071, 120074); (120077, 120084); (120086, 120092);
   (120094, 120121); (120123, 120126); (120128, 120132); (120134, 120134); (120138, 120144);
   (120146, 120485); (120488, 120512); (120514, 120538); (120540, 120570); (120572, 120596);
   (120598, 120628); (120630, 120654); (120656, 120686); (120688, 120712); (120714, 120744);
   (120746, 120770); (120772, 120779); (122624, 122633); (122635, 122654); (125184, 125251);
   (127280, 127305); (127312, 127337); (127344, 127369)].

(** The code points from 128 on that [repr] escapes ([Py_UNICODE_ISPRINTABLE] fails). *)
Definition unprintable_ranges : list (Z * Z) :=
  [(128, 160); (173, 173); (888, 889); (896, 899); (907, 907); (909, 909); (930, 930);
   (1328, 1328); (1367, 1368); (1419, 1420); (1424, 1424); (1480, 1487); (1515, 1518);
   (1525, 1541); (1564, 1564); (1757, 1757); (1806, 1807); (1867, 1868); (1970, 1983);
   (2043, 2044); (2094, 2095); (2111, 2111); (2140, 2141); (2143, 2143); (2155, 2159);
   (2191, 2199); (2274, 2274); (2436, 2436); (2445, 2446); (2449, 2450); (2473, 2473);
   (2481, 2481); (2483, 2485); (2490, 2491); (2501, 2502); (2505, 2506); (2511, 2518);
   (2520, 2523); (2526, 2526); (2532, 2533); (2559, 2560); (2564, 2564); (2571, 2574);
   (2577, 2578); (2601, 2601); (2609, 2609); (2612, 2612); (2615, 2615); (2618, 2619);
   (2621, 2621); (2627, 2630); (2633, 2634); (2638, 2640); (2642, 2648); (2653, 2653);
   (2655, 2661); (2679, 2688); (2692, 2692); (2702, 2702); (2706, 2706); (2729, 2729);
   (2737, 2737); (2740, 2740); (2746, 2747); (2758, 2758); (2762, 2762); (2766, 2767);
   (2769, 2783); (2788, 2789); (2802, 2808); (2816, 2816); (2820, 2820); (2829, 2830);
   (2833, 2834); (2857, 2857); (2865, 2865); (2868, 2868); (2874, 2875); (2885, 2886);
   (2889, 2890); (2894, 2900); (2904, 2907); (2910, 2910); (2916, 2917); (2936, 2945);
   (2948, 2948); (2955, 2957); (2961, 2961); (2966, 2968); (2971, 2971); (2973, 2973);
   (2976, 2978); (2981, 2983); (2987, 2989); (3002, 3005); (3011, 3013); (3017, 3017);
   (3022, 3023); (3025, 3030); (3032, 3045); (3067, 3071); (3085, 3085); (3089, 3089);
   (3113, 3113); (3130, 3131); (3141, 3141); (3145, 3145); (3150, 3156); (3159, 3159);
   (3163, 3164); (3166, 3167); (3172, 3173); (3184, 3190); (3213, 3213); (3217, 3217);
   (3241, 3241); (3252, 3252); (3258, 3259); (3269, 3269); (3273, 3273); (3278, 3284);
   (3287, 3292); (3295, 3295); (3300, 3301); (3312, 3312); (3315, 3327); (3341, 3341);
   (3345, 3345); (3397, 3397); (3401, 3401); (3408, 3411); (3428, 3429); (3456, 3456);
   (3460, 3460); (3479, 3481); (3506, 3506); (3516, 3516); (3518, 3519); (3527, 3529);
   (3531, 3534); (3541, 3541); (3543, 3543); (3552, 3557); (3568, 3569); (3573, 3584);
   (3643, 3646); (3676, 3712); (3715, 3715); (3717, 3717); (3723, 3723); (3748, 3748);
   (3750, 3750); (3774, 3775); (3781, 3781); (3783, 3783); (3790, 3791); (3802, 3803);
   (3808, 3839); (3912, 3912); (3949, 3952); (3992, 3992); (4029, 4029); (4045, 4045);
   (4059, 4095); (4294, 4294); (4296, 4300); (4302, 4303); (4681, 4681); (4686, 4687);
   (4695, 4695); (4697, 4697); (4702, 4703); (4745, 4745); (4750, 4751); (4785, 4785);
   (4790, 4791); (4799, 4799); (4801, 4801); (4806, 4807); (4823, 4823); (4881, 4881);
   (4886, 4887); (4955, 4956); (4989, 4991); (5018, 5023); (5110, 5111); (5118, 5119);
   (5760, 5760); (5789, 5791); (5881, 5887); (5910, 5918); (5943, 5951); (5972, 5983);
   (5997, 5997); (6001, 6001); (6004, 6015); (6110, 6111); (6122, 6127); (6138, 6143);
   (6158, 6158); (6170, 6175); (6265, 6271); (6315, 6319); (6390, 6399); (6431, 6431);
   (6444, 6447); (6460, 6463); (6465, 6467); (6510, 6511); (6517, 6527); (6572, 6575);
   (6602, 6607); (6619, 6621); (6684, 6685); (6751, 6751); (6781, 6782); (6794, 6799);
   (6810, 6815); (6830, 6831); (6863, 6911); (6989, 6991); (7039, 7039); (7156, 7163);
   (7224, 7226); (7242, 7244); (7305, 7311); (7355, 7356); (7368, 7375); (7419, 7423);
   (7958, 7959); (7966, 7967); (8006, 8007); (8014, 8015); (8024, 8024); (8026, 8026);
   (8028, 8028); (8030, 8030); (8062, 8063); (8117, 8117); (8133, 8133); (8148, 8149);
   (8156, 8156); (8176, 8177); (8181, 8181); (8191, 8207); (8232, 8239); (8287, 8303);
   (8306, 8307); (8335, 8335); (8349, 8351); (8385, 8399); (8433, 8447); (8588, 8591);
   (9255, 9279); (9291, 9311); (11124, 11125); (11158, 11158); (11508, 11512); (11558, 11558);
   (11560, 11564); (11566, 11567); (11624, 11630); (11633, 11646); (11671, 11679);
   (11687, 11687); (11695, 11695); (11703, 11703); (11711, 11711); (11719, 11719);
   (11727, 11727); (11735, 11735); (11743, 11743); (11870, 11903); (11930, 11930);
   (12020, 12031); (12246, 12271); (12284, 12288); (12352, 12352); (12439, 12440);
   (12544, 12548); (12592, 12592); (12687, 12687); (12772, 12783); (12831, 12831);
   (42125, 42127); (42183, 42191); (42540, 42559); (42744, 42751); (42955, 42959);
   (42962, 42962); (42964, 42964); (42970, 42993); (43053, 43055); (43066, 43071);
   (43128, 43135); (43206, 43213); (43226, 43231); (43348, 43358); (43389, 43391);
   (43470, 43470); (43482, 43485); (43519, 43519); (43575, 43583); (43598, 43599);
   (43610, 43611); (43715, 43738); (43767, 43776); (43783, 43784); (43791, 43792);
   (43799, 43807); (43815, 43815); (43823, 43823); (43884, 43887); (44014, 44015);
   (44026, 44031); (55204, 55215); (55239, 55242); (55292, 63743); (64110, 64111);
   (64218, 64255); (64263, 64274); (64280, 64284); (64311, 64311); (64317, 64317);
   (64319, 64319); (64322, 64322); (64325, 64325); (64451, 64466); (64912, 64913);
   (64968, 64974); (64976, 65007); (65050, 65055); (65107, 65107); (65127, 65127);
   (65132, 65135); (65141, 65141); (65277, 65280); (65471, 65473); (65480, 65481);
   (65488, 65489); (65496, 65497); (65501, 65503); (65511, 65511); (65519, 65531);
   (65534, 65535); (65548, 65548); (65575, 65575); (65595, 65595); (65598, 65598);
   (65614, 65615); (65630, 65663); (65787, 65791); (65795, 65798); (65844, 65846);
   (65935, 65935); (65949, 65951); (65953, 65999); (66046, 66175); (66205, 66207);
   (66257, 66271); (66300, 66303); (66340, 66348); (66379, 66383); (66427, 66431);
   (66462, 66462); (66500, 66503); (66518, 66559); (66718, 66719); (66730, 66735);
   (66772, 66775); (66812, 66815); (66856, 66863); (66916, 66926); (66939, 66939);
   (66955, 66955); (66963, 66963); (66966, 66966); (66978, 66978); (66994, 66994);
   (67002, 67002); (67005, 67071); (67383, 67391); (67414, 67423); (67432, 67455);
   (67462, 67462); (67505, 67505); (67515, 67583); (67590, 67591); (67593, 67593);
   (67638, 67638); (67641, 67643); (67645, 67646); (67670, 67670); (67743, 67750);
   (67760, 67807); (67827, 67827); (67830, 67834); (67868, 67870); (67898, 67902);
   (67904, 67967); (68024, 68027); (68048, 68049); (68100, 68100); (68103, 68107);
   (68116, 68116); (68120, 68120); (68150, 68151); (68155, 68158); (68169, 68175);
   (68185, 68191); (68256, 68287); (68327, 68330); (68343, 68351); (68406, 68408);
   (68438, 68439); (68467, 68471); (68498, 68504); (68509, 68520); (68528, 68607);
   (68681, 68735); (68787, 68799); (68851, 68857); (68904, 68911); (68922, 69215);
   (69247, 69247); (69290, 69290); (69294, 69295); (69298, 69375); (69416, 69423);
   (69466, 69487); (69514, 69551); (69580, 69599); (69623, 69631); (69710, 69713);
   (69750, 69758); (69821, 69821); (69827, 69839); (69865, 69871); (69882, 69887);
   (69941, 69941); (69960, 69967); (70007, 70015); (70112, 70112); (70133, 70143);
   (70162, 70162); (70207, 70271); (70279, 70279); (70281, 70281); (70286, 70286);
   (70302, 70302); (70314, 70319); (70379, 70383); (70394, 70399); (70404, 70404);
   (70413, 70414); (70417, 70418); (70441, 70441); (70449, 70449); (70452, 70452);
   (70458, 70458); (70469, 70470); (70473, 70474); (70478, 70479); (70481, 70486);
   (70488, 70492); (70500, 70501); (70509, 70511); (70517, 70655); (70748, 70748);
   (70754, 70783); (70856, 70863); (70874, 71039); (71094, 71095); (71134, 71167);
   (71237, 71247); (71258, 71263); (71277, 71295); (71354, 71359); (71370, 71423);
   (71451, 71452); (71468, 71471); (71495, 71679); (71740, 71839); (71923, 71934);
   (71943, 71944); (71946, 71947); (71956, 71956); (71959, 71959); (71990, 71990);
   (71993, 71994); (72007, 72015); (72026, 72095); (72104, 72105); (72152, 72153);
   (72165, 72191); (72264, 72271); (72355, 72367); (72441, 72703); (72713, 72713);
   (72759, 72759); (72774, 72783); (72813, 72815); (72848, 72849); (72872, 72872);
   (72887, 72959); (72967, 72967); (72970, 72970); (73015, 73017); (73019, 73019);
   (73022, 73022); (73032, 73039); (73050, 73055); (73062, 73062); (73065, 73065);
   (73103, 73103); (73106, 73106); (73113, 73119); (73130, 73439); (73465, 73647);
   (73649, 73663); (73714, 73726); (74650, 74751); (74863, 74863); (74869, 74879);
   (75076, 77711); (77811, 77823); (78895, 82943); (83527, 92159); (92729, 92735);
   (92767, 92767); (92778, 92781); (92863, 92863); (92874, 92879); (92910, 92911);
   (92918, 92927); (92998, 93007); (93018, 93018); (93026, 93026); (93048, 93052);
   (93072, 93759); (93851, 93951); (94027, 94030); (94088, 94094); (94112, 94175);
   (94181, 94191); (94194, 94207); (100344, 100351); (101590, 101631); (101641, 110575);
   (110580, 110580); (110588, 110588); (110591, 110591); (110883, 110927); (110931, 110947);
   (110952, 110959); (111356, 113663); (113771, 113775); (113789, 113791); (113801, 113807);
   (113818, 113819); (113824, 118527); (118574, 118575); (118599, 118607); (118724, 118783);
   (119030, 119039); (119079, 119080); (119155, 119162); (119275, 119295); (119366, 119519);
   (119540, 119551); (119639, 119647); (119673, 119807); (119893, 119893); (119965, 119965);
   (119968, 119969); (119971, 119972); (119975, 119976); (119981, 119981); (119994, 119994);
   (119996, 119996); (120004, 120004); (120070, 120070); (120075, 120076); (120085, 120085);
   (120093, 120093); (120122, 120122); (120127, 120127); (120133, 120133); (120135, 120137);
   (120145, 120145); (120486, 120487); (120780, 120781); (121484, 121498); (121504, 121504);
   (121520, 122623); (122655, 122879); (122887, 122887); (122905, 122906); (122914, 122914);
   (122917, 122917); (122923, 123135); (123181, 123183); (123198, 123199); (123210, 123213);
   (123216, 123535); (123567, 123583); (123642, 123646); (123648, 124895); (124903, 124903);
   (124908, 124908); (124911, 124911); (124927, 124927); (125125, 125126); (125143, 125183);
   (125260, 125263); (125274, 125277); (125280, 126064); (126133, 126208); (126270, 126463);
   (126468, 126468); (126496, 126496); (126499, 126499); (126501, 126502); (126504, 126504);
   (126515, 126515); (126520, 126520); (126522, 126522); (126524, 126529); (126531, 126534);
   (126536, 126536); (126538, 126538); (126540, 126540); (126544, 126544); (126547, 126547);
   (126549, 126550); (126552, 126552); (126554, 126554); (126556, 126556); (126558, 126558);
   (126560, 126560); (126563, 126563); (126565, 126566); (126571, 126571); (126579, 126579);
   (126584, 126584); (126589, 126589); (126591, 126591); (126602, 126602); (126620, 126624);
   (126628, 126628); (126634, 126634); (126652, 126703); (126706, 126975); (127020, 127023);
   (127124, 127135); (127151, 127152); (127168, 127168); (127184, 127184); (127222, 127231);
   (127406, 127461); (127491, 127503); (127548, 127551); (127561, 127567); (127570, 127583);
   (127590, 127743); (128728, 128732); (128749, 128751); (128765, 128767); (128884, 128895);
   (128985, 128991); (129004, 129007); (129009, 129023); (129036, 129039); (129096, 129103);
   (129114, 129119); (129160, 129167); (129198, 129199); (129202, 129279); (129620, 129631);
   (129646, 129647); (129653, 129655); (129661, 129663); (129671, 129679); (129709, 129711);
   (129723, 129727); (129734, 129743); (129754, 129759); (129768, 129775); (129783, 129791);
   (129939, 129939); (129995, 130031); (130042, 131071); (173792, 173823); (177977, 177983);
   (178206, 178207); (183970, 183983); (191457, 194559); (195102, 196607); (201547, 917759);
   (918000, 1114111)].

(** The code points [str.lower] changes into one other: runs [(first, last,
    step, delta)], every [step]-th code point from [first] to [last] going to
    itself plus [delta]. *)
Definition lower_runs : list (Z * Z * Z * Z) :=
  [(65, 90, 1, 32); (192, 214, 1, 32); (216, 222, 1, 32); (256, 302, 2, 1); (306, 310, 2, 1);
   (313, 327, 2, 1); (330, 374, 2, 1); (376, 376, 1, -121); (377, 381, 2, 1);
   (385, 385, 1, 210); (386, 388, 2, 1); (390, 390, 1, 206); (391, 391, 1, 1);
   (393, 394, 1, 205); (395, 395, 1, 1); (398, 398, 1, 79); (399, 399, 1, 202);
   (400, 400, 1, 203); (401, 401, 1, 1); (403, 403, 1, 205); (404, 404, 1, 207);
   (406, 406, 1, 211); (407, 407, 1, 209); (408, 408, 1, 1); (412, 412, 1, 211);
   (413, 413, 1, 213); (415, 415, 1, 214); (416, 420, 2, 1); (422, 422, 1, 218);
   (423, 423, 1, 1); (425, 425, 1, 218); (428, 428, 1, 1); (430, 430, 1, 218); (431, 431, 1, 1);
   (433, 434, 1, 217); (435, 437, 2, 1); (439, 439, 1, 219); (440, 440, 1, 1); (444, 444, 1, 1);
   (452, 452, 1, 2); (453, 453, 1, 1); (455, 455, 1, 2); (456, 456, 1, 1); (458, 458, 1, 2);
   (459, 475, 2, 1); (478, 494, 2, 1); (497, 497, 1, 2); (498, 500, 2, 1); (502, 502, 1, -97);
   (503, 503, 1, -56); (504, 542, 2, 1); (544, 544, 1, -130); (546, 562, 2, 1);
   (570, 570, 1, 10795); (571, 571, 1, 1); (573, 573, 1, -163); (574, 574, 1, 10792);
   (577, 577, 1, 1); (579, 579, 1, -195); (580, 580, 1, 69); (581, 581, 1, 71);
   (582, 590, 2, 1); (880, 882, 2, 1); (886, 886, 1, 1); (895, 895, 1, 116); (902, 902, 1, 38);
   (904, 906, 1, 37); (908, 908, 1, 64); (910, 911, 1, 63); (913, 929, 1, 32);
   (931, 939, 1, 32); (975, 975, 1, 8); (984, 1006, 2, 1); (1012, 1012, 1, -60);
   (1015, 1015, 1, 1); (1017, 1017, 1, -7); (1018, 1018, 1, 1); (1021, 1023, 1, -130);
   (1024, 1039, 1, 80); (1040, 1071, 1, 32); (1120, 1152, 2, 1); (1162, 1214, 2, 1);
   (1216, 1216, 1, 15); (1217, 1229, 2, 1); (1232, 1326, 2, 1); (1329, 1366, 1, 48);
   (4256, 4293, 1, 7264); (4295, 4295, 1, 7264); (4301, 4301, 1, 7264); (5024, 5103, 1, 38864);
   (5104, 5109, 1, 8); (7312, 7354, 1, -3008); (7357, 7359, 1, -3008); (7680, 7828, 2, 1);
   (7838, 7838, 1, -7615); (7840, 7934, 2, 1); (7944, 7951, 1, -8); (7960, 7965, 1, -8);
   (7976, 7983, 1, -8); (7992, 7999, 1, -8); (8008, 8013, 1, -8); (8025, 8031, 2, -8);
   (8040, 8047, 1, -8); (8072, 8079, 1, -8); (8088, 8095, 1, -8); (8104, 8111, 1, -8);
   (8120, 8121, 1, -8); (8122, 8123, 1, -74); (8124, 8124, 1, -9); (8136, 8139, 1, -86);
   (8140, 8140, 1, -9); (8152, 8153, 1, -8); (8154, 8155, 1, -100); (8168, 8169, 1, -8);
   (8170, 8171, 1, -112); (8172, 8172, 1, -7); (8184, 8185, 1, -128); (8186, 8187, 1, -126);
   (8188, 8188, 1, -9); (8486, 8486, 1, -7517); (8490, 8490, 1, -8383); (8491, 8491, 1, -8262);
   (8498, 8498, 1, 28); (8544, 8559, 1, 16); (8579, 8579, 1, 1); (9398, 9423, 1, 26);
   (11264, 11311, 1, 48); (11360, 11360, 1, 1); (11362, 11362, 1, -10743);
   (11363, 11363, 1, -3814); (11364, 11364, 1, -10727); (11367, 11371, 2, 1);
   (11373, 11373, 1, -10780); (11374, 11374, 1, -10749); (11375, 11375, 1, -10783);
   (11376, 11376, 1, -10782); (11378, 11378, 1, 1); (11381, 11381, 1, 1);
   (11390, 11391, 1, -10815); (11392, 11490, 2, 1); (11499, 11501, 2, 1); (11506, 11506, 1, 1);
   (42560, 42604, 2, 1); (42624, 42650, 2, 1); (42786, 42798, 2, 1); (42802, 42862, 2, 1);
   (42873, 42875, 2, 1); (42877, 42877, 1, -35332); (42878, 42886, 2, 1); (42891, 42891, 1, 1);
   (42893, 42893, 1, -42280); (42896, 42898, 2, 1); (42902, 42920, 2, 1);
   (42922, 42922, 1, -42308); (42923, 42923, 1, -42319); (42924, 42924, 1, -42315);
   (42925, 42925, 1, -42305); (42926, 42926, 1, -42308); (42928, 42928, 1, -42258);
   (42929, 42929, 1, -42282); (42930, 42930, 1, -42261); (42931, 42931, 1, 928);
   (42932, 42946, 2, 1); (42948, 42948, 1, -48); (42949, 42949, 1, -42307);
   (42950, 42950, 1, -35384); (42951, 42953, 2, 1); (42960, 42960, 1, 1); (42966, 42968, 2, 1);
   (42997, 42997, 1, 1); (65313, 65338, 1, 32); (66560, 66599, 1, 40); (66736, 66771, 1, 40);
   (66928, 66964, 2, 39); (66929, 66937, 2, 39); (66941, 66953, 2, 39); (66957, 66961, 2, 39);
   (66965, 66965, 1, 39); (68736, 68786, 1, 64); (71840, 71871, 1, 32); (93760, 93791, 1, 32);
   (125184, 125217, 1, 34)].

(** [Py_UNICODE_ISSPACE] *)
Definition isspace (cp : Z) : bool := in_ranges cp whitespace_ranges.

(** [Py_UNICODE_TODECIMAL] *)
Fixpoint decimal_in (cp : Z) (ranges : list (Z * Z)) : option Z :=
  match ranges with
  | [] => None
  | (first, last) :: rest =>
      if (first <=? cp) && (cp <=? last) then Some ((cp - first) mod 10)
      else decimal_in cp rest
  end.

Definition to_decimal (cp : Z) : option Z := decimal_in cp decimal_ranges.

(** [_PyUnicode_ToLowerFull]: the code points a code point is lower-cased
    to, [None] when it stays; U+0130 alone goes to two. *)
Fixpoint lower_in (cp : Z) (runs : list (Z * Z * Z * Z)) : option Z :=
  match runs with
  | [] => None
  | (first, last, step, delta) :: rest =>
      if (first <=? cp) && (cp <=? last) && ((cp - first) mod step =? 0)
      then Some (cp + delta)
      else lower_in cp rest
  end.

Definition to_lower (cp : Z) : option (list Z) :=
  if cp =? 304 then Some [105; 775]
  else match lower_in cp lower_runs with
       | Some l => Some [l]
       | None => None
       end.

Definition is_case_ignorable (ch : string) : bool :=
  match code_point ch with
  | Some cp => in_ranges cp case_ignorable_ranges
  | None => false
  end.

Definition is_cased (ch : string) : bool :=
  match code_point ch with
  | Some cp => in_ranges cp cased_ranges
  | None => false
  end.

(** The second half of the final-sigma test: the next character that is not
    case-ignorable is cased. *)
Fixpoint followed_by_cased (chars : list string) : bool :=
  match chars with
  | [] => false
  | ch :: rest => if is_case_ignorable ch then followed_by_cased rest else is_cased ch
  end.

Definition capital_sigma : Z := 931.
Definition small_sigma : Z := 963.
Definition final_sigma : Z := 962.

(** What one character is lower-cased to; [final] says that a capital sigma
    stands in the final position. *)
Definition lower_char (final : bool) (ch : string) : string :=
  match code_point ch with
  | Some cp =>
      if cp =? capital_sigma
      then utf8_encode (if final then final_sigma else small_sigma)
      else match to_lower cp with
           | Some cps => str_concat (map utf8_encode cps)
           | None => ch
           end
  | None => ch
  end.

(** The loop of [str.lower]; [after_cased] says that the nearest character
    before that is not case-ignorable is cased. *)
Fixpoint lower_chars (after_cased : bool) (chars : list string) : string :=
  match chars with
  | [] => ""
  | ch :: rest =>
      lower_char (after_cased && negb (followed_by_cased rest)) ch
      +:+ lower_chars (if is_case_ignorable ch then after_cased else is_cased ch) rest
  end.

(** [s.lower()] *)
Definition str_lower (s : string) : string := lower_chars false (utf8_chars s).

(** *** Words for what [str.lower] leaves alone *)

(** The text does not begin in the middle of a character. *)
Definition clean_start (s : string) : bool :=
  match s with
  | String c _ => negb (is_continuation_byte c)
  | EmptyString => true
  end.

(** A character [str.lower] keeps wherever it stands. *)
Definition lower_fixed (ch : string) : bool :=
  match code_point ch with
  | Some cp => negb (cp =? capital_sigma) && (if to_lower cp is Some _ then false else true)
  | None => true
  end.

(** A text made of such characters only. *)
Definition settled (s : string) : bool :=
  negb (String.eqb s "") && clean_start s && forallb lower_fixed (utf8_chars s).

(** What the code points of a run go to. *)
Definition run_outputs (run : Z * Z * Z * Z) : list Z :=
  let '(first, last, step, delta) := run in
  map (fun i => first + step * Z.of_nat i + delta) (seq 0 (Z.to_nat ((last - first) / step) + 1)).

(** [s.strip()] *)
Definition is_space_char (ch : string) : bool :=
  match code_point ch with
  | Some cp => isspace cp
  | None => false
  end.

Fixpoint lstrip_chars (chars : list string) : list string :=
  match chars with
  | ch :: rest => if is_space_char ch then lstrip_chars rest else chars
  | [] => []
  end.

Definition strip (s : string) : string :=
  str_concat (rev (lstrip_chars (rev (lstrip_chars (utf8_chars s))))).

(** [sep.join(parts)] *)
Fixpoint str_join (sep : string) (parts : list string) : string :=
  match parts with
  | [] => ""
  | [p] => p
  | p :: rest => p +:+ sep +:+ str_join sep rest
  end.

Fixpoint str_contains (c : ascii) (s : string) : bool :=
  match s with
  | EmptyString => false
  | String d rest => if Ascii.eqb c d then true else str_contains c rest
  end.

Definition squote : ascii := ascii_of_nat 39.
Definition dquote : ascii := ascii_of_nat 34.
Definition backslash : ascii := ascii_of_nat 92.

Definition hex_digit (n : nat) : ascii :=
  if (n <? 10)%nat then ascii_of_nat (48 + n) else ascii_of_nat (87 + n).

(** [n] in [width] hexadecimal digits. *)
Fixpoint hex (width : nat) (n : Z) : string :=
  match width with
  | O => ""
  | S w => hex w (n / 16) +:+ String (hex_digit (Z.to_nat (n mod 16))) ""
  end.

(** One character of [repr(s)] with [q] the chosen quote. *)
Definition repr_char (q : ascii) (ch : string) : string :=
  match code_point ch with
  | Some cp =>
      if (cp =? byte_value q) || (cp =? byte_value backslash) then String backslash ch
      else if cp =? 9 then String backslash "t"
      else if cp =? 10 then String backslash "n"
      else if cp =? 13 then String backslash "r"
      else if (cp <? 32) || (cp =? 127) then String backslash (String "x" (hex 2 cp))
      else if cp <? 128 then ch
      else if in_ranges cp unprintable_ranges then
        if cp <? 256 then String backslash (String "x" (hex 2 cp))
        else if cp <? 65536 then String backslash (String "u" (hex 4 cp))
        else String backslash (String "U" (hex 8 cp))
      else ch
  | None => ch
  end.

Fixpoint repr_chars (q : ascii) (chars : list string) : string :=
  match chars with
  | [] => ""
  | ch :: rest => repr_char q ch +:+ repr_chars q rest
  end.

(** [repr(s)] of a [str]: single quotes unless the text has a single quote
    and no double quote; what is not printable is escaped. *)
Definition repr_str (s : string) : string :=
  let q := if str_contains squote s && negb (str_contains dquote s) then dquote else squote in
  String q (repr_chars q (utf8_chars s) +:+ String q "").

(** [repr(xs)] of a list of [str], which is also what an f-string shows. *)
Definition repr_list_str (xs : list string) : string :=
  "[" +:+ str_join ", " (map repr_str xs) +:+ "]".

(** *** Dictionaries *)

Fixpoint assoc_get {V} (k : string) (kv : list (string * V)) : option V :=
  match kv with
  | [] => None
  | (k', v) :: rest => if String.eqb k k' then Some v else assoc_get k rest
  end.

(** [d.get(key, default)]; only a dict has [.get]. *)
Definition dict_get (d : JSON) (key : string) (default : JSON) : Result JSON :=
  match d with
  | JObj kv => Ok (match assoc_get key kv with Some v => v | None => default end)
  | _ => Raise AttributeError
  end.

(** [d[key]] with a string key. *)
Definition py_item (d : JSON) (key : string) : Result JSON :=
  match d with
  | JObj kv => match assoc_get key kv with
               | Some v => Ok v
               | None => Raise (KeyError key)
               end
  | _ => Raise TypeError
  end.

(** [for item in v]: a list gives its items, a [str] its characters, a dict
    its keys; nothing else is iterable. *)
Definition py_iter (v : JSON) : Result (list JSON) :=
  match v with
  | JArr items => Ok items
  | JStr s => Ok (map JStr (utf8_chars s))
  | JObj kv => Ok (map (fun kv => JStr (fst kv)) kv)
  | _ => Raise TypeError
  end.

(** [v[i]] with a literal index [i >= 0]. *)
Definition py_index (v : JSON) (i : nat) : Result JSON :=
  match v with
  | JArr items => match nth_error items i with
                  | Some x => Ok x
                  | None => Raise IndexError
                  end
  | JStr s => match nth_error (utf8_chars s) i with
              | Some c => Ok (JStr c)
              | None => Raise IndexError
              end
  | JObj _ => Raise (KeyErrorInt (Z.of_nat i))
  | _ => Raise TypeError
  end.

(** [v == "literal"] *)
Definition py_eq_str (v : JSON) (s : string) : bool :=
  match v with
  | JStr t => String.eqb t s
  | _ => false
  end.

(** [v == 0]: numbers compare by value, [False == 0]. *)
Definition py_eq_zero (v : JSON) : bool :=
  match v with
  | JInt z => z =? 0
  | JBool b => negb b
  | JFloat f => PrimFloat.eqb f 0%float
  | _ => false
  end.

(** *** [str()] and [repr()] of a JSON value.  [float_repr] is Python's
    shortest-round-trip [repr] of a float, which is taken as given. *)
Section Show.
Variable float_repr : float -> string.

Fixpoint py_repr (v : JSON) : string :=
  match v with
  | JNull => "None"
  | JBool true => "True"
  | JBool false => "False"
  | JInt z => pretty z
  | JFloat f => float_repr f
  | JStr s => repr_str s
  | JArr items => "[" +:+ str_join ", " (map py_repr items) +:+ "]"
  | JObj kv =>
      "{" +:+ str_join ", " (map (fun p => repr_str (fst p) +:+ ": " +:+ py_repr (snd p)) kv) +:+ "}"
  end.

(** [str(v)], which is what [f"{v}"] shows. *)
Definition py_str (v : JSON) : string :=
  match v with
  | JStr s => s
  | _ => py_repr v
  end.
End Show.

(** *** [int(v)] *)

(** [Py_ISSPACE]: the six ASCII blanks. *)
Definition Py_ISSPACE (c : ascii) : bool :=
  let n := nat_of_ascii c in
  ((9 <=? n)%nat && (n <=? 13)%nat) || (n =? 32)%nat.

Fixpoint lstrip_ascii (s : string) : string :=
  match s with
  | String c rest => if Py_ISSPACE c then lstrip_ascii rest else s
  | EmptyString => EmptyString
  end.

Definition rstrip_ascii (s : string) : string :=
  String.rev (lstrip_ascii (String.rev s)).

Definition strip_ascii (s : string) : string := rstrip_ascii (lstrip_ascii s).

Fixpoint is_ascii (s : string) : bool :=
  match s with
  | EmptyString => true
  | String c rest => (byte_value c <? 128) && is_ascii rest
  end.

(** The loop of [_PyUnicode_TransformDecimalAndSpaceToASCII]: a character
    below 127 is kept, a blank becomes a space, a decimal digit its ASCII
    digit, and anything else ends the text with a question mark. *)
Fixpoint to_ascii_chars (chars : list string) : string :=
  match chars with
  | [] => ""
  | ch :: rest =>
      match code_point ch with
      | Some cp =>
          if cp <? 127 then ch +:+ to_ascii_chars rest
          else if isspace cp then " " +:+ to_ascii_chars rest
          else match to_decimal cp with
               | Some d => String (byte (48 + d)) (to_ascii_chars rest)
               | None => "?"
               end
      | None => "?"
      end
  end.

(** The text [int()] and [float()] parse: an ASCII text as it is. *)
Definition number_text (text : string) : string :=
  if is_ascii text then text else to_ascii_chars (utf8_chars text).

Definition digit_of (c : ascii) : option Z :=
  let n := nat_of_ascii c in
  if (48 <=? n)%nat && (n <=? 57)%nat then Some (Z.of_nat n - 48) else None.

Definition underscore : ascii := ascii_of_nat 95.

(** Decimal digits with single underscores allowed between digits:
    [digits acc count after_digit s] reads digits into [acc], counts them,
    and returns the rest of the text; [None] on a misplaced underscore. *)
Fixpoint digits (acc : Z) (count : Z) (after_digit : bool) (s : string)
  : option (Z * Z * string) :=
  match s with
  | EmptyString => Some (acc, count, EmptyString)
  | String c rest =>
      match digit_of c with
      | Some d => digits (10 * acc + d) (count + 1) true rest
      | None =>
          if Ascii.eqb c underscore then
            match rest with
            | String c' _ =>
                if after_digit && (if digit_of c' is Some _ then true else false)
                then digits acc count false rest
                else None
            | EmptyString => None
            end
          else Some (acc, count, s)
      end
  end.

(** An optional sign; [true] is minus. *)
Definition sign (s : string) : bool * string :=
  match s with
  | String c rest =>
      if (nat_of_ascii c =? 45)%nat then (true, rest)
      else if (nat_of_ascii c =? 43)%nat then (false, rest)
      else (false, s)
  | EmptyString => (false, s)
  end.

(** [sys.get_int_max_str_digits()] as the interpreter starts. *)
Definition int_max_str_digits : Z := 4300.

(** What [int(text)] in base 10 makes of a text. *)
Inductive IntText : Type :=
| int_value (z : Z)
| too_many_digits (count : Z)
| invalid_literal.

(** [int(text)] in base 10: blanks, a sign, digits with single underscores
    between them, blanks; the digits are counted before the rest is looked
    at. *)
Definition int_of_str (text : string) : IntText :=
  let '(neg, body) := sign (lstrip_ascii (number_text text)) in
  match digits 0 0 false body with
  | Some (n, count, tail) =>
      if count =? 0 then invalid_literal
      else if int_max_str_digits <? count then too_many_digits count
      else if String.eqb (lstrip_ascii tail) "" then int_value (if neg then - n else n)
      else invalid_literal
  | None => invalid_literal
  end.

(** Truncation of a finite float toward zero. *)
Definition trunc_float (f : float) : option Z :=
  match Prim2SF f with
  | S754_zero _ => Some 0
  | S754_finite s m e =>
      let mag := if 0 <=? e then Z.pos m * 2 ^ e else Z.pos m / 2 ^ (- e) in
      Some (if s then - mag else mag)
  | S754_infinity _ | S754_nan => None
  end.

Definition py_int (v : JSON) : Result Z :=
  match v with
  | JInt z => Ok z
  | JBool b => Ok (if b then 1 else 0)
  | JFloat f =>
      match trunc_float f with
      | Some z => Ok z
      | None => if PrimFloat.is_nan f
                then Raise (ValueError "cannot convert float NaN to integer")
                else Raise OverflowError
      end
  | JStr s =>
      match int_of_str s with
      | int_value z => Ok z
      | too_many_digits count =>
          Raise (ValueError ("Exceeds the limit (" +:+ pretty int_max_str_digits
                             +:+ " digits) for integer string conversion: value has "
                             +:+ pretty count +:+ " digits; use sys.set_int_max_str_digits() "
                             +:+ "to increase the limit"))
      | invalid_literal =>
          Raise (ValueError ("invalid literal for int() with base 10: " +:+ repr_str s))
      end
  | JNull | JArr _ | JObj _ => Raise TypeError
  end.

(** *** [float(v)], float arithmetic and [round(x, ndigits)]

    Python's [float] is IEEE-754 binary64, as is [PrimFloat.float]. *)

(** The binary64 nearest (ties to even) to [(-1)^neg * n * 10^k], [n >= 0]. *)
Definition float_of_decimal (neg : bool) (n k : Z) : float :=
  match n with
  | Z.pos m =>
      if 0 <=? k
      then SF2Prim (binary_normalize prec emax (if neg then - (n * 10 ^ k) else n * 10 ^ k) 0 false)
      else match 10 ^ (- k) with
           | Z.pos d => SF2Prim (SFdiv prec emax (S754_finite neg m 0) (S754_finite false d 0))
           | _ => SF2Prim (S754_zero neg)
           end
  | _ => SF2Prim (S754_zero neg)
  end.

(** [float(z)] of an [int]: the nearest float, [OverflowError] past the range. *)
Definition float_of_int (z : Z) : Result float :=
  let f := float_of_decimal (z <? 0) (Z.abs z) 0 in
  if PrimFloat.is_infinity f then Raise OverflowError else Ok f.

(** The optional exponent part [e[+-]digits] of a float literal. *)
Definition exponent (s : string) : option (Z * string) :=
  match s with
  | String c rest =>
      if (nat_of_ascii c =? 101)%nat || (nat_of_ascii c =? 69)%nat then
        let '(neg, body) := sign rest in
        match digits 0 0 false body with
        | Some (e, count, tail) =>
            if 0 <? count then Some (if neg then - e else e, tail) else None
        | None => None
        end
      else Some (0, s)
  | EmptyString => Some (0, s)
  end.

(** The digits of [int.frac], either part possibly empty (not both):
    the digits read as one integer, and the number of fraction digits. *)
Definition mantissa (s : string) : option (Z * Z * string) :=
  match digits 0 0 false s with
  | Some (ip, icount, after_int) =>
      match after_int with
      | String c rest =>
          if (nat_of_ascii c =? 46)%nat then
            match digits ip 0 false rest with
            | Some (n, fcount, tail) =>
                if 0 <? icount + fcount then Some (n, fcount, tail) else None
            | None => None
            end
          else if 0 <? icount then Some (ip, 0, after_int) else None
      | EmptyString => if 0 <? icount then Some (ip, 0, after_int) else None
      end
  | None => None
  end.

(** [float(text)] *)
Definition float_of_str (text : string) : option float :=
  let '(neg, body) := sign (strip_ascii (number_text text)) in
  let word := ascii_lower_str body in
  if String.eqb word "inf" || String.eqb word "infinity"
  then Some (if neg then neg_infinity else infinity)
  else if String.eqb word "nan" then Some nan
  else
    match mantissa body with
    | Some (n, fcount, tail) =>
        match exponent tail with
        | Some (e, EmptyString) => Some (float_of_decimal neg n (e - fcount))
        | _ => None
        end
    | None => None
    end.

Definition py_float (v : JSON) : Result float :=
  match v with
  | JFloat f => Ok f
  | JInt z => float_of_int z
  | JBool b => Ok (if b then 1%float else 0%float)
  | JStr s =>
      match float_of_str s with
      | Some f => Ok f
      | None => Raise (ValueError ("could not convert string to float: " +:+ repr_str s))
      end
  | JNull | JArr _ | JObj _ => Raise TypeError
  end.

(** [a / b] on floats: a zero divisor raises. *)
Definition truediv (a b : float) : Result float :=
  if PrimFloat.eqb b 0%float then Raise ZeroDivisionError else Ok (a / b)%float.

(** [round(x, ndigits)] of a float, [0 <= ndigits]: the decimal with
    [ndigits] fraction digits nearest to the exact value of [x] (ties to
    even), converted back to the nearest float; infinities and NaN round to
    themselves. *)
Definition round_float (x : float) (ndigits : Z) : float :=
  match Prim2SF x with
  | S754_finite s m e =>
      let scaled := Z.pos m * 10 ^ ndigits in
      let n :=
        if 0 <=? e then scaled * 2 ^ e
        else
          let den := 2 ^ (- e) in
          let q := scaled / den in
          let r := scaled mod den in
          if 2 * r <? den then q
          else if den <? 2 * r then q + 1
          else if Z.even q then q else q + 1 in
      float_of_decimal s n (- ndigits)
  | _ => x
  end.

(** [x < n] for a float [x] and an int [n]: Python compares the exact values. *)
Definition float_lt_int (x : float) (n : Z) : bool :=
  match Prim2SF x with
  | S754_nan => false
  | S754_infinity s => s
  | S754_zero _ => 0 <? n
  | S754_finite s m e =>
      let v := if s then - Z.pos m else Z.pos m in
      if 0 <=? e then v * 2 ^ e <? n else v <? n * 2 ^ (- e)
  end.

(** A Python number: [int] or [float]. *)
Inductive Num : Type :=
| Int (z : Z)
| Float (f : float).

(** [round(v, ndigits)], [0 <= ndigits]: an [int] is returned as it is. *)
Definition py_round (v : Num) (ndigits : Z) : Num :=
  match v with
  | Int z => Int z
  | Float f => Float (round_float f ndigits)
  end.

Definition json_of_num (v : Num) : JSON :=
  match v with
  | Int z => JInt z
  | Float f => JFloat f
  end.

(** [len(v)] *)
Definition py_len (v : JSON) : Result nat :=
  match v with
  | JArr items => Ok (length items)
  | JStr s => Ok (length (utf8_chars s))
  | JObj kv => Ok (length kv)
  | _ => Raise TypeError
  end.

(** [enumerate(xs)] *)
Definition enumerate {A} (xs : list A) : list (nat * A) :=
  combine (seq 0 (length xs)) xs.

(** *** Truth values and dict keys *)

(** [bool(v)], as in [if not v:]. *)
Definition py_truthy (v : JSON) : bool :=
  match v with
  | JNull => false
  | JBool b => b
  | JInt z => negb (z =? 0)
  | JFloat f => negb (PrimFloat.eqb f 0%float)
  | JStr s => negb (String.eqb s "")
  | JArr items => if items is [] then false else true
  | JObj kv => if kv is [] then false else true
  end.

(** Lists and dicts cannot be dict keys. *)
Definition hashable (v : JSON) : bool :=
  match v with
  | JArr _ | JObj _ => false
  | _ => true
  end.

(** The integer a float is exactly equal to, if any. *)
Definition float_as_int (f : float) : option Z :=
  match Prim2SF f with
  | S754_zero _ => Some 0
  | S754_finite s m e =>
      if 0 <=? e then Some (if s then - (Z.pos m * 2 ^ e) else Z.pos m * 2 ^ e)
      else if Z.pos m mod 2 ^ (- e) =? 0
           then Some (if s then - (Z.pos m / 2 ^ (- e)) else Z.pos m / 2 ^ (- e))
           else None
  | S754_infinity _ | S754_nan => None
  end.

(** How a dict compares hashable keys, the same object or [a == b]: numbers
    (with [True] as 1 and [False] as 0) by value, strings by content; every
    NaN of a parsed document is the one object [json.decoder.NaN]. *)
Definition key_eq (a b : JSON) : bool :=
  let as_int v :=
    match v with
    | JInt z => Some z
    | JBool c => Some (if c then 1 else 0)
    | JFloat f => float_as_int f
    | _ => None
    end in
  match a, b with
  | JNull, JNull => true
  | JStr s, JStr t => String.eqb s t
  | JFloat f, JFloat g => PrimFloat.eqb f g || (PrimFloat.is_nan f && PrimFloat.is_nan g)
  | _, _ =>
      match as_int a, as_int b with
      | Some x, Some y => x =? y
      | _, _ => false
      end
  end.

(** A dict keyed by JSON values: [d[key] = value] ... *)
Fixpoint key_set {V} (key : JSON) (value : V) (d : list (JSON * V)) : list (JSON * V) :=
  match d with
  | [] => [(key, value)]
  | (k, v) :: rest =>
      if key_eq key k then (k, value) :: rest else (k, v) :: key_set key value rest
  end.

(** ... and [d.get(key)]. *)
Fixpoint key_get {V} (key : JSON) (d : list (JSON * V)) : option V :=
  match d with
  | [] => None
  | (k, v) :: rest => if key_eq key k then Some v else key_get key rest
  end.


(** [part] occurs in [msg]. *)
Definition mentions (msg part : string) : Prop :=
  exists before after, msg = before +:+ part +:+ after.

End Py.

(** ** The network: httpx requests under tenacity's retry decorator *)

Module Net.
Import Py.

Inductive Request : Type :=
| GET (url : string)
| POST (url : string) (payload : JSON).

(** What one [client.get]/[client.post] call ends in: the call itself raises
    (connection refused, timeout after 30 s, ...), or a response arrives with
    a status code and a body; [body = None] is a body [response.json()]
    cannot parse. *)
Inductive HttpOutcome : Type :=
| Failed (msg : string)
| Response (status : Z) (body : option JSON).

(** The remote side: the outcome of the [n]-th request issued (from 0). *)
Definition Remote : Type := nat -> Request -> HttpOutcome.

(** The observable network activity of a run: the requests issued and the
    waits slept between attempts, both oldest first. *)
Record State : Type := mkState {
  requests : list Request;
  sleeps : list Z
}.

Definition idle : State := {| requests := []; sleeps := [] |}.

Definition NetM (A : Type) : Type := M State A.

(** [response.raise_for_status()] lets 2xx through. *)
Definition is_success (status : Z) : bool := (200 <=? status) && (status <=? 299).

(** What the two lines after the request make of its outcome:
    [response.raise_for_status()]; [return response.json()] *)
Definition receive (o : HttpOutcome) : Result JSON :=
  match o with
  | Failed msg => Raise (TransportError msg)
  | Response status body =>
      if is_success status then
        match body with
        | Some v => Ok v
        | None => Raise JSONDecodeError
        end
      else Raise (HTTPStatusError status)
  end.

(** The body of a decorated fetch function:
    [response = self.client.get(url)] (or [.post(url, json=payload)]);
    [response.raise_for_status()]; [return response.json()] *)
Definition send (http : Remote) (req : Request) : NetM JSON :=
  fun s =>
    (receive (http (length (requests s)) req),
     {| requests := requests s ++ [req]; sleeps := sleeps s |}).

(** What the [i]-th request (from 0) issued from state [s] on would end in,
    were it [req]. *)
Definition attempt (http : Remote) (req : Request) (s : State) (i : nat) : Result JSON :=
  receive (http (length (requests s) + i)%nat req).

(** [time.sleep(seconds)] as called by tenacity between attempts. *)
Definition sleep (seconds : Z) : NetM unit :=
  fun s => (Ok tt, {| requests := requests s; sleeps := sleeps s ++ [seconds] |}).

(** The run from [s] to [s'] issued [req] first. *)
Definition request_sent (req : Request) (s s' : State) : Prop :=
  exists later, requests s' = requests s ++ req :: later.

End Net.

(** tenacity's [Retrying] loop with the stop and wait strategies the
    decorators of the adapters name, and its defaults for the rest. *)
Module Tenacity.
Import Py Net.

(** [wait_exponential(multiplier, min, max)] at an attempt number (from 1):
    [exp = 2 ** (attempt_number - 1); result = multiplier * exp;
     return max(max(0, min), min(result, max))] *)
Definition wait_exponential (multiplier min max : Z) (attempt_number : Z) : Z :=
  let exp := 2 ^ (attempt_number - 1) in
  let result := multiplier * exp in
  Z.max (Z.max 0 min) (Z.min result max).

(** [stop_after_attempt(n)]: stop once [attempt_number >= n]. *)
Definition stop_after_attempt (max_attempt_number : Z) (attempt_number : Z) : bool :=
  max_attempt_number <=? attempt_number.

(** The arguments of [@retry(...)].  [retry_on] and [reraise] are the two the
    decorators of this repository leave at their defaults. *)
Record Retrying : Type := mkRetrying {
  stop : Z -> bool;
  wait : Z -> Z;
  retry_on : exn -> bool;
  reraise : bool
}.

(** tenacity's defaults: [retry=retry_if_exception_type()] retries on every
    [Exception]; [reraise=False] wraps the last failure in [RetryError]. *)
Definition retry_if_exception_type_default (e : exn) : bool := true.
Definition reraise_default : bool := false.

(** The retry loop.  After a failed attempt: if the retry predicate rejects
    the exception it propagates as it is; if [stop] holds the loop ends with
    [RetryError] (or the last exception when [reraise]); otherwise sleep
    [wait attempt_number] and try again.  [fuel] bounds the number of
    attempts still allowed; [None] is a loop that [fuel] cut short. *)
Fixpoint call {A} (cfg : Retrying) (fuel : nat) (attempt_number : Z) (fn : NetM A)
  : State -> option (Result A * State) :=
  fun s =>
    match fuel with
    | O => None
    | S fuel' =>
        match fn s with
        | (Ok v, s1) => Some (Ok v, s1)
        | (Raise e, s1) =>
            if negb (retry_on cfg e) then Some (Raise e, s1)
            else if stop cfg attempt_number
                 then Some (Raise (if reraise cfg then e else RetryError e), s1)
            else let '(_, s2) := sleep (wait cfg attempt_number) s1 in
                 call cfg fuel' (attempt_number + 1) fn s2
        end
    end.

(** [@retry(stop=stop_after_attempt(3),
           wait=wait_exponential(multiplier=1, min=2, max=10))] *)
Definition policy : Retrying :=
  {| stop := stop_after_attempt 3;
     wait := wait_exponential 1 2 10;
     retry_on := retry_if_exception_type_default;
     reraise := reraise_default |}.

(** A function under the decorator above.  Three units of fuel are enough
    for [stop_after_attempt(3)] (lemma [call_policy_total]); the last branch
    is never taken. *)
Definition retry {A} (fn : NetM A) : NetM A :=
  fun s =>
    match call policy 3 1 fn s with
    | Some out => out
    | None => (Raise (RetryError (Exception_ "")), s)
    end.

End Tenacity.

Notation "'let!' x ':=' m 'in' k" := (Py.bind m (fun x => k))
  (at level 10, x pattern, m at level 200, k at level 200, only parsing).

(** ** core/base_exchange.py *)

Module BaseExchange.
Import Py Net.

(** [{"symbol": ..., "pair": ...}] as built by [fetch_symbols_from_exchange]. *)
Record SymbolData : Type := mkSymbolData {
  sd_symbol : JSON;
  sd_pair : JSON
}.

(** [{**pair, "exchange": exchange, "is_active": flag}] *)
Record TradingPair : Type := mkTradingPair {
  symbol : JSON;
  pair : JSON;
  exchange : string;
  is_active : bool
}.

(** [{"active": [...], "inactive": [...]}] *)
Record PairSet : Type := mkPairSet {
  active : list TradingPair;
  inactive : list TradingPair
}.

(** A concrete subclass of [BaseExchange]: its name, the class method
    [get_supported_markets], and its [process_<market>] methods
    ([process_ m = None] when [hasattr(self, "process_" + m)] is false).
    The [process_*] methods of the adapters reach the instance only through
    [_fetch_with_retry], so they are computations over the network state. *)
Record Adapter : Type := mkAdapter {
  __name__ : string;
  get_supported_markets : list string;
  process_ : string -> option (NetM (list TradingPair * list TradingPair))
}.

(** The attributes [__init__] sets that the methods below use, with the
    network activity of the instance's client and the number of readings
    taken from [time.time()] so far. *)
Record Instance : Type := mkInstance {
  cache_ttl : Z;
  _cache : gmap string (float * PairSet);
  net : Net.State;
  clock_reads : nat
}.

(** [BaseExchange.__init__(self, db_handler=None, cache_ttl=60)] *)
Definition __init__ (cache_ttl : Z) : Instance :=
  {| cache_ttl := cache_ttl; _cache := ∅; net := Net.idle; clock_reads := 0 |}.

Definition default_cache_ttl : Z := 60.

Section Methods.
Variable http : Remote.
(** [time_time n]: what the [n]-th call of [time.time()] returns. *)
Variable time_time : nat -> float.

(** [_fetch_with_retry(self, url)], decorated with
    [@retry(stop=stop_after_attempt(3), wait=wait_exponential(multiplier=1, min=2, max=10))] *)
Definition _fetch_with_retry (url : string) : NetM JSON :=
  Tenacity.retry (send http (GET url)).

Definition now : M Instance float :=
  fun self =>
    (Ok (time_time (clock_reads self)),
     {| cache_ttl := cache_ttl self; _cache := _cache self; net := net self;
        clock_reads := S (clock_reads self) |}).

Definition cache_store (market_type : string) (entry : float * PairSet) : M Instance unit :=
  fun self =>
    (Ok tt,
     {| cache_ttl := cache_ttl self; _cache := <[market_type := entry]> (_cache self);
        net := net self; clock_reads := clock_reads self |}).

(** Run a network computation on the instance's client. *)
Definition on_net {A} (m : NetM A) : M Instance A :=
  fun self =>
    let '(r, n) := m (net self) in
    (r, {| cache_ttl := cache_ttl self; _cache := _cache self; net := n;
           clock_reads := clock_reads self |}).

(** [fetch_klines] of the base class. *)
Definition fetch_klines (cls : Adapter) : M Instance (list JSON) :=
  raise (NotImplementedError ("Kline fetching not implemented for " +:+ __name__ cls)).

(** [generate_symbol_updates_with_non_trading(self, exchange, trading_pairs, non_trading_pairs)] *)
Definition generate_symbol_updates_with_non_trading
    (exchange : string) (trading_pairs non_trading_pairs : list SymbolData)
  : list TradingPair * list TradingPair :=
  let active :=
    map (fun p => {| symbol := sd_symbol p; pair := sd_pair p;
                     exchange := exchange; is_active := true |}) trading_pairs in
  let inactive :=
    map (fun p => {| symbol := sd_symbol p; pair := sd_pair p;
                     exchange := exchange; is_active := false |}) non_trading_pairs in
  (active, inactive).

(** The part of [fetch_all_pairs] after the cache check: the live fetch
    and, when caching, the store. *)
Definition fetch_live (cls : Adapter) (market_type : string) (use_cache : bool)
  : M Instance PairSet :=
  match process_ cls market_type with
  | None => raise (NotImplementedError ("Method process_" +:+ market_type +:+ " not implemented"))
  | Some method =>
      let! (active, inactive) := on_net method in
      let result := {| active := active; inactive := inactive |} in
      if use_cache then
        let! t := now in
        let! _ := cache_store market_type (t, result) in
        ret result
      else ret result
  end.

(** [fetch_all_pairs(self, market_type, use_cache=True)] *)
Definition fetch_all_pairs (cls : Adapter) (market_type : string) (use_cache : bool)
  : M Instance PairSet :=
  fun self =>
    if decide (market_type ∉ get_supported_markets cls) then
      raise (ValueError ("Unsupported market type '" +:+ market_type +:+ "'. "
                         +:+ "Supported markets: "
                         +:+ repr_list_str (get_supported_markets cls))) self
    else
      match (if use_cache then _cache self !! market_type else None) with
      | Some (timestamp, cached_data) =>
          (let! t := now in
           if float_lt_int (t - timestamp)%float (cache_ttl self) then ret cached_data
           else fetch_live cls market_type use_cache) self
      | None => fetch_live cls market_type use_cache self
      end.

End Methods.
End BaseExchange.

(** A kline, funding-rate or market-data record: a [dict] with string keys. *)
Definition Record_ : Type := list (string * Py.JSON).

(** [if v:] for an optional [int] argument: [None] and [0] are false. *)
Definition given (v : option Z) : option Z :=
  match v with
  | Some z => if z =? 0 then None else Some z
  | None => None
  end.

(** [f"{base_url}?{query_string}"] with
    [query_string = "&".join([f"{k}={v}" for k, v in params.items()])] *)
Definition url_with (base_url : string) (params : list (string * string)) : string :=
  base_url +:+ "?" +:+ Py.str_join "&" (map (fun kv => fst kv +:+ "=" +:+ snd kv) params).

(** ** exchanges/binance.py *)

Module BinanceExchange.
Import Py Net BaseExchange.

Definition spot_url : string := "https://api.binance.com/api/v3/exchangeInfo?permissions=SPOT".
Definition futures_url : string := "https://fapi.binance.com/fapi/v1/exchangeInfo".
Definition default_quote_asset : string := "USDT".

Definition get_supported_markets : list string := ["spot"; "futures"].

Definition valid_intervals : list string :=
  ["1s"; "1m"; "3m"; "5m"; "15m"; "30m"; "1h"; "2h"; "4h"; "6h"; "8h"; "12h"; "1d"; "3d"; "1w"; "1M"].

(** The two accumulators of the single-pass loops. *)
Definition Symbols : Type := (list SymbolData * list SymbolData)%type.

(** Loop body for ["binance-spot"]. *)
Definition spot_item (acc : Symbols) (item : JSON) : Result Symbols :=
  let '(trading_symbols, non_trading_symbols) := acc in
  rbind (dict_get item "quoteAsset" JNull) (fun quote =>
  if py_eq_str quote default_quote_asset then
    rbind (py_item item "baseAsset") (fun base =>
    rbind (py_item item "symbol") (fun sym =>
    let symbol_data := {| sd_symbol := base; sd_pair := sym |} in
    rbind (dict_get item "status" JNull) (fun status =>
    if py_eq_str status "TRADING"
    then Ok (trading_symbols ++ [symbol_data], non_trading_symbols)
    else Ok (trading_symbols, non_trading_symbols ++ [symbol_data]))))
  else Ok acc).

(** Loop body for ["binance-futures"]. *)
Definition futures_item (acc : Symbols) (item : JSON) : Result Symbols :=
  let '(trading_symbols, non_trading_symbols) := acc in
  rbind (dict_get item "quoteAsset" JNull) (fun quote =>
  rbind (if py_eq_str quote default_quote_asset
         then rbind (dict_get item "contractType" JNull)
                    (fun ct => Ok (py_eq_str ct "PERPETUAL"))
         else Ok false) (fun wanted =>
  if wanted : bool then
    rbind (py_item item "baseAsset") (fun base =>
    rbind (py_item item "pair") (fun pr =>
    let symbol_data := {| sd_symbol := base; sd_pair := pr |} in
    rbind (dict_get item "status" JNull) (fun status =>
    if py_eq_str status "TRADING"
    then Ok (trading_symbols ++ [symbol_data], non_trading_symbols)
    else Ok (trading_symbols, non_trading_symbols ++ [symbol_data]))))
  else Ok acc)).

(** The parse of one fetched exchange-info document. *)
Definition partition_symbols (exchange : string) (data : JSON) : Result Symbols :=
  if String.eqb exchange "binance-spot" then
    rbind (dict_get data "symbols" (JArr [])) (fun symbols =>
    rbind (py_iter symbols) (fun items => for_each spot_item items ([], [])))
  else if String.eqb exchange "binance-futures" then
    rbind (dict_get data "symbols" (JArr [])) (fun symbols =>
    rbind (py_iter symbols) (fun items => for_each futures_item items ([], [])))
  else Raise (ValueError ("Invalid Binance exchange type: " +:+ exchange)).

(** The positional mapping of one kline row. *)
Definition kline_of_row (item : JSON) : Result Record_ :=
  rbind (py_index item 0) (fun open_time =>
  rbind (py_index item 1) (fun open =>
  rbind (py_index item 2) (fun high =>
  rbind (py_index item 3) (fun low =>
  rbind (py_index item 4) (fun close =>
  rbind (py_index item 5) (fun volume =>
  rbind (py_index item 6) (fun close_time =>
  rbind (py_index item 7) (fun quote_volume =>
  rbind (py_index item 8) (fun trades =>
  rbind (py_index item 9) (fun taker_buy_base =>
  rbind (py_index item 10) (fun taker_buy_quote =>
  Ok [("open_time", open_time); ("open", open); ("high", high); ("low", low);
      ("close", close); ("volume", volume); ("close_time", close_time);
      ("quote_volume", quote_volume); ("trades", trades);
      ("taker_buy_base", taker_buy_base); ("taker_buy_quote", taker_buy_quote)]))))))))))).

Definition parse_klines (raw_data : JSON) : Result (list Record_) :=
  rbind (py_iter raw_data) (fun items =>
  for_each (fun klines item => rbind (kline_of_row item) (fun k => Ok (klines ++ [k]))) items []).

Definition max_limit (market : string) : Z :=
  if String.eqb market "spot" then 1000 else 1500.

Section Methods.
Variable http : Remote.

(** [fetch_symbols_from_exchange(self, url, exchange)] *)
Definition fetch_symbols_from_exchange (url exchange : string) : NetM Symbols :=
  let! data := _fetch_with_retry http url in
  lift (partition_symbols exchange data).

(** [fetch_symbols_retry] of the base class, which only forwards. *)
Definition fetch_symbols_retry (url exchange : string) : NetM Symbols :=
  fetch_symbols_from_exchange url exchange.

(** [generate_symbol_updates], which only forwards. *)
Definition generate_symbol_updates (exchange : string) (trading non_trading : list SymbolData)
  : list TradingPair * list TradingPair :=
  generate_symbol_updates_with_non_trading exchange trading non_trading.

Definition process_spot : NetM (list TradingPair * list TradingPair) :=
  let exchange := "binance-spot" in
  let! (trading_symbols, non_trading_symbols) := fetch_symbols_retry spot_url exchange in
  ret (generate_symbol_updates exchange trading_symbols non_trading_symbols).

Definition process_futures : NetM (list TradingPair * list TradingPair) :=
  let exchange := "binance-futures" in
  let! (trading_symbols, non_trading_symbols) := fetch_symbols_retry futures_url exchange in
  ret (generate_symbol_updates exchange trading_symbols non_trading_symbols).

(** [fetch_klines(self, symbol, interval, market="spot", start_time=None,
                  end_time=None, limit=500, timezone="0")] *)
Definition fetch_klines (symbol interval market : string)
    (start_time end_time : option Z) (limit : Z) (timezone : string)
  : NetM (list Record_) :=
  if decide (interval ∉ valid_intervals) then
    raise (ValueError ("Invalid interval '" +:+ interval +:+ "'. "
                       +:+ "Supported intervals: " +:+ str_join ", " valid_intervals))
  else if max_limit market <? limit then
    raise (ValueError ("Limit cannot exceed " +:+ pretty (max_limit market)
                       +:+ " for " +:+ market +:+ " market"))
  else
    match (if String.eqb market "spot" then Some "https://api.binance.com/api/v3/klines"
           else if String.eqb market "futures" then Some "https://fapi.binance.com/fapi/v1/klines"
           else None) with
    | None => raise (ValueError ("Invalid market type '" +:+ market
                                 +:+ "'. Supported: 'spot', 'futures'"))
    | Some base_url =>
        let params :=
          [("symbol", symbol); ("interval", interval); ("limit", pretty limit)]
          ++ (if String.eqb market "spot" && negb (String.eqb timezone "")
              then [("timeZone", timezone)] else [])
          ++ (if given start_time is Some t then [("startTime", pretty t)] else [])
          ++ (if given end_time is Some t then [("endTime", pretty t)] else []) in
        let url := url_with base_url params in
        let! raw_data := _fetch_with_retry http url in
        lift (parse_klines raw_data)
    end.

End Methods.

(** The class, as [fetch_all_pairs] sees it. *)
Definition cls (http : Remote) : Adapter :=
  {| __name__ := "BinanceExchange";
     BaseExchange.get_supported_markets := get_supported_markets;
     process_ := fun m =>
       if String.eqb m "spot" then Some (process_spot http)
       else if String.eqb m "futures" then Some (process_futures http)
       else None |}.

(** [BinanceExchange(db_handler)]: [super().__init__(db_handler)] keeps the
    default [cache_ttl]. *)
Definition new : Instance := __init__ default_cache_ttl.

(** *** Words for the properties of the spot listing *)

(** A member of the ["symbols"] list quoted in the default quote asset, with
    the two keys the loop indexes. *)
Definition listed_in_quote (fields : list (string * JSON)) : Prop :=
  assoc_get "quoteAsset" fields = Some (JStr default_quote_asset)
  /\ is_Some (assoc_get "baseAsset" fields)
  /\ is_Some (assoc_get "symbol" fields).

(** The vendor's ["status"] of a listing is [status]. *)
Definition has_status (status : string) (fields : list (string * JSON)) : bool :=
  match assoc_get "status" fields with
  | Some v => py_eq_str v status
  | None => false
  end.

(** The [{"symbol": item["baseAsset"], "pair": item["symbol"]}] of a listing. *)
Definition symbol_data_of (fields : list (string * JSON)) : SymbolData :=
  {| sd_symbol := default JNull (assoc_get "baseAsset" fields);
     sd_pair := default JNull (assoc_get "symbol" fields) |}.

(** The trading pair a spot listing becomes under the flag [flag]. *)
Definition spot_pair (flag : bool) (fields : list (string * JSON)) : TradingPair :=
  {| symbol := default JNull (assoc_get "baseAsset" fields);
     pair := default JNull (assoc_get "symbol" fields);
     exchange := "binance-spot";
     is_active := flag |}.

(** *** Words for the properties of the listings in general *)

(** The ["quoteAsset"] of a listing is the default quote asset. *)
Definition quoted_in_default (fields : list (string * JSON)) : bool :=
  match assoc_get "quoteAsset" fields with
  | Some v => py_eq_str v default_quote_asset
  | None => false
  end.

(** The ["contractType"] of a listing is "PERPETUAL". *)
Definition is_perpetual (fields : list (string * JSON)) : bool :=
  match assoc_get "contractType" fields with
  | Some v => py_eq_str v "PERPETUAL"
  | None => false
  end.

(** The listings the futures loop keeps. *)
Definition kept_for_futures (fields : list (string * JSON)) : bool :=
  quoted_in_default fields && is_perpetual fields.

(** The [{"symbol": item["baseAsset"], "pair": item["pair"]}] of a futures listing. *)
Definition futures_symbol_data_of (fields : list (string * JSON)) : SymbolData :=
  {| sd_symbol := default JNull (assoc_get "baseAsset" fields);
     sd_pair := default JNull (assoc_get "pair" fields) |}.

(** The trading pair a futures listing becomes under the flag [flag]. *)
Definition futures_pair (flag : bool) (fields : list (string * JSON)) : TradingPair :=
  {| symbol := default JNull (assoc_get "baseAsset" fields);
     pair := default JNull (assoc_get "pair" fields);
     exchange := "binance-futures";
     is_active := flag |}.

(** The kline a row of at least eleven entries becomes: entry [i] under the
    [i]-th key. *)
Definition kline_of_entries (row : list JSON) : Record_ :=
  combine ["open_time"; "open"; "high"; "low"; "close"; "volume"; "close_time";
           "quote_volume"; "trades"; "taker_buy_base"; "taker_buy_quote"]
          (firstn 11 row).

(** *** Funding rates and open interest *)

Definition valid_periods : list string :=
  ["5m"; "15m"; "30m"; "1h"; "2h"; "4h"; "6h"; "12h"; "1d"].

(** One record of [fetch_funding_rate_history]. *)
Definition funding_rate_of (item : JSON) : Result Record_ :=
  rbind (dict_get item "symbol" JNull) (fun sym =>
  rbind (dict_get item "fundingRate" JNull) (fun rate =>
  rbind (dict_get item "fundingTime" JNull) (fun time =>
  rbind (dict_get item "markPrice" JNull) (fun mark =>
  Ok [("symbol", sym); ("funding_rate", rate); ("funding_time", time);
      ("mark_price", mark)])))).

Definition parse_funding_rates (raw_data : JSON) : Result (list Record_) :=
  rbind (py_iter raw_data) (fun items =>
  for_each (fun acc item => rbind (funding_rate_of item) (fun r => Ok (acc ++ [r]))) items []).

(** One record of [fetch_open_interest_history]. *)
Definition open_interest_of (item : JSON) : Result Record_ :=
  rbind (dict_get item "symbol" JNull) (fun sym =>
  rbind (dict_get item "sumOpenInterest" JNull) (fun oi =>
  rbind (dict_get item "sumOpenInterestValue" JNull) (fun value =>
  rbind (dict_get item "timestamp" JNull) (fun ts =>
  Ok [("symbol", sym); ("sum_open_interest", oi); ("sum_open_interest_value", value);
      ("timestamp", ts)])))).

Definition parse_open_interest (raw_data : JSON) : Result (list Record_) :=
  rbind (py_iter raw_data) (fun items =>
  for_each (fun acc item => rbind (open_interest_of item) (fun r => Ok (acc ++ [r]))) items []).

(** [if symbol:] for an optional [str] argument: [None] and [""] are false. *)
Definition given_str (v : option string) : option string :=
  match v with
  | Some s => if String.eqb s "" then None else Some s
  | None => None
  end.

Section Derivatives.
Variable http : Remote.

(** [fetch_funding_rate_history(self, symbol=None, start_time=None,
                                end_time=None, limit=100)] *)
Definition fetch_funding_rate_history (symbol : option string)
    (start_time end_time : option Z) (limit : Z) : NetM (list Record_) :=
  if (1000 <? limit) || (limit <? 1) then
    raise (ValueError "Limit must be between 1 and 1000")
  else
    let base_url := "https://fapi.binance.com/fapi/v1/fundingRate" in
    let params :=
      [("limit", pretty limit)]
      ++ (if given_str symbol is Some sym then [("symbol", sym)] else [])
      ++ (if given start_time is Some t then [("startTime", pretty t)] else [])
      ++ (if given end_time is Some t then [("endTime", pretty t)] else []) in
    let url := url_with base_url params in
    let! raw_data := _fetch_with_retry http url in
    lift (parse_funding_rates raw_data).

(** [fetch_open_interest_history(self, symbol, period, limit=30,
                                 start_time=None, end_time=None)] *)
Definition fetch_open_interest_history (symbol period : string) (limit : Z)
    (start_time end_time : option Z) : NetM (list Record_) :=
  if decide (period ∉ valid_periods) then
    raise (ValueError ("Invalid period '" +:+ period +:+ "'. "
                       +:+ "Supported periods: " +:+ str_join ", " valid_periods))
  else if (500 <? limit) || (limit <? 1) then
    raise (ValueError "Limit must be between 1 and 500")
  else
    let base_url := "https://fapi.binance.com/futures/data/openInterestHist" in
    let params :=
      [("symbol", symbol); ("period", period); ("limit", pretty limit)]
      ++ (if given start_time is Some t then [("startTime", pretty t)] else [])
      ++ (if given end_time is Some t then [("endTime", pretty t)] else []) in
    let url := url_with base_url params in
    let! raw_data := _fetch_with_retry http url in
    lift (parse_open_interest raw_data).

End Derivatives.

(** The funding-rate record a dict becomes. *)
Definition funding_record (fields : list (string * JSON)) : Record_ :=
  [("symbol", default JNull (assoc_get "symbol" fields));
   ("funding_rate", default JNull (assoc_get "fundingRate" fields));
   ("funding_time", default JNull (assoc_get "fundingTime" fields));
   ("mark_price", default JNull (assoc_get "markPrice" fields))].

(** The open-interest record a dict becomes. *)
Definition open_interest_record (fields : list (string * JSON)) : Record_ :=
  [("symbol", default JNull (assoc_get "symbol" fields));
   ("sum_open_interest", default JNull (assoc_get "sumOpenInterest" fields));
   ("sum_open_interest_value", default JNull (assoc_get "sumOpenInterestValue" fields));
   ("timestamp", default JNull (assoc_get "timestamp" fields))].

End BinanceExchange.

(** ** exchanges/bybit.py *)

Module BybitExchange.
Import Py Net BaseExchange.

Definition spot_url : string :=
  "https://api.bybit.com/v5/market/instruments-info?category=spot&status=Trading&limit=1000".
Definition futures_url : string :=
  "https://api.bybit.com/v5/market/instruments-info?category=linear&status=Trading&limit=1000".
Definition default_quote_asset : string := "USDT".

Definition get_supported_markets : list string := ["spot"; "futures"].

Definition valid_intervals : list string :=
  ["1"; "3"; "5"; "15"; "30"; "60"; "120"; "240"; "360"; "720"; "D"; "W"; "M"].

Definition Symbols : Type := (list SymbolData * list SymbolData)%type.

(** [{"symbol": item.get("baseCoin"), "pair": item.get("symbol")}] *)
Definition symbol_data (item : JSON) : Result SymbolData :=
  rbind (dict_get item "baseCoin" JNull) (fun base =>
  rbind (dict_get item "symbol" JNull) (fun sym =>
  Ok {| sd_symbol := base; sd_pair := sym |})).

(** One step of the list comprehension for ["bybit-spot"]. *)
Definition spot_item (acc : list SymbolData) (item : JSON) : Result (list SymbolData) :=
  rbind (dict_get item "quoteCoin" JNull) (fun quote =>
  rbind (if py_eq_str quote default_quote_asset
         then rbind (dict_get item "status" JNull) (fun st => Ok (py_eq_str st "Trading"))
         else Ok false) (fun wanted =>
  if wanted : bool then rbind (symbol_data item) (fun sd => Ok (acc ++ [sd])) else Ok acc)).

(** One step of the list comprehension for ["bybit-futures"]. *)
Definition futures_item (acc : list SymbolData) (item : JSON) : Result (list SymbolData) :=
  rbind (dict_get item "quoteCoin" JNull) (fun quote =>
  rbind (if py_eq_str quote default_quote_asset
         then rbind (dict_get item "contractType" JNull) (fun ct =>
              if py_eq_str ct "LinearPerpetual"
              then rbind (dict_get item "status" JNull) (fun st => Ok (py_eq_str st "Trading"))
              else Ok false)
         else Ok false) (fun wanted =>
  if wanted : bool then rbind (symbol_data item) (fun sd => Ok (acc ++ [sd])) else Ok acc)).

(** [response.get("result", {}).get("list", [])] *)
Definition result_list (response : JSON) : Result JSON :=
  rbind (dict_get response "result" (JObj [])) (fun result =>
  dict_get result "list" (JArr [])).

(** The parse of one fetched instruments-info document. *)
Definition partition_symbols (exchange : string) (data : JSON) : Result Symbols :=
  rbind (result_list data) (fun lst =>
  if String.eqb exchange "bybit-spot" then
    rbind (py_iter lst) (fun items =>
    rbind (for_each spot_item items []) (fun trading_symbols =>
    Ok (trading_symbols, [])))
  else if String.eqb exchange "bybit-futures" then
    rbind (py_iter lst) (fun items =>
    rbind (for_each futures_item items []) (fun trading_symbols =>
    Ok (trading_symbols, [])))
  else Raise (ValueError ("Invalid Bybit exchange type: " +:+ exchange))).

(** One vendor row [[startTime, open, high, low, close, volume, turnover]]. *)
Definition kline_of_row (item : JSON) : Result Record_ :=
  rbind (py_index item 0) (fun start =>
  rbind (py_int start) (fun open_time =>
  rbind (py_index item 1) (fun open =>
  rbind (py_index item 2) (fun high =>
  rbind (py_index item 3) (fun low =>
  rbind (py_index item 4) (fun close =>
  rbind (py_index item 5) (fun volume =>
  rbind (py_index item 6) (fun turnover =>
  Ok [("open_time", JInt open_time); ("open", open); ("high", high); ("low", low);
      ("close", close); ("volume", volume); ("turnover", turnover)])))))))).

(** The loop over [raw_data] followed by [klines.reverse()]. *)
Definition parse_klines (raw_data : JSON) : Result (list Record_) :=
  rbind (py_iter raw_data) (fun items =>
  rbind (for_each (fun klines item => rbind (kline_of_row item) (fun k => Ok (klines ++ [k])))
                  items []) (fun klines =>
  Ok (rev klines))).

Definition funding_rate_of (item : JSON) : Result Record_ :=
  rbind (dict_get item "symbol" JNull) (fun sym =>
  rbind (dict_get item "fundingRate" JNull) (fun rate =>
  rbind (dict_get item "fundingRateTimestamp" JNull) (fun ts =>
  Ok [("symbol", sym); ("funding_rate", rate); ("funding_rate_timestamp", ts)]))).

Definition parse_funding_rates (raw_data : JSON) : Result (list Record_) :=
  rbind (py_iter raw_data) (fun items =>
  for_each (fun acc item => rbind (funding_rate_of item) (fun r => Ok (acc ++ [r]))) items []).

Section Methods.
Variable http : Remote.
Variable float_repr : float -> string.

(** [if response.get("retCode") != 0:
       raise Exception(f"Bybit API error: {response.get('retMsg', 'Unknown error')}")] *)
Definition check_retCode (response : JSON) : Result unit :=
  rbind (dict_get response "retCode" JNull) (fun code =>
  if negb (py_eq_zero code) then
    rbind (dict_get response "retMsg" (JStr "Unknown error")) (fun ret_msg =>
    Raise (Exception_ ("Bybit API error: " +:+ py_str float_repr ret_msg)))
  else Ok tt).

Definition fetch_symbols_from_exchange (url exchange : string) : NetM Symbols :=
  let! data := _fetch_with_retry http url in
  lift (partition_symbols exchange data).

Definition fetch_symbols_retry (url exchange : string) : NetM Symbols :=
  fetch_symbols_from_exchange url exchange.

Definition generate_symbol_updates (exchange : string) (trading non_trading : list SymbolData)
  : list TradingPair * list TradingPair :=
  generate_symbol_updates_with_non_trading exchange trading non_trading.

Definition process_spot : NetM (list TradingPair * list TradingPair) :=
  let exchange := "bybit-spot" in
  let! (trading_symbols, non_trading_symbols) := fetch_symbols_retry spot_url exchange in
  ret (generate_symbol_updates exchange trading_symbols non_trading_symbols).

Definition process_futures : NetM (list TradingPair * list TradingPair) :=
  let exchange := "bybit-futures" in
  let! (trading_symbols, non_trading_symbols) := fetch_symbols_retry futures_url exchange in
  ret (generate_symbol_updates exchange trading_symbols non_trading_symbols).

(** [fetch_klines(self, symbol, interval, market="spot", start_time=None,
                  end_time=None, limit=200, timezone="0")] *)
Definition fetch_klines (symbol interval market : string)
    (start_time end_time : option Z) (limit : Z) (timezone : string)
  : NetM (list Record_) :=
  if decide (interval ∉ valid_intervals) then
    raise (ValueError ("Invalid interval '" +:+ interval +:+ "'. "
                       +:+ "Supported intervals: " +:+ str_join ", " valid_intervals))
  else if (1000 <? limit) || (limit <? 1) then
    raise (ValueError "Limit must be between 1 and 1000")
  else
    match (if String.eqb market "spot" then Some "spot"
           else if String.eqb market "futures" then Some "linear"
           else None) with
    | None => raise (ValueError ("Invalid market type '" +:+ market
                                 +:+ "'. Supported: 'spot', 'futures'"))
    | Some category =>
        let base_url := "https://api.bybit.com/v5/market/kline" in
        let params :=
          [("symbol", symbol); ("interval", interval); ("category", category);
           ("limit", pretty limit)]
          ++ (if given start_time is Some t then [("start", pretty t)] else [])
          ++ (if given end_time is Some t then [("end", pretty t)] else []) in
        let url := url_with base_url params in
        let! response := _fetch_with_retry http url in
        let! _ := lift (check_retCode response) in
        let! raw_data := lift (result_list response) in
        lift (parse_klines raw_data)
    end.

(** [fetch_funding_rate_history(self, symbol, start_time=None, end_time=None,
                                limit=200, market="futures")] *)
Definition fetch_funding_rate_history (symbol : string)
    (start_time end_time : option Z) (limit : Z) (market : string)
  : NetM (list Record_) :=
  if (200 <? limit) || (limit <? 1) then
    raise (ValueError "Limit must be between 1 and 200")
  else if (if start_time is Some _ then true else false)
          && (if end_time is Some _ then false else true) then
    raise (ValueError "If startTime is provided, endTime must also be provided")
  else if negb (String.eqb market "futures") then
    raise (ValueError ("Invalid market type '" +:+ market +:+ "'. Supported: 'futures'"))
  else
    let category := "linear" in
    let base_url := "https://api.bybit.com/v5/market/funding/history" in
    let params :=
      [("category", category); ("symbol", symbol); ("limit", pretty limit)]
      ++ (if given start_time is Some t then [("startTime", pretty t)] else [])
      ++ (if given end_time is Some t then [("endTime", pretty t)] else []) in
    let url := url_with base_url params in
    let! response := _fetch_with_retry http url in
    let! _ := lift (check_retCode response) in
    let! raw_data := lift (result_list response) in
    lift (parse_funding_rates raw_data).

End Methods.

Definition cls (http : Remote) : Adapter :=
  {| __name__ := "BybitExchange";
     BaseExchange.get_supported_markets := get_supported_markets;
     process_ := fun m =>
       if String.eqb m "spot" then Some (process_spot http)
       else if String.eqb m "futures" then Some (process_futures http)
       else None |}.

Definition new : Instance := __init__ default_cache_ttl.

(** *** Words for the properties of the klines *)

(** The ["open_time"] of a kline built by [kline_of_row]. *)
Definition open_time_of (k : Record_) : Z :=
  match assoc_get "open_time" k with
  | Some (JInt t) => t
  | _ => 0
  end.

(** The envelope's status code and error text, as the check reads them. *)
Definition retCode_of (response : list (string * JSON)) : JSON :=
  default JNull (assoc_get "retCode" response).
Definition retMsg_of (response : list (string * JSON)) : JSON :=
  default (JStr "Unknown error") (assoc_get "retMsg" response).

(** *** Words for the properties of the listings *)

Definition field_is (key value : string) (fields : list (string * JSON)) : bool :=
  match assoc_get key fields with
  | Some v => py_eq_str v value
  | None => false
  end.

(** The instruments the spot comprehension keeps. *)
Definition kept_for_spot (fields : list (string * JSON)) : bool :=
  field_is "quoteCoin" default_quote_asset fields && field_is "status" "Trading" fields.

(** The instruments the futures comprehension keeps. *)
Definition kept_for_futures (fields : list (string * JSON)) : bool :=
  field_is "quoteCoin" default_quote_asset fields
  && (field_is "contractType" "LinearPerpetual" fields && field_is "status" "Trading" fields).

(** [{"symbol": item.get("baseCoin"), "pair": item.get("symbol")}] on a dict. *)
Definition symbol_data_of (fields : list (string * JSON)) : SymbolData :=
  {| sd_symbol := default JNull (assoc_get "baseCoin" fields);
     sd_pair := default JNull (assoc_get "symbol" fields) |}.

(** The active pair an instrument becomes under the tag [tag]. *)
Definition pair_of (tag : string) (fields : list (string * JSON)) : TradingPair :=
  {| symbol := default JNull (assoc_get "baseCoin" fields);
     pair := default JNull (assoc_get "symbol" fields);
     exchange := tag;
     is_active := true |}.

(** *** Open interest *)

Definition valid_oi_intervals : list string :=
  ["5min"; "15min"; "30min"; "1h"; "4h"; "1d"].

(** One record of [fetch_open_interest]; the symbol is the envelope's. *)
Definition open_interest_of (symbol_from_response item : JSON) : Result Record_ :=
  rbind (dict_get item "openInterest" JNull) (fun oi =>
  rbind (dict_get item "timestamp" JNull) (fun ts =>
  Ok [("symbol", symbol_from_response); ("open_interest", oi); ("timestamp", ts)])).

(** The part of [fetch_open_interest] after the status check. *)
Definition parse_open_interest (response : JSON) : Result (list Record_) :=
  rbind (dict_get response "result" (JObj [])) (fun result =>
  rbind (dict_get result "symbol" JNull) (fun symbol_from_response =>
  rbind (dict_get result "list" (JArr [])) (fun raw_data =>
  rbind (py_iter raw_data) (fun items =>
  for_each (fun acc item =>
              rbind (open_interest_of symbol_from_response item) (fun r => Ok (acc ++ [r])))
           items [])))).

Section OpenInterest.
Variable http : Remote.
Variable float_repr : float -> string.

(** [fetch_open_interest(self, symbol, interval, start_time=None, end_time=None,
                         limit=50, market="futures")] *)
Definition fetch_open_interest (symbol interval : string)
    (start_time end_time : option Z) (limit : Z) (market : string) : NetM (list Record_) :=
  if decide (interval ∉ valid_oi_intervals) then
    raise (ValueError ("Invalid interval '" +:+ interval +:+ "'. "
                       +:+ "Supported intervals: " +:+ str_join ", " valid_oi_intervals))
  else if (200 <? limit) || (limit <? 1) then
    raise (ValueError "Limit must be between 1 and 200")
  else if negb (String.eqb market "futures") then
    raise (ValueError ("Invalid market type '" +:+ market +:+ "'. Supported: 'futures'"))
  else
    let category := "linear" in
    let base_url := "https://api.bybit.com/v5/market/open-interest" in
    let params :=
      [("category", category); ("symbol", symbol); ("intervalTime", interval);
       ("limit", pretty limit)]
      ++ (if given start_time is Some t then [("startTime", pretty t)] else [])
      ++ (if given end_time is Some t then [("endTime", pretty t)] else []) in
    let url := url_with base_url params in
    let! response := _fetch_with_retry http url in
    let! _ := lift (check_retCode float_repr response) in
    lift (parse_open_interest response).

End OpenInterest.

(** The open-interest record an item of the list becomes under the envelope
    [result]. *)
Definition open_interest_record (result fields : list (string * JSON)) : Record_ :=
  [("symbol", default JNull (assoc_get "symbol" result));
   ("open_interest", default JNull (assoc_get "openInterest" fields));
   ("timestamp", default JNull (assoc_get "timestamp" fields))].

End BybitExchange.

(** ** exchanges/hyperliquid.py *)

Module HyperliquidExchange.
Import Py Net BaseExchange.

Definition spot_url : string := "https://api.hyperliquid.xyz/info".
Definition futures_url : string := "https://api.hyperliquid.xyz/info".

Definition get_supported_markets : list string := ["spot"; "futures"].

(** [((mark_px - prev_day_px) / prev_day_px * 100) if prev_day_px > 0 else 0] *)
Definition price_change (mark_px prev_day_px : float) : Result Num :=
  if PrimFloat.ltb 0%float prev_day_px then
    rbind (truediv (mark_px - prev_day_px)%float prev_day_px) (fun q =>
    Ok (Float (q * 100)%float))
  else Ok (Int 0).

(** The body of the loop of [fetch_market_data] once the symbol filter has
    let the asset through and a context exists for its index. *)
Definition market_data (asset_name asset_info ctx : JSON) : Result Record_ :=
  rbind (dict_get ctx "markPx" (JInt 0)) (fun mark =>
  rbind (py_float mark) (fun mark_px =>
  rbind (dict_get ctx "prevDayPx" (JInt 0)) (fun prev =>
  rbind (py_float prev) (fun prev_day_px =>
  rbind (price_change mark_px prev_day_px) (fun price_change_24h =>
  rbind (dict_get ctx "markPx" JNull) (fun mark_price =>
  rbind (dict_get ctx "oraclePx" JNull) (fun oracle_price =>
  rbind (dict_get ctx "midPx" JNull) (fun mid_price =>
  rbind (dict_get ctx "prevDayPx" JNull) (fun prev_day_price =>
  rbind (dict_get ctx "dayBaseVlm" JNull) (fun volume_24h_base =>
  rbind (dict_get ctx "dayNtlVlm" JNull) (fun volume_24h_usd =>
  rbind (dict_get ctx "funding" JNull) (fun funding_rate =>
  rbind (dict_get ctx "openInterest" JNull) (fun open_interest =>
  rbind (dict_get ctx "premium" JNull) (fun premium =>
  rbind (dict_get asset_info "maxLeverage" JNull) (fun max_leverage =>
  rbind (dict_get asset_info "szDecimals" JNull) (fun size_decimals =>
  rbind (dict_get asset_info "isDelisted" (JBool false)) (fun is_delisted =>
  Ok [("symbol", asset_name);
      ("mark_price", mark_price);
      ("oracle_price", oracle_price);
      ("mid_price", mid_price);
      ("prev_day_price", prev_day_price);
      ("price_change_24h", json_of_num (py_round price_change_24h 2));
      ("volume_24h_base", volume_24h_base);
      ("volume_24h_usd", volume_24h_usd);
      ("funding_rate", funding_rate);
      ("open_interest", open_interest);
      ("premium", premium);
      ("max_leverage", max_leverage);
      ("size_decimals", size_decimals);
      ("is_delisted", is_delisted)]))))))))))))))))).

(** The two prices the loop converts: [float(ctx.get("markPx", 0))] and
    [float(ctx.get("prevDayPx", 0))]. *)
Definition prices_of (ctx : list (string * JSON)) : Result (float * float) :=
  rbind (py_float (default (JInt 0) (assoc_get "markPx" ctx))) (fun mark_px =>
  rbind (py_float (default (JInt 0) (assoc_get "prevDayPx" ctx))) (fun prev_day_px =>
  Ok (mark_px, prev_day_px))).

(** The 24h change as the record shows it. *)
Definition change_of (mark_px prev_day_px : float) : JSON :=
  if PrimFloat.ltb 0 prev_day_px
  then JFloat (round_float ((mark_px - prev_day_px) / prev_day_px * 100)%float 2)
  else JInt 0.

(** One iteration of [for i, asset_info in enumerate(meta.get("universe", []))]. *)
Definition market_step (symbol : option string) (asset_ctxs : JSON)
    (markets : list Record_) (entry : nat * JSON) : Result (list Record_) :=
  let '(i, asset_info) := entry in
  rbind (dict_get asset_info "name" JNull) (fun asset_name =>
  let skip :=
    match symbol with
    | Some s => negb (String.eqb s "") && negb (py_eq_str asset_name s)
    | None => false
    end in
  if skip then Ok markets
  else
    rbind (py_len asset_ctxs) (fun n =>
    if (i <? n)%nat then
      rbind (py_index asset_ctxs i) (fun ctx =>
      rbind (market_data asset_name asset_info ctx) (fun md =>
      Ok (markets ++ [md])))
    else Ok markets)).

(** The parse of the [metaAndAssetCtxs] document. *)
Definition parse_market_data (symbol : option string) (data : JSON) : Result (list Record_) :=
  rbind (py_index data 0) (fun meta =>
  rbind (py_index data 1) (fun asset_ctxs =>
  rbind (dict_get meta "universe" (JArr [])) (fun universe =>
  rbind (py_iter universe) (fun items =>
  for_each (market_step symbol asset_ctxs) (enumerate items) [])))).


(** [symbol_mapping] *)
Definition symbol_mapping : list (string * string) :=
  [("USDT0", "USDT"); ("USDC", "USDC")].

(** [_normalize_symbol(self, symbol)]: [self.symbol_mapping.get(symbol, symbol)] *)
Definition _normalize_symbol (symbol : JSON) : Result JSON :=
  match symbol with
  | JStr s => Ok (match assoc_get s symbol_mapping with
                  | Some t => JStr t
                  | None => symbol
                  end)
  | _ => if hashable symbol then Ok symbol else Raise TypeError
  end.

(** [tokens_map]: token index to the token's normalized symbol (the other
    two fields stored with it are never read). *)
Definition TokensMap : Type := list (JSON * JSON).

(** One iteration of [for token in data.get('tokens', [])]. *)
Definition token_step (tokens_map : TokensMap) (token : JSON) : Result TokensMap :=
  rbind (py_item token "name") (fun name =>
  rbind (_normalize_symbol name) (fun symbol =>
  rbind (dict_get token "tokenId" (JStr "")) (fun _ =>
  rbind (dict_get token "weiDecimals" (JInt 0)) (fun _ =>
  rbind (py_item token "index") (fun index =>
  if hashable index then Ok (key_set index symbol tokens_map) else Raise TypeError))))).

(** [key in tokens_map] *)
Definition in_tokens_map (key : JSON) (tokens_map : TokensMap) : Result bool :=
  if hashable key then Ok (if key_get key tokens_map is Some _ then true else false)
  else Raise TypeError.

Section Listing.
Variable float_repr : float -> string.

(** One iteration of [for pair in data.get('universe', [])] for spot. *)
Definition spot_pair_step (tokens_map : TokensMap) (trading_symbols : list SymbolData)
    (pair : JSON) : Result (list SymbolData) :=
  rbind (dict_get pair "tokens" (JArr [])) (fun token_indices =>
  rbind (py_len token_indices) (fun n =>
  if (2 <=? n)%nat then
    rbind (py_index token_indices 0) (fun base_idx =>
    rbind (py_index token_indices 1) (fun quote_idx =>
    rbind (in_tokens_map base_idx tokens_map) (fun has_base =>
    rbind (if has_base : bool then in_tokens_map quote_idx tokens_map else Ok false)
          (fun has_both =>
    if has_both : bool then
      match key_get base_idx tokens_map, key_get quote_idx tokens_map with
      | Some base_symbol, Some quote_symbol =>
          let pair_name := py_str float_repr base_symbol +:+ "/"
                           +:+ py_str float_repr quote_symbol in
          Ok (trading_symbols ++ [{| sd_symbol := base_symbol; sd_pair := JStr pair_name |}])
      | _, _ => Ok trading_symbols
      end
    else Ok trading_symbols))))
  else Ok trading_symbols)).

(** The parse of the [spotMeta] document. *)
Definition parse_spot (data : JSON) : Result (list SymbolData * list SymbolData) :=
  rbind (dict_get data "tokens" (JArr [])) (fun tokens =>
  rbind (py_iter tokens) (fun token_list =>
  rbind (for_each token_step token_list []) (fun tokens_map =>
  rbind (dict_get data "universe" (JArr [])) (fun universe =>
  rbind (py_iter universe) (fun pairs =>
  rbind (for_each (spot_pair_step tokens_map) pairs []) (fun trading_symbols =>
  Ok (trading_symbols, []))))))).

(** One iteration of [for item in data.get('universe', [])] for futures. *)
Definition futures_step (acc : list SymbolData * list SymbolData) (item : JSON)
  : Result (list SymbolData * list SymbolData) :=
  let '(trading_symbols, non_trading_symbols) := acc in
  rbind (dict_get item "name" (JStr "")) (fun symbol =>
  rbind (dict_get item "isDelisted" (JBool false)) (fun is_delisted =>
  let pair_name := py_str float_repr symbol +:+ "-USD" in
  let entry := {| sd_symbol := symbol; sd_pair := JStr pair_name |} in
  if negb (py_truthy is_delisted)
  then Ok (trading_symbols ++ [entry], non_trading_symbols)
  else Ok (trading_symbols, non_trading_symbols ++ [entry]))).

(** The parse of the [meta] document. *)
Definition parse_futures (data : JSON) : Result (list SymbolData * list SymbolData) :=
  rbind (dict_get data "universe" (JArr [])) (fun universe =>
  rbind (py_iter universe) (fun items =>
  for_each futures_step items ([], []))).

End Listing.

Section Methods.
Variable http : Remote.
Variable float_repr : float -> string.

(** [_fetch_with_retry_post(self, url, payload)]: the inner [_make_request]
    carries the same [@retry] decorator as [_fetch_with_retry]. *)
Definition _fetch_with_retry_post (url : string) (payload : JSON) : NetM JSON :=
  Tenacity.retry (send http (POST url payload)).

(** [fetch_klines]: always raises. *)
Definition fetch_klines (symbol interval market : string)
    (start_time end_time : option Z) (limit : Z) (timezone : string)
  : NetM (list Record_) :=
  raise (NotImplementedError
           ("Hyperliquid does not provide historical kline/candlestick data. "
            +:+ "Use fetch_market_data() instead to get live market data including "
            +:+ "current price, 24h volume, funding rate, and open interest.")).

(** [fetch_market_data(self, symbol=None)] *)
Definition fetch_market_data (symbol : option string) : NetM (list Record_) :=
  let payload := JObj [("type", JStr "metaAndAssetCtxs")] in
  let url := "https://api.hyperliquid.xyz/info" in
  let! data := _fetch_with_retry_post url payload in
  lift (parse_market_data symbol data).

(** [fetch_symbols_from_exchange(self, url, exchange)] *)
Definition fetch_symbols_from_exchange (url exchange : string)
  : NetM (list SymbolData * list SymbolData) :=
  if String.eqb exchange "hyperliquid-spot" then
    let payload := JObj [("type", JStr "spotMeta")] in
    let! data := _fetch_with_retry_post url payload in
    lift (parse_spot float_repr data)
  else if String.eqb exchange "hyperliquid-futures" then
    let payload := JObj [("type", JStr "meta")] in
    let! data := _fetch_with_retry_post url payload in
    lift (parse_futures float_repr data)
  else raise (ValueError ("Invalid Hyperliquid exchange type: " +:+ exchange)).

Definition fetch_symbols_retry (url exchange : string)
  : NetM (list SymbolData * list SymbolData) :=
  fetch_symbols_from_exchange url exchange.

Definition generate_symbol_updates (exchange : string) (trading non_trading : list SymbolData)
  : list TradingPair * list TradingPair :=
  generate_symbol_updates_with_non_trading exchange trading non_trading.

Definition process_spot : NetM (list TradingPair * list TradingPair) :=
  let exchange := "hyperliquid-spot" in
  let! (trading_symbols, non_trading_symbols) := fetch_symbols_retry spot_url exchange in
  ret (generate_symbol_updates exchange trading_symbols non_trading_symbols).

Definition process_futures : NetM (list TradingPair * list TradingPair) :=
  let exchange := "hyperliquid-futures" in
  let! (trading_symbols, non_trading_symbols) := fetch_symbols_retry futures_url exchange in
  ret (generate_symbol_updates exchange trading_symbols non_trading_symbols).

End Methods.

Definition cls (http : Remote) (float_repr : float -> string) : Adapter :=
  {| __name__ := "HyperliquidExchange";
     BaseExchange.get_supported_markets := get_supported_markets;
     process_ := fun m =>
       if String.eqb m "spot" then Some (process_spot http float_repr)
       else if String.eqb m "futures" then Some (process_futures http float_repr)
       else None |}.

Definition new : Instance := __init__ default_cache_ttl.

(** *** Words for the properties of the futures listing *)

(** [item.get('name', '')] and the truth of [item.get('isDelisted', False)]
    on a dict. *)
Definition name_of (fields : list (string * JSON)) : JSON :=
  default (JStr "") (assoc_get "name" fields).
Definition delisted (fields : list (string * JSON)) : bool :=
  py_truthy (default (JBool false) (assoc_get "isDelisted" fields)).

(** The pair an asset of the perpetuals universe becomes under [flag]. *)
Definition futures_pair (float_repr : float -> string) (flag : bool)
    (fields : list (string * JSON)) : TradingPair :=
  {| symbol := name_of fields;
     pair := JStr (py_str float_repr (name_of fields) +:+ "-USD");
     exchange := "hyperliquid-futures";
     is_active := flag |}.

End HyperliquidExchange.

(** ** core/exchange_factory.py *)

Module ExchangeFactory.
Import Py Net BaseExchange.

(** A registered class: what [fetch_all_pairs] needs of it, and what
    calling it, [exchange_class(db_handler)], builds. *)
Record ExchangeClass : Type := mkClass {
  adapter : Adapter;
  construct : Instance
}.

(** [_registry]: a [dict], so insertion-ordered with unique keys. *)
Definition Registry : Type := list (string * ExchangeClass).

(** [d[key] = value]: an existing key keeps its place, a new one goes last. *)
Fixpoint dict_set (key : string) (value : ExchangeClass) (d : Registry) : Registry :=
  match d with
  | [] => [(key, value)]
  | (k, v) :: rest =>
      if String.eqb key k then (k, value) :: rest
      else (k, v) :: dict_set key value rest
  end.

(** [register(cls, name, exchange_class)] *)
Definition register (name : string) (exchange_class : ExchangeClass) (_registry : Registry)
  : Registry :=
  dict_set (str_lower name) exchange_class _registry.

(** [list_exchanges(cls)] *)
Definition list_exchanges (_registry : Registry) : list string :=
  map fst _registry.

(** [create(cls, name, db_handler=None)]: the class found and its new instance. *)
Definition create (name : string) (_registry : Registry) : Result (ExchangeClass * Instance) :=
  match assoc_get (str_lower name) _registry with
  | None =>
      Raise (ValueError ("Exchange '" +:+ name +:+ "' not found. "
                         +:+ "Available exchanges: "
                         +:+ repr_list_str (list_exchanges _registry)))
  | Some exchange_class => Ok (exchange_class, construct exchange_class)
  end.

Section Registered.
Variable http : Remote.

Definition Binance : ExchangeClass :=
  {| adapter := BinanceExchange.cls http; construct := BinanceExchange.new |}.
Definition Bybit : ExchangeClass :=
  {| adapter := BybitExchange.cls http; construct := BybitExchange.new |}.
Variable float_repr : float -> string.
Definition Hyperliquid : ExchangeClass :=
  {| adapter := HyperliquidExchange.cls http float_repr;
     construct := HyperliquidExchange.new |}.

(** The registry after the module's three [ExchangeFactory.register] calls. *)
Definition registry : Registry :=
  register "hyperliquid" Hyperliquid
    (register "bybit" Bybit
       (register "binance" Binance [])).
End Registered.

Section Info.
(** [exchange_class.__doc__] *)
Variable __doc__ : ExchangeClass -> option string.

(** [get_exchange_info(cls, name)] *)
Definition get_exchange_info (name : string) (_registry : Registry)
  : Result (list (string * JSON)) :=
  match assoc_get (str_lower name) _registry with
  | None =>
      Raise (ValueError ("Exchange '" +:+ name +:+ "' not found. "
                         +:+ "Available exchanges: "
                         +:+ repr_list_str (list_exchanges _registry)))
  | Some exchange_class =>
      let markets := get_supported_markets (adapter exchange_class) in
      Ok [("name", JStr name);
          ("class", JStr (__name__ (adapter exchange_class)));
          ("supported_markets", JArr (map JStr markets));
          ("description",
           JStr (match __doc__ exchange_class with
                 | Some doc => if String.eqb doc "" then "No description available" else doc
                 | None => "No description available"
                 end))]
  end.

End Info.

(** The registries that calls of [register] build from the empty one. *)
Inductive registered : Registry -> Prop :=
| registered_empty : registered []
| registered_more name exchange_class _registry :
    registered _registry -> registered (register name exchange_class _registry).

End ExchangeFactory.

(** ** core/base_exchange.py: the HTTP client of an instance *)

Module Lifecycle.
Import Py.

(** The [httpx.Client] objects constructed so far, each open ([true]) or
    closed, and [self._client]: the index of the client the instance holds. *)
Record State : Type := mkState {
  clients : list bool;
  _client : option nat
}.

(** [self.client]: the lazily created client. *)
Definition client (self : State) : nat * State :=
  match _client self with
  | None =>
      let fresh := length (clients self) in
      (fresh, {| clients := clients self ++ [true]; _client := Some fresh |})
  | Some held => (held, self)
  end.

(** [close(self)] *)
Definition close (self : State) : State :=
  match _client self with
  | Some held => {| clients := <[held := false]> (clients self); _client := None |}
  | None => self
  end.

(** [__enter__(self)]: [return self] *)
Definition __enter__ (self : State) : State := self.

(** [__exit__(self, exc_type, exc_val, exc_tb)]: closes and returns [False]. *)
Definition __exit__ (self : State) : bool * State := (false, close self).

(** [__del__(self)]: closes the held client and keeps the reference. *)
Definition __del__ (self : State) : State :=
  match _client self with
  | Some held => {| clients := <[held := false]> (clients self); _client := Some held |}
  | None => self
  end.

(** [with self as x: body]: the value of the block, [None] when [__exit__]
    swallowed its exception. *)
Definition with_ {A} (body : M State A) : M State (option A) :=
  fun self =>
    let '(r, after) := body (__enter__ self) in
    let '(swallow, closed) := __exit__ after in
    match r with
    | Ok a => (Ok (Some a), closed)
    | Raise e => if swallow : bool then (Ok None, closed) else (Raise e, closed)
    end.

(** What a method body does with the client, step by step. *)
Inductive Step : Type :=
| use_client
| call_close.

Definition step (self : State) (st : Step) : State :=
  match st with
  | use_client => snd (client self)
  | call_close => close self
  end.

(** Every open client is the one the instance holds. *)
Definition held_only (self : State) : Prop :=
  forall i, clients self !! i = Some true -> _client self = Some i.

(** No client is open. *)
Definition all_closed (self : State) : Prop :=
  forall i, clients self !! i <> Some true.

End Lifecycle.

(** ** app.py: the exchange tools *)

Module App.
Import Py Net BaseExchange ExchangeFactory.

(** [type(e).__name__]; for a transport failure the name of the base class
    stands for that of its subclass ([ConnectError], [ReadTimeout], ...). *)
Definition type_name (e : exn) : string :=
  match e with
  | ValueError _ => "ValueError"
  | NotImplementedError _ => "NotImplementedError"
  | Exception_ _ => "Exception"
  | TransportError _ => "TransportError"
  | HTTPStatusError _ => "HTTPStatusError"
  | JSONDecodeError => "JSONDecodeError"
  | RetryError _ => "RetryError"
  | TypeError => "TypeError"
  | AttributeError => "AttributeError"
  | KeyError _ | KeyErrorInt _ => "KeyError"
  | IndexError => "IndexError"
  | OverflowError => "OverflowError"
  | ZeroDivisionError => "ZeroDivisionError"
  end.

(** A pair of [fetch_all_pairs] as the dict it is. *)
Definition pair_json (p : TradingPair) : JSON :=
  JObj [("symbol", symbol p); ("pair", pair p); ("exchange", JStr (exchange p));
        ("is_active", JBool (is_active p))].

(** The [if status == ...] chain of [get_trading_pairs]. *)
Definition select (status : string) (result : PairSet) : list TradingPair :=
  if String.eqb status "active" then active result
  else if String.eqb status "inactive" then inactive result
  else active result ++ inactive result.

Section Tools.
(** [time_time n]: what the [n]-th call of [time.time()] returns. *)
Variable time_time : nat -> float.
(** [str(e)] where a library composes the text. *)
Variable library_text : exn -> string.
(** [exchange_class.__doc__] *)
Variable __doc__ : ExchangeClass -> option string.

(** [str(e)] *)
Definition exn_str (e : exn) : string :=
  match e with
  | ValueError msg | NotImplementedError msg | Exception_ msg | TransportError msg => msg
  | KeyError key => repr_str key
  | KeyErrorInt key => pretty key
  | _ => library_text e
  end.

(** The three [except] clauses of [get_trading_pairs], in their order. *)
Definition report (e : exn) (exchange market : string) : JSON :=
  if is_ValueError e then
    JObj [("error", JStr "Invalid input"); ("error_type", JStr "ValueError");
          ("message", JStr (exn_str e)); ("exchange", JStr exchange);
          ("market", JStr market)]
  else if is_HTTPError e then
    JObj [("error", JStr "API request failed"); ("error_type", JStr "HTTPError");
          ("message", JStr (exn_str e)); ("exchange", JStr exchange);
          ("market", JStr market)]
  else
    JObj [("error", JStr "Unexpected error"); ("error_type", JStr (type_name e));
          ("message", JStr (exn_str e)); ("exchange", JStr exchange);
          ("market", JStr market)].

(** [get_trading_pairs(exchange, market, status="active")] on the registry
    [_registry]: the dict returned and the requests the instance made.  The
    [with] block hands the new instance to its body, closes its client on
    the way out and lets an exception through to the [except] clauses. *)
Definition get_trading_pairs (_registry : Registry) (exchange market status : string)
  : JSON * Net.State :=
  match create exchange _registry with
  | Raise e => (report e exchange market, idle)
  | Ok (exchange_class, exchange_instance) =>
      let '(r, after) :=
        fetch_all_pairs time_time (adapter exchange_class) market true exchange_instance in
      match r with
      | Ok result =>
          let pairs := select status result in
          (JObj [("exchange", JStr exchange); ("market", JStr market);
                 ("status_filter", JStr status);
                 ("count", JInt (Z.of_nat (length pairs)));
                 ("pairs", JArr (map pair_json pairs))],
           net after)
      | Raise e => (report e exchange market, net after)
      end
  end.

(** One iteration of the loop of [list_supported_exchanges]. *)
Definition exchange_entry (_registry : Registry) (exchange_info : list JSON)
    (exchange_name : string) : Result (list JSON) :=
  rbind (get_exchange_info __doc__ exchange_name _registry) (fun info =>
  rbind (py_item (JObj info) "name") (fun name =>
  rbind (py_item (JObj info) "supported_markets") (fun markets =>
  rbind (py_item (JObj info) "description") (fun description =>
  match description with
  | JStr text =>
      Ok (exchange_info ++ [JObj [("name", name); ("markets", markets);
                                  ("description", JStr (strip text))]])
  | _ => Raise AttributeError
  end)))).

(** [list_supported_exchanges()] on the registry [_registry]. *)
Definition list_supported_exchanges (_registry : Registry) : JSON :=
  let exchanges := list_exchanges _registry in
  match for_each (exchange_entry _registry) exchanges [] with
  | Ok exchange_info =>
      JObj [("count", JInt (Z.of_nat (length exchanges)));
            ("exchanges", JArr exchange_info)]
  | Raise e =>
      JObj [("error", JStr "Failed to list exchanges"); ("error_type", JStr (type_name e));
            ("message", JStr (exn_str e))]
  end.

End Tools.

(** The entry of [list_supported_exchanges] for a registered class. *)
Definition entry_of (__doc__ : ExchangeClass -> option string) (name : string)
    (exchange_class : ExchangeClass) : JSON :=
  JObj [("name", JStr name);
        ("markets", JArr (map JStr (get_supported_markets (adapter exchange_class))));
        ("description",
         JStr (strip (match __doc__ exchange_class with
                      | Some doc => if String.eqb doc "" then "No description available"
                                    else doc
                      | None => "No description available"
                      end)))].

(** Neither a [ValueError] nor an [httpx.HTTPError]: what reaches the last
    [except] clause of [get_trading_pairs]. *)
Definition unexpected (e : exn) : bool :=
  negb (is_ValueError e) && negb (is_HTTPError e).

(** Whatever [r] raises is [unexpected]. *)
Definition raises_unexpected {A} (r : Result A) : Prop :=
  match r with
  | Ok _ => True
  | Raise e => unexpected e = true
  end.

(** No request gets a 2xx answer with a JSON body. *)
Definition every_request_fails (http : Remote) : Prop :=
  forall n req, exists e, receive (http n req) = Raise e.

(** What the tool relies on in a [process_*] method: it raises nothing the
    first two [except] clauses would catch, it issues a request, the pairs it
    returns carry the flag of their list, and it raises [RetryError] when
    every request fails. *)
Definition shows_profile (http : Remote) (method : NetM (list TradingPair * list TradingPair))
  : Prop :=
  forall s,
    raises_unexpected (fst (method s))
    /\ requests (snd (method s)) <> []
    /\ (forall a i, fst (method s) = Ok (a, i) ->
         Forall (fun p => is_active p = true) a /\ Forall (fun p => is_active p = false) i)
    /\ (every_request_fails http -> exists last, fst (method s) = Raise (RetryError last)).

(** The value a returned dict holds under [key]. *)
Definition field (key : string) (out : JSON) : option JSON :=
  match out with
  | JObj fields => assoc_get key fields
  | _ => None
  end.

End App.

(** ** Mock remotes and documents used in the examples *)

Module Mock.
Import Py Net.

(** First answer: 200 with a body that is not JSON; afterwards 200 with [{}]. *)
Definition malformed_then_ok : Remote :=
  fun n _ => if (n =? 0)%nat then Response 200 None else Response 200 (Some (JObj [])).

(** Every request fails in transport. *)
Definition unreachable : Remote := fun _ _ => Failed "connection refused".

(** Every request is answered 200 with the same document. *)
Definition always (doc : JSON) : Remote := fun _ _ => Response 200 (Some doc).

(** A Binance spot exchange-info document: three symbols quoted in USDT,
    two of them trading, one on a break. *)
Definition listing (sym base status : string) : list (string * JSON) :=
  [("symbol", JStr sym); ("status", JStr status);
   ("baseAsset", JStr base); ("quoteAsset", JStr "USDT")].

Definition listings : list (list (string * JSON)) :=
  [listing "BTCUSDT" "BTC" "TRADING";
   listing "HIFIUSDT" "HIFI" "BREAK";
   listing "ETHUSDT" "ETH" "TRADING"].

Definition exchange_info_fields : list (string * JSON) :=
  [("timezone", JStr "UTC"); ("symbols", JArr (map JObj listings))].

Definition exchange_info : JSON := JObj exchange_info_fields.

Definition tagged (sym base : string) (flag : bool) : BaseExchange.TradingPair :=
  {| BaseExchange.symbol := JStr base; BaseExchange.pair := JStr sym;
     BaseExchange.exchange := "binance-spot"; BaseExchange.is_active := flag |}.

Definition active_pairs : list BaseExchange.TradingPair :=
  [tagged "BTCUSDT" "BTC" true; tagged "ETHUSDT" "ETH" true].
Definition inactive_pairs : list BaseExchange.TradingPair :=
  [tagged "HIFIUSDT" "HIFI" false].
Definition pairs : BaseExchange.PairSet :=
  {| BaseExchange.active := active_pairs; BaseExchange.inactive := inactive_pairs |}.

(** Readings of [time.time()]: 1000, 1030, then 1060 (the TTL of 60 has
    just elapsed since 1000), then 1061. *)
Definition clock : nat -> float :=
  fun n => match n with
           | 0%nat => 1000%float
           | 1%nat => 1030%float
           | 2%nat => 1060%float
           | _ => 1061%float
           end.

(** An instance that cached [pairs] for ["spot"] at time 1000. *)
Definition cached_instance : BaseExchange.Instance :=
  {| BaseExchange.cache_ttl := 60;
     BaseExchange._cache := <["spot" := (1000%float, pairs)]> ∅;
     BaseExchange.net := Net.idle;
     BaseExchange.clock_reads := 1 |}.

(** A Bybit kline answer with three rows, newest first. *)
Definition bybit_row (start open_ : string) : JSON :=
  JArr [JStr start; JStr open_; JStr "17100"; JStr "16900"; JStr "17000";
        JStr "12.5"; JStr "212500"].

Definition bybit_rows : list JSON :=
  [bybit_row "1670608800000" "17003"; bybit_row "1670605200000" "17002";
   bybit_row "1670601600000" "17001"].

Definition bybit_result : list (string * JSON) :=
  [("category", JStr "spot"); ("symbol", JStr "BTCUSDT"); ("list", JArr bybit_rows)].

Definition bybit_klines_answer : list (string * JSON) :=
  [("retCode", JInt 0); ("retMsg", JStr "OK"); ("result", JObj bybit_result)].

Definition bybit_kline (start : Z) (open_ : string) : Record_ :=
  [("open_time", JInt start); ("open", JStr open_); ("high", JStr "17100");
   ("low", JStr "16900"); ("close", JStr "17000"); ("volume", JStr "12.5");
   ("turnover", JStr "212500")].

(** The rows above as klines, in the vendor's order. *)
Definition bybit_klines_newest_first : list Record_ :=
  [bybit_kline 1670608800000 "17003"; bybit_kline 1670605200000 "17002";
   bybit_kline 1670601600000 "17001"].

(** A Bybit answer that reports a vendor-side failure under HTTP 200. *)
Definition bybit_error_answer : list (string * JSON) :=
  [("retCode", JInt 10001); ("retMsg", JStr "Invalid symbol."); ("result", JObj [])].

(** A stand-in for Python's [repr] of a float. *)
Definition no_float_repr : float -> string := fun _ => "<float>".

(** A Hyperliquid asset context and its static metadata. *)
Definition hl_ctx : list (string * JSON) :=
  [("funding", JStr "0.0000125"); ("openInterest", JStr "688.11");
   ("prevDayPx", JStr "102983.0"); ("dayNtlVlm", JStr "1169046.29");
   ("premium", JStr "0.00031"); ("oraclePx", JStr "101500.0");
   ("markPx", JStr "101540.0"); ("midPx", JStr "101541.5");
   ("dayBaseVlm", JStr "11.3")].

Definition hl_info : list (string * JSON) :=
  [("name", JStr "BTC"); ("szDecimals", JInt 5); ("maxLeverage", JInt 40)].

(** The same context without a previous-day price. *)
Definition hl_ctx_no_prev : list (string * JSON) :=
  [("markPx", JStr "101540.0"); ("oraclePx", JStr "101500.0")].

(** A Binance futures exchange-info document: a perpetual that trades, a
    quarterly delivery contract, and a perpetual that is settling. *)
Definition contract (sym pair_ base contract_type status : string) : list (string * JSON) :=
  [("symbol", JStr sym); ("pair", JStr pair_); ("contractType", JStr contract_type);
   ("status", JStr status); ("baseAsset", JStr base); ("quoteAsset", JStr "USDT")].

Definition contracts : list (list (string * JSON)) :=
  [contract "BTCUSDT" "BTCUSDT" "BTC" "PERPETUAL" "TRADING";
   contract "BTCUSDT_250627" "BTCUSDT" "BTC" "CURRENT_QUARTER" "TRADING";
   contract "LUNAUSDT" "LUNAUSDT" "LUNA" "PERPETUAL" "SETTLING"].

Definition futures_info_fields : list (string * JSON) :=
  [("timezone", JStr "UTC"); ("symbols", JArr (map JObj contracts))].

Definition futures_tagged (pair_ base : string) (flag : bool) : BaseExchange.TradingPair :=
  {| BaseExchange.symbol := JStr base; BaseExchange.pair := JStr pair_;
     BaseExchange.exchange := "binance-futures"; BaseExchange.is_active := flag |}.

(** A USDT-quoted spot listing without its base asset, between two good ones. *)
Definition nameless : list (string * JSON) :=
  [("symbol", JStr "XUSDT"); ("status", JStr "TRADING"); ("quoteAsset", JStr "USDT")].

Definition broken_info_fields : list (string * JSON) :=
  [("symbols", JArr (map JObj [listing "BTCUSDT" "BTC" "TRADING"]
                     ++ JObj nameless :: [JObj (listing "ETHUSDT" "ETH" "TRADING")]))].

(** A Bybit instruments-info answer. *)
Definition instrument (sym base quote status contract_type : string) : list (string * JSON) :=
  [("symbol", JStr sym); ("baseCoin", JStr base); ("quoteCoin", JStr quote);
   ("status", JStr status); ("contractType", JStr contract_type)].

Definition instruments : list (list (string * JSON)) :=
  [instrument "BTCUSDT" "BTC" "USDT" "Trading" "LinearPerpetual";
   instrument "ETHPERP" "ETH" "USDC" "Trading" "LinearPerpetual";
   instrument "BTCUSDT-27JUN25" "BTC" "USDT" "Trading" "LinearFutures";
   instrument "LUNAUSDT" "LUNA" "USDT" "Closed" "LinearPerpetual"].

Definition instruments_result : list (string * JSON) :=
  [("category", JStr "linear"); ("list", JArr (map JObj instruments))].

Definition instruments_answer : list (string * JSON) :=
  [("retCode", JInt 0); ("retMsg", JStr "OK"); ("result", JObj instruments_result)].

Definition bybit_tagged (tag sym base : string) : BaseExchange.TradingPair :=
  {| BaseExchange.symbol := JStr base; BaseExchange.pair := JStr sym;
     BaseExchange.exchange := tag; BaseExchange.is_active := true |}.

(** Binance kline rows: twelve entries each, the last one unused. *)
Definition binance_kline_row (open_time : Z) (open_ : string) : list JSON :=
  [JInt open_time; JStr open_; JStr "17100"; JStr "16900"; JStr "17000"; JStr "12.5";
   JInt (open_time + 59999); JStr "212500"; JInt 308; JStr "6.1"; JStr "103700"; JStr "0"].

Definition binance_kline_rows : list (list JSON) :=
  [binance_kline_row 1670601600000 "17001"; binance_kline_row 1670601660000 "17002"].

Definition binance_kline (open_time : Z) (open_ : string) : Record_ :=
  [("open_time", JInt open_time); ("open", JStr open_); ("high", JStr "17100");
   ("low", JStr "16900"); ("close", JStr "17000"); ("volume", JStr "12.5");
   ("close_time", JInt (open_time + 59999)); ("quote_volume", JStr "212500");
   ("trades", JInt 308); ("taker_buy_base", JStr "6.1"); ("taker_buy_quote", JStr "103700")].

(** A row cut short. *)
Definition short_row : list JSON := [JStr "1670601720000"; JStr "17003"].

(** A Hyperliquid [meta] universe with one delisted asset. *)
Definition hl_universe : list (list (string * JSON)) :=
  [hl_info; [("name", JStr "LOOM"); ("isDelisted", JBool true)]; [("name", JStr "ETH")]].

Definition hl_meta : list (string * JSON) :=
  [("universe", JArr (map JObj hl_universe))].

Definition hl_tagged (name : string) (flag : bool) : BaseExchange.TradingPair :=
  {| BaseExchange.symbol := JStr name; BaseExchange.pair := JStr (name +:+ "-USD");
     BaseExchange.exchange := "hyperliquid-futures"; BaseExchange.is_active := flag |}.

(** A Hyperliquid [spotMeta] answer: three tokens, one of them the alias
    "USDT0", and two pairs. *)
Definition hl_spot_meta : JSON :=
  JObj [("tokens",
         JArr [JObj [("name", JStr "USDC"); ("index", JInt 0)];
               JObj [("name", JStr "PURR"); ("index", JInt 1)];
               JObj [("name", JStr "USDT0"); ("index", JInt 2)]]);
        ("universe",
         JArr [JObj [("name", JStr "PURR/USDC"); ("tokens", JArr [JInt 1; JInt 0])];
               JObj [("name", JStr "@2"); ("tokens", JArr [JInt 2; JInt 0])]])].

Definition hl_spot_tagged (base pair_ : string) : BaseExchange.TradingPair :=
  {| BaseExchange.symbol := JStr base; BaseExchange.pair := JStr pair_;
     BaseExchange.exchange := "hyperliquid-spot"; BaseExchange.is_active := true |}.

(** A Hyperliquid [metaAndAssetCtxs] answer with two assets. *)
Definition hl_market_answer : JSON :=
  JArr [JObj [("universe", JArr [JObj hl_info; JObj [("name", JStr "ETH")]])];
        JArr [JObj hl_ctx; JObj hl_ctx_no_prev]].

(** Binance funding-rate items, the second without a mark price. *)
Definition funding_items : list (list (string * JSON)) :=
  [[("symbol", JStr "BTCUSDT"); ("fundingRate", JStr "0.00010000");
    ("fundingTime", JInt 1670601600000); ("markPrice", JStr "17000.1")];
   [("symbol", JStr "BTCUSDT"); ("fundingRate", JStr "-0.00002000");
    ("fundingTime", JInt 1670630400000)]].

(** A Bybit open-interest answer: the symbol stands in the envelope only. *)
Definition open_interest_items : list (list (string * JSON)) :=
  [[("openInterest", JStr "461134384.00"); ("timestamp", JStr "1669571400000")];
   [("openInterest", JStr "461134292.00"); ("timestamp", JStr "1669571100000")]].

Definition open_interest_result : list (string * JSON) :=
  [("symbol", JStr "BTCUSDT"); ("category", JStr "linear");
   ("list", JArr (map JObj open_interest_items))].

Definition open_interest_answer : list (string * JSON) :=
  [("retCode", JInt 0); ("retMsg", JStr "OK"); ("result", JObj open_interest_result)].

(** The docstrings of the three adapter classes, by class name. *)
Definition class_doc (c : ExchangeFactory.ExchangeClass) : option string :=
  let name := BaseExchange.__name__ (ExchangeFactory.adapter c) in
  if String.eqb name "BinanceExchange"
  then Some "Binance exchange implementation for Spot and Futures markets"
  else if String.eqb name "BybitExchange"
  then Some "Bybit exchange implementation for Spot and Futures markets"
  else if String.eqb name "HyperliquidExchange"
  then Some "Hyperliquid exchange implementation for Spot and Futures markets"
  else None.

(** A stand-in for the text a library gives its exceptions. *)
Definition no_library_text : exn -> string := fun _ => "<text>".

(** A block that takes the client and then fails. *)
Definition failing_block : M Lifecycle.State unit :=
  fun self => (Raise TypeError, snd (Lifecycle.client self)).

End Mock.

(** * Properties *)

Import Py Net BaseExchange.

(** ** The retrying fetcher *)

Section Retry.
Variable http : Remote.

Lemma send_spec req s :
  send http req s =
  (attempt http req s 0, {| requests := requests s ++ [req]; sleeps := sleeps s |}).
Proof. unfold send, attempt. by rewrite Nat.add_0_r. Qed.

(** The three ways a decorated call can go, read off the attempts. *)
Lemma retry_unfold req s :
  Tenacity.retry (send http req) s =
  match attempt http req s 0 with
  | Ok v => (Ok v, {| requests := requests s ++ [req]; sleeps := sleeps s |})
  | Raise _ =>
      match attempt http req s 1 with
      | Ok v => (Ok v, {| requests := requests s ++ [req; req]; sleeps := sleeps s ++ [2] |})
      | Raise _ =>
          match attempt http req s 2 with
          | Ok v => (Ok v, {| requests := requests s ++ [req; req; req];
                              sleeps := sleeps s ++ [2; 2] |})
          | Raise e => (Raise (RetryError e),
                        {| requests := requests s ++ [req; req; req];
                           sleeps := sleeps s ++ [2; 2] |})
          end
      end
  end.
Proof.
  unfold Tenacity.retry, attempt. cbn -[receive Z.add].
  rewrite Nat.add_0_r.
  destruct (receive (http (length (requests s)) req)) as [v0|e0]; [done|].
  cbn -[receive Z.add]. rewrite length_app. cbn -[receive Z.add].
  destruct (receive (http (length (requests s) + 1)%nat req)) as [v1|e1].
  { by rewrite <- app_assoc. }
  cbn -[receive]. rewrite !length_app. cbn -[receive].
  replace (length (requests s) + 1 + 1)%nat with (length (requests s) + 2)%nat by lia.
  destruct (receive (http (length (requests s) + 2)%nat req)) as [v2|e2];
    by rewrite <- !app_assoc.
Qed.

(** Three units of fuel are enough: the fallback of [Tenacity.retry] is dead. *)
Lemma call_policy_total {A} (fn : NetM A) s :
  is_Some (Tenacity.call Tenacity.policy 3 1 fn s).
Proof.
  cbn. destruct (fn s) as [[v|e] s1]; [by eexists|].
  cbn. destruct (fn _) as [[v|e'] s2]; [by eexists|].
  cbn. destruct (fn _) as [[v|e''] s3]; by eexists.
Qed.

End Retry.

Lemma wait_exponential_values :
  Tenacity.wait_exponential 1 2 10 1 = 2 /\ Tenacity.wait_exponential 1 2 10 2 = 2.
Proof. split; reflexivity. Qed.

(** The waits stay within [min, max] at every attempt number. *)
Lemma wait_exponential_bounds n :
  2 <= Tenacity.wait_exponential 1 2 10 n <= 10.
Proof. unfold Tenacity.wait_exponential. lia. Qed.

Section RetryPolicy.
Variable http : Remote.

(** C1, as amended.  [_fetch_with_retry] issues [k] requests, [1 <= k <= 3],
    all of them [GET url]; before the second and before the third it sleeps
    [wait_exponential(multiplier=1, min=2, max=10)] of the attempt number,
    which is 2 both times; every attempt before the last one made has
    failed, and an attempt short of the third that fails is followed by
    another one whatever it raised (transport failure, non-2xx status or a
    body that is not JSON); the call returns the document of the first
    attempt that succeeds, and raises when the third attempt fails too. *)
Theorem fetch_with_retry_policy (url : string) (s : State) :
  let req := GET url in
  let out := _fetch_with_retry http url s in
  exists k : nat,
    (1 <= k <= 3)%nat
    /\ requests (snd out) = requests s ++ repeat req k
    /\ sleeps (snd out)
       = sleeps s ++ map (fun n => Tenacity.wait_exponential 1 2 10 (Z.of_nat n)) (seq 1 (k - 1))
    /\ map (fun n => Tenacity.wait_exponential 1 2 10 (Z.of_nat n)) (seq 1 (k - 1))
       = repeat 2 (k - 1)
    /\ (forall i, (i + 1 < k)%nat -> exists e, attempt http req s i = Raise e)
    /\ (forall i e, (i < k)%nat -> (i < 2)%nat -> attempt http req s i = Raise e -> (i + 1 < k)%nat)
    /\ match attempt http req s (k - 1) with
       | Ok v => fst out = Ok v
       | Raise _ => k = 3%nat /\ exists e, fst out = Raise e
       end.
Proof.
  intros req out. subst out. unfold _fetch_with_retry. fold req.
  rewrite retry_unfold.
  destruct (attempt http req s 0) as [v0|e0] eqn:H0;
    [exists 1%nat
    |destruct (attempt http req s 1) as [v1|e1] eqn:H1;
       [exists 2%nat
       |exists 3%nat; destruct (attempt http req s 2) as [v2|e2] eqn:H2]];
    cbn [fst snd requests sleeps Nat.sub seq map repeat];
    rewrite ?H0, ?H1, ?H2, ?app_nil_r;
    repeat split; try done; try lia; eauto;
    intros [|[|i]]; intros; try lia; eauto; congruence.
Qed.

End RetryPolicy.

(** C1, as the specification words it, fails on three counts.  A body that is
    not JSON is retried: the second request goes out and its document is
    returned.  When all attempts fail the two waits were 2 and 2 (not 2 and
    4), and what reaches the caller is tenacity's [RetryError], which
    [except httpx.HTTPError] does not catch, not the transport error. *)
Lemma fetch_with_retry_not_as_specified :
  attempt Mock.malformed_then_ok (GET "u") idle 0 = Raise JSONDecodeError
  /\ _fetch_with_retry Mock.malformed_then_ok "u" idle
     = (Ok (JObj []), {| requests := [GET "u"; GET "u"]; sleeps := [2] |})
  /\ _fetch_with_retry Mock.unreachable "u" idle
     = (Raise (RetryError (TransportError "connection refused")),
        {| requests := [GET "u"; GET "u"; GET "u"]; sleeps := [2; 2] |})
  /\ is_HTTPError (RetryError (TransportError "connection refused")) = false.
Proof. repeat split; reflexivity. Qed.

(** ** Text of error messages *)

Lemma append_assoc (a b c : string) : (a +:+ b) +:+ c = a +:+ (b +:+ c).
Proof.
  induction a as [|x a IH]; [done|].
  change (String x ((a +:+ b) +:+ c) = String x (a +:+ (b +:+ c))). by f_equal.
Qed.

Lemma append_nil_r (a : string) : a +:+ "" = a.
Proof.
  induction a as [|x a IH]; [done|].
  change (String x (a +:+ "") = String x a). by f_equal.
Qed.

Lemma mentions_append_l msg part before :
  mentions msg part -> mentions (before +:+ msg) part.
Proof.
  intros (b & a & ->). exists (before +:+ b), a. by rewrite append_assoc.
Qed.

Lemma mentions_append_r msg part after :
  mentions msg part -> mentions (msg +:+ after) part.
Proof.
  intros (b & a & ->). exists b, (a +:+ after). by rewrite !append_assoc.
Qed.

Lemma mentions_refl part : mentions part part.
Proof. exists "", "". cbn. by rewrite append_nil_r. Qed.

Lemma str_join_mentions sep parts x :
  x ∈ parts -> mentions (str_join sep parts) x.
Proof.
  induction parts as [|p rest IH]; intros Hin; [by apply elem_of_nil in Hin|].
  apply elem_of_cons in Hin as [->|Hin].
  - destruct rest as [|q rest]; cbn; [apply mentions_refl|].
    apply mentions_append_r, mentions_refl.
  - destruct rest as [|q rest]; [by apply elem_of_nil in Hin|].
    change (str_join sep (p :: q :: rest)) with (p +:+ sep +:+ str_join sep (q :: rest)).
    by apply mentions_append_l, mentions_append_l, IH.
Qed.

(** The rendered list names every one of its members. *)
Lemma repr_list_str_mentions xs x :
  x ∈ xs -> mentions (repr_list_str xs) (repr_str x).
Proof.
  intros Hin. unfold repr_list_str.
  apply mentions_append_l, mentions_append_r, str_join_mentions.
  by apply list_elem_of_fmap_2.
Qed.

(** ** The pair cache and market validation of [fetch_all_pairs] *)

Section PairCache.
Variable time_time : nat -> float.
Variable cls : Adapter.

Abbreviation fetch_all_pairs := (BaseExchange.fetch_all_pairs time_time cls).

(** C3.  For a market type that [get_supported_markets()] does not list,
    [fetch_all_pairs] raises [ValueError]; its message ends in the rendered
    list of supported markets and so names every one of them; the instance
    is left as it was: no request is issued, nothing is cached, the clock is
    not read. *)
Theorem fetch_all_pairs_unsupported (m : string) (use_cache : bool) (self : Instance) :
  m ∉ get_supported_markets cls ->
  let msg := "Unsupported market type '" +:+ m +:+ "'. Supported markets: "
             +:+ repr_list_str (get_supported_markets cls) in
  fetch_all_pairs m use_cache self = (Raise (ValueError msg), self)
  /\ is_ValueError (ValueError msg) = true
  /\ requests (net (snd (fetch_all_pairs m use_cache self))) = requests (net self)
  /\ forall x, x ∈ get_supported_markets cls -> mentions msg (repr_str x).
Proof.
  intros Hm msg.
  assert (Hrun : fetch_all_pairs m use_cache self = (Raise (ValueError msg), self)).
  { unfold BaseExchange.fetch_all_pairs. rewrite decide_True by done.
    reflexivity. }
  split; [done|]. split; [done|]. split; [by rewrite Hrun|].
  intros x Hx. unfold msg.
  by apply mentions_append_l, mentions_append_l, mentions_append_l, repr_list_str_mentions.
Qed.

(** What a call does once the market type has passed validation. *)
Lemma fetch_all_pairs_supported (m : string) (use_cache : bool) (self : Instance) :
  m ∈ get_supported_markets cls ->
  fetch_all_pairs m use_cache self =
  match (if use_cache then _cache self !! m else None) with
  | Some (timestamp, cached_data) =>
      (let! t := now time_time in
       if float_lt_int (t - timestamp)%float (cache_ttl self) then ret cached_data
       else fetch_live time_time cls m use_cache) self
  | None => fetch_live time_time cls m use_cache self
  end.
Proof.
  intros Hm. unfold BaseExchange.fetch_all_pairs.
  rewrite decide_False; [done|]. by intros H.
Qed.

(** C10.  With [use_cache=False] a call on a supported market type runs the
    market's processing method on the network whatever the cache holds,
    returns what that method produced, and leaves the cache mapping (and the
    clock, which it never reads) as they were. *)
Theorem fetch_all_pairs_bypasses_cache (m : string) (self : Instance) :
  m ∈ get_supported_markets cls ->
  let out := fetch_all_pairs m false self in
  _cache (snd out) = _cache self
  /\ clock_reads (snd out) = clock_reads self
  /\ cache_ttl (snd out) = cache_ttl self
  /\ match process_ cls m with
     | Some method =>
         net (snd out) = snd (method (net self))
         /\ fst out = match fst (method (net self)) with
                      | Ok (a, i) => Ok {| active := a; inactive := i |}
                      | Raise e => Raise e
                      end
     | None =>
         net (snd out) = net self /\ exists msg, fst out = Raise (NotImplementedError msg)
     end.
Proof.
  intros Hm out. subst out. rewrite fetch_all_pairs_supported by done.
  unfold fetch_live. destruct (process_ cls m) as [method|]; [|cbn; eauto 10].
  unfold bind, on_net, ret.
  destruct (method (net self)) as [[[a i]|e] n]; cbn; done.
Qed.

(** C2.  Three calls in a row with [use_cache=True] on a supported market
    type, starting without an entry for it.  The first runs the processing
    method (network state [n1]) and stores its result under the time read
    after the fetch.  The second reads the clock while
    [now - timestamp < ttl] holds: it returns the same result and leaves
    network and cache as they were, so the two calls made one fetch.  The
    third reads the clock when [now - timestamp < ttl] no longer holds: it
    runs the processing method again and overwrites the entry with the new
    result and time. *)
Theorem pair_cache_window (m : string) (self0 : Instance)
    (method : NetM (list TradingPair * list TradingPair))
    (a1 i1 a2 i2 : list TradingPair) (n1 n2 : Net.State) :
  m ∈ get_supported_markets cls ->
  process_ cls m = Some method ->
  _cache self0 !! m = None ->
  let c := clock_reads self0 in
  let ttl := cache_ttl self0 in
  let r1 := {| active := a1; inactive := i1 |} in
  let r2 := {| active := a2; inactive := i2 |} in
  method (net self0) = (Ok (a1, i1), n1) ->
  float_lt_int (time_time (c + 1)%nat - time_time c)%float ttl = true ->
  float_lt_int (time_time (c + 2)%nat - time_time c)%float ttl = false ->
  method n1 = (Ok (a2, i2), n2) ->
  let out1 := fetch_all_pairs m true self0 in
  let out2 := fetch_all_pairs m true (snd out1) in
  let out3 := fetch_all_pairs m true (snd out2) in
  fst out1 = Ok r1
  /\ net (snd out1) = n1
  /\ _cache (snd out1) = <[m := (time_time c, r1)]> (_cache self0)
  /\ fst out2 = Ok r1
  /\ net (snd out2) = n1
  /\ _cache (snd out2) = _cache (snd out1)
  /\ fst out3 = Ok r2
  /\ net (snd out3) = n2
  /\ _cache (snd out3) = <[m := (time_time (c + 3)%nat, r2)]> (_cache self0).
Proof.
  intros Hm Hmeth Hnone c ttl r1 r2 Hf1 Hfresh Hstale Hf2 out1 out2 out3.
  assert (E1 : out1 = (Ok r1, {| cache_ttl := ttl;
                                 _cache := <[m := (time_time c, r1)]> (_cache self0);
                                 net := n1; clock_reads := S c |})).
  { subst out1. rewrite fetch_all_pairs_supported by done.
    rewrite Hnone. unfold fetch_live. rewrite Hmeth.
    unfold bind, on_net. rewrite Hf1. reflexivity. }
  assert (E2 : out2 = (Ok r1, {| cache_ttl := ttl;
                                 _cache := <[m := (time_time c, r1)]> (_cache self0);
                                 net := n1; clock_reads := S (S c) |})).
  { subst out2. rewrite E1. cbn [snd]. rewrite fetch_all_pairs_supported by done.
    cbn [_cache]. rewrite lookup_insert_eq.
    unfold bind, now. cbn [clock_reads cache_ttl].
    replace (S c) with (c + 1)%nat by lia.
    rewrite Hfresh.
    unfold ret. repeat f_equal; lia. }
  assert (E3 : out3 = (Ok r2, {| cache_ttl := ttl;
                                 _cache := <[m := (time_time (c + 3)%nat, r2)]> (_cache self0);
                                 net := n2; clock_reads := S (S (S (S c))) |})).
  { subst out3. rewrite E2. cbn [snd]. rewrite fetch_all_pairs_supported by done.
    cbn [_cache]. rewrite lookup_insert_eq.
    unfold bind at 1. unfold now at 1. cbn [clock_reads cache_ttl].
    replace (S (S c)) with (c + 2)%nat by lia.
    rewrite Hstale.
    unfold fetch_live. rewrite Hmeth. unfold bind, on_net. cbn [net]. rewrite Hf2.
    unfold now, cache_store, ret. cbn [clock_reads cache_ttl _cache net].
    rewrite insert_insert_eq.
    replace (S (c + 2)) with (c + 3)%nat by lia.
    repeat f_equal; lia. }
  rewrite E2, E3, E1. cbn [fst snd net _cache]. done.
Qed.

End PairCache.

(** *** The same on a Binance instance against a fixed exchange-info document *)

Lemma fetch_all_pairs_unsupported_witness :
  ("margin" ∉ get_supported_markets (BinanceExchange.cls (Mock.always Mock.exchange_info)))
  /\ BaseExchange.fetch_all_pairs Mock.clock (BinanceExchange.cls (Mock.always Mock.exchange_info))
       "margin" true BinanceExchange.new
     = (Raise (ValueError "Unsupported market type 'margin'. Supported markets: ['spot', 'futures']"),
        BinanceExchange.new).
Proof.
  assert (H : "margin" ∉ get_supported_markets (BinanceExchange.cls (Mock.always Mock.exchange_info))).
  { apply (bool_decide_unpack _). vm_compute. exact I. }
  split; [exact H|].
  exact (proj1 (fetch_all_pairs_unsupported Mock.clock _ "margin" true BinanceExchange.new H)).
Defined.

Lemma fetch_all_pairs_bypasses_cache_witness :
  let cls := BinanceExchange.cls (Mock.always Mock.exchange_info) in
  let out := BaseExchange.fetch_all_pairs Mock.clock cls "spot" false Mock.cached_instance in
  _cache Mock.cached_instance !! "spot" = Some (1000%float, Mock.pairs)
  /\ float_lt_int (Mock.clock 1 - 1000)%float (cache_ttl Mock.cached_instance) = true
  /\ _cache (snd out) = _cache Mock.cached_instance
  /\ requests (net (snd out)) = [GET BinanceExchange.spot_url]
  /\ fst out = Ok Mock.pairs.
Proof.
  intros cls out.
  assert (Hm : "spot" ∈ get_supported_markets cls) by (apply (bool_decide_unpack _); vm_compute; exact I).
  destruct (fetch_all_pairs_bypasses_cache Mock.clock cls "spot" Mock.cached_instance Hm)
    as (Hcache & _ & _ & Hnet & Hres).
  split; [reflexivity|]. split; [reflexivity|]. split; [exact Hcache|].
  split; [fold out in Hnet; rewrite Hnet; reflexivity|].
  fold out in Hres. rewrite Hres. reflexivity.
Defined.

Lemma pair_cache_window_witness :
  let cls := BinanceExchange.cls (Mock.always Mock.exchange_info) in
  let out1 := BaseExchange.fetch_all_pairs Mock.clock cls "spot" true BinanceExchange.new in
  let out2 := BaseExchange.fetch_all_pairs Mock.clock cls "spot" true (snd out1) in
  let out3 := BaseExchange.fetch_all_pairs Mock.clock cls "spot" true (snd out2) in
  fst out1 = Ok Mock.pairs
  /\ fst out2 = Ok Mock.pairs
  /\ requests (net (snd out2)) = [GET BinanceExchange.spot_url]
  /\ fst out3 = Ok Mock.pairs
  /\ requests (net (snd out3)) = [GET BinanceExchange.spot_url; GET BinanceExchange.spot_url].
Proof.
  intros cls out1 out2 out3.
  destruct (pair_cache_window Mock.clock cls "spot" BinanceExchange.new
              (BinanceExchange.process_spot (Mock.always Mock.exchange_info))
              Mock.active_pairs Mock.inactive_pairs Mock.active_pairs Mock.inactive_pairs
              {| requests := [GET BinanceExchange.spot_url]; sleeps := [] |}
              {| requests := [GET BinanceExchange.spot_url; GET BinanceExchange.spot_url];
                 sleeps := [] |})
    as (H1 & _ & _ & H2 & N2 & _ & H3 & N3 & _).
  - apply (bool_decide_unpack _). vm_compute. exact I.
  - reflexivity.
  - reflexivity.
  - vm_compute. reflexivity.
  - vm_compute. reflexivity.
  - vm_compute. reflexivity.
  - vm_compute. reflexivity.
  - fold out1 in H1, H2, N2, H3, N3. fold out2 in H2, N2, H3, N3. fold out3 in H3, N3.
    rewrite H1, H2, N2, H3, N3. repeat split.
Defined.

(** ** Binance: the spot pair listing *)

(** Two predicates that never hold together split a list they cover. *)
Lemma filter_complement {A} (f g : A -> bool) (l : list A) :
  (forall x, f x = true -> g x = true -> False) ->
  (length (List.filter f l) + length (List.filter g l) = length l)%nat ->
  List.filter (fun x => negb (f x)) l = List.filter g l.
Proof.
  intros Hdisj.
  assert (Hle : forall l', (length (List.filter f l') + length (List.filter g l') <= length l')%nat).
  { induction l' as [|x l' IH]; cbn; [lia|].
    destruct (f x) eqn:Hf, (g x) eqn:Hg; cbn; try lia.
    destruct (Hdisj x Hf Hg). }
  induction l as [|x l IH]; cbn; [done|].
  destruct (f x) eqn:Hf, (g x) eqn:Hg; cbn; intros Hlen.
  - destruct (Hdisj x Hf Hg).
  - apply IH. lia.
  - f_equal. apply IH. lia.
  - specialize (Hle l). lia.
Qed.

Lemma py_eq_str_inj v a b : py_eq_str v a = true -> py_eq_str v b = true -> a = b.
Proof.
  destruct v; cbn; try discriminate.
  intros Ha%String.eqb_eq Hb%String.eqb_eq. congruence.
Qed.

Section BinanceSpot.
Import BinanceExchange.

(** The single pass over well-formed listings appends the trading ones to
    the first accumulator and the others to the second, in order. *)
Lemma spot_loop (items : list (list (string * JSON))) (acc : Symbols) :
  Forall listed_in_quote items ->
  for_each spot_item (map JObj items) acc
  = Ok (fst acc ++ map symbol_data_of (List.filter (has_status "TRADING") items),
        snd acc ++ map symbol_data_of (List.filter (fun x => negb (has_status "TRADING" x)) items)).
Proof.
  intros Hall. revert acc.
  induction Hall as [|x items (Hq & [b Hb] & [p Hp]) _ IH]; intros [tr ntr].
  { cbn. by rewrite !app_nil_r. }
  cbn [map for_each]. unfold spot_item at 1. cbn [dict_get py_item rbind].
  rewrite Hq, Hb, Hp. cbn [py_eq_str default_quote_asset rbind].
  rewrite String.eqb_refl. cbn [rbind].
  assert (Hst : py_eq_str (match assoc_get "status" x with Some v => v | None => JNull end)
                          "TRADING" = has_status "TRADING" x).
  { unfold has_status. by destruct (assoc_get "status" x). }
  assert (Hsd : symbol_data_of x = {| sd_symbol := b; sd_pair := p |}).
  { unfold symbol_data_of. by rewrite Hb, Hp. }
  rewrite Hst. cbn [List.filter fst snd].
  destruct (has_status "TRADING" x); cbn [rbind negb map]; rewrite IH, Hsd; cbn [fst snd];
    by rewrite <- !app_assoc.
Qed.

Variable http : Remote.
Variable time_time : nat -> float.

(** [process_spot] against a 200 answer whose ["symbols"] are well-formed
    listings: one request, and the listings split by status and tagged. *)
Lemma process_spot_spec (doc : list (string * JSON)) (items : list (list (string * JSON)))
    (n : Net.State) :
  attempt http (GET spot_url) n 0 = Ok (JObj doc) ->
  assoc_get "symbols" doc = Some (JArr (map JObj items)) ->
  Forall listed_in_quote items ->
  process_spot http n
  = (Ok (map (spot_pair true) (List.filter (has_status "TRADING") items),
         map (spot_pair false) (List.filter (fun x => negb (has_status "TRADING" x)) items)),
     {| requests := requests n ++ [GET spot_url]; sleeps := sleeps n |}).
Proof.
  intros Hdoc Hsym Hall.
  unfold process_spot, fetch_symbols_retry, fetch_symbols_from_exchange, bind, _fetch_with_retry.
  rewrite retry_unfold, Hdoc.
  unfold lift, partition_symbols. cbn [String.eqb Ascii.eqb Bool.eqb dict_get rbind].
  rewrite Hsym. cbn [rbind py_iter]. rewrite spot_loop by done. cbn [fst snd app].
  unfold ret, generate_symbol_updates, generate_symbol_updates_with_non_trading.
  by rewrite !map_map.
Qed.

(** C9.  Against an exchange-info answer listing three symbols quoted in
    USDT, two with status "TRADING" and one with status "BREAK",
    [fetch_all_pairs("spot")] on an instance with nothing cached for "spot"
    returns as [active] exactly the two trading listings, in the vendor's
    order, each with [is_active = true] and [exchange = "binance-spot"], and
    as [inactive] the remaining one with [is_active = false]. *)
Theorem binance_spot_pairs (doc : list (string * JSON)) (items : list (list (string * JSON)))
    (self : Instance) :
  attempt http (GET spot_url) (net self) 0 = Ok (JObj doc) ->
  assoc_get "symbols" doc = Some (JArr (map JObj items)) ->
  Forall listed_in_quote items ->
  length items = 3%nat ->
  length (List.filter (has_status "TRADING") items) = 2%nat ->
  length (List.filter (has_status "BREAK") items) = 1%nat ->
  _cache self !! "spot" = None ->
  exists r : PairSet,
    fst (fetch_all_pairs time_time (cls http) "spot" true self) = Ok r
    /\ active r = map (spot_pair true) (List.filter (has_status "TRADING") items)
    /\ length (active r) = 2%nat
    /\ Forall (fun p => is_active p = true /\ exchange p = "binance-spot") (active r)
    /\ inactive r = map (spot_pair false) (List.filter (has_status "BREAK") items)
    /\ length (inactive r) = 1%nat
    /\ Forall (fun p => is_active p = false /\ exchange p = "binance-spot") (inactive r).
Proof.
  intros Hdoc Hsym Hall Hlen Htr Hbr Hnone.
  assert (Hsplit : List.filter (fun x => negb (has_status "TRADING" x)) items
                   = List.filter (has_status "BREAK") items).
  { apply filter_complement; [|lia].
    intros x Ht Hb. unfold has_status in Ht, Hb.
    destruct (assoc_get "status" x) as [v|]; [|discriminate].
    by pose proof (py_eq_str_inj _ _ _ Ht Hb). }
  assert (Hsup : "spot" ∈ BaseExchange.get_supported_markets (cls http)) by (by left).
  rewrite (fetch_all_pairs_supported time_time (cls http) "spot" true self Hsup), Hnone.
  unfold fetch_live. cbn [process_ cls String.eqb Ascii.eqb Bool.eqb].
  unfold bind at 1, on_net.
  rewrite (process_spot_spec doc items (net self) Hdoc Hsym Hall), Hsplit.
  eexists. split; [reflexivity|]. cbn [active inactive].
  rewrite !length_map, Htr, Hbr.
  repeat split; try done; apply Forall_map, Forall_forall; done.
Qed.

End BinanceSpot.

Lemma binance_spot_pairs_witness :
  fst (BaseExchange.fetch_all_pairs Mock.clock (BinanceExchange.cls (Mock.always Mock.exchange_info))
         "spot" true BinanceExchange.new)
  = Ok {| active := [Mock.tagged "BTCUSDT" "BTC" true; Mock.tagged "ETHUSDT" "ETH" true];
          inactive := [Mock.tagged "HIFIUSDT" "HIFI" false] |}.
Proof.
  destruct (binance_spot_pairs (Mock.always Mock.exchange_info) Mock.clock
              Mock.exchange_info_fields Mock.listings BinanceExchange.new)
    as ([act inact] & Hr & Ha & _ & _ & Hi & _).
  - reflexivity.
  - reflexivity.
  - repeat constructor; by eexists.
  - reflexivity.
  - reflexivity.
  - reflexivity.
  - reflexivity.
  - rewrite Hr. cbn [active inactive] in Ha, Hi. rewrite Ha, Hi. reflexivity.
Defined.

(** ** Binance: the limit of [fetch_klines] *)

Section BinanceKlines.
Import BinanceExchange.
Variable http : Remote.

(** Past the interval check, a limit above the market's cap raises at once. *)
Lemma fetch_klines_over_cap symbol interval market st et limit tz (s : Net.State) :
  interval ∈ valid_intervals ->
  max_limit market < limit ->
  fetch_klines http symbol interval market st et limit tz s
  = (Raise (ValueError ("Limit cannot exceed " +:+ pretty (max_limit market)
                        +:+ " for " +:+ market +:+ " market")), s).
Proof.
  intros Hi Hl. unfold fetch_klines.
  rewrite decide_False by (by intros H).
  by destruct (Z.ltb_spec (max_limit market) limit); [|lia].
Qed.

(** Past both checks, on one of the two markets, the call is the fetch of the
    market's klines URL followed by the positional parse. *)
Lemma fetch_klines_within_cap symbol interval market st et limit tz (s : Net.State) :
  interval ∈ valid_intervals ->
  market = "spot" \/ market = "futures" ->
  limit <= max_limit market ->
  exists url,
    fetch_klines http symbol interval market st et limit tz s
    = (let! raw_data := _fetch_with_retry http url in lift (parse_klines raw_data)) s
    /\ request_sent (GET url) s (snd (fetch_klines http symbol interval market st et limit tz s)).
Proof.
  intros Hi Hm Hl. unfold fetch_klines.
  rewrite decide_False by (by intros H).
  destruct (Z.ltb_spec (max_limit market) limit); [lia|].
  destruct Hm as [-> | ->]; cbn [String.eqb Ascii.eqb Bool.eqb];
    (eexists; split; [reflexivity|]);
    unfold bind, _fetch_with_retry; rewrite retry_unfold;
    repeat (destruct (attempt _ _ _ _)); unfold request_sent, lift; cbn [snd requests];
    eexists; reflexivity.
Qed.

(** C5.  With a supported interval, [fetch_klines] raises [ValueError] and
    issues no request whenever [limit] is above the cap of the market, 1000
    for "spot" and 1500 otherwise: so for spot with 1001 and with 1500.  With
    [limit = 1000] on spot, and with [limit = 1500] on futures, validation
    passes: the request for the klines goes out and the call is the parse of
    its answer. *)
Theorem binance_klines_limit symbol interval st et tz (s : Net.State) :
  interval ∈ valid_intervals ->
  (forall market limit,
      max_limit market < limit ->
      exists msg,
        fetch_klines http symbol interval market st et limit tz s = (Raise (ValueError msg), s))
  /\ fetch_klines http symbol interval "spot" st et 1001 tz s
     = (Raise (ValueError "Limit cannot exceed 1000 for spot market"), s)
  /\ fetch_klines http symbol interval "spot" st et 1500 tz s
     = (Raise (ValueError "Limit cannot exceed 1000 for spot market"), s)
  /\ (exists url,
        fetch_klines http symbol interval "spot" st et 1000 tz s
        = (let! raw_data := _fetch_with_retry http url in lift (parse_klines raw_data)) s
        /\ request_sent (GET url) s (snd (fetch_klines http symbol interval "spot" st et 1000 tz s)))
  /\ (exists url,
        fetch_klines http symbol interval "futures" st et 1500 tz s
        = (let! raw_data := _fetch_with_retry http url in lift (parse_klines raw_data)) s
        /\ request_sent (GET url) s (snd (fetch_klines http symbol interval "futures" st et 1500 tz s))).
Proof.
  intros Hi. split; [|split; [|split; [|split]]].
  - intros market limit Hl. eexists. by apply fetch_klines_over_cap.
  - by rewrite fetch_klines_over_cap.
  - by rewrite fetch_klines_over_cap.
  - apply fetch_klines_within_cap; [done|by left|done].
  - apply fetch_klines_within_cap; [done|by right|done].
Qed.

End BinanceKlines.

Lemma binance_klines_limit_witness :
  "1h" ∈ BinanceExchange.valid_intervals
  /\ BinanceExchange.fetch_klines (Mock.always (JArr [])) "BTCUSDT" "1h" "spot" None None 1001 "0" idle
     = (Raise (ValueError "Limit cannot exceed 1000 for spot market"), idle)
  /\ BinanceExchange.fetch_klines (Mock.always (JArr [])) "BTCUSDT" "1h" "spot" None None 1000 "0" idle
     = (Ok [],
        {| requests :=
             [GET "https://api.binance.com/api/v3/klines?symbol=BTCUSDT&interval=1h&limit=1000&timeZone=0"];
           sleeps := [] |}).
Proof.
  assert (H : "1h" ∈ BinanceExchange.valid_intervals).
  { apply (bool_decide_unpack _). vm_compute. exact I. }
  split; [exact H|]. split.
  - exact (proj1 (proj2 (binance_klines_limit (Mock.always (JArr [])) "BTCUSDT" "1h"
                           None None "0" idle H))).
  - vm_compute. reflexivity.
Defined.

(** ** Bybit: the order of klines and the vendor's status code *)

Lemma StronglySorted_snoc {A} (R : A -> A -> Prop) (l : list A) (x : A) :
  StronglySorted R l -> Forall (fun y => R y x) l -> StronglySorted R (l ++ [x]).
Proof.
  induction 1 as [|y l Hs IH Hy]; intros Hall; cbn.
  - repeat constructor.
  - apply Forall_cons in Hall as [Hyx Hall]. constructor; [by apply IH|].
    apply Forall_app. split; [done|]. by constructor.
Qed.

(** Reversing a strictly descending list gives a strictly ascending one. *)
Lemma StronglySorted_rev_gt (l : list Z) :
  StronglySorted Z.gt l -> StronglySorted Z.lt (rev l).
Proof.
  induction 1 as [|x l Hs IH Hx]; cbn; [constructor|].
  apply StronglySorted_snoc; [done|].
  apply Forall_forall. intros y Hy. apply list_elem_of_In, in_rev, list_elem_of_In in Hy.
  rewrite Forall_forall in Hx. specialize (Hx y Hy). lia.
Qed.

Section Bybit.
Import BybitExchange.
Variable http : Remote.
Variable float_repr : float -> string.

(** The loop over the rows keeps the vendor's order. *)
Lemma klines_loop (rows : list JSON) (ks acc : list Record_) :
  Forall2 (fun row k => kline_of_row row = Ok k) rows ks ->
  for_each (fun klines item => rbind (kline_of_row item) (fun k => Ok (klines ++ [k]))) rows acc
  = Ok (acc ++ ks).
Proof.
  intros H. revert acc. induction H as [|row k rows ks Hk _ IH]; intros acc; cbn.
  - by rewrite app_nil_r.
  - rewrite Hk. cbn. rewrite IH. by rewrite <- app_assoc.
Qed.

Lemma parse_klines_rev (rows : list JSON) (ks : list Record_) :
  Forall2 (fun row k => kline_of_row row = Ok k) rows ks ->
  parse_klines (JArr rows) = Ok (rev ks).
Proof.
  intros H. unfold parse_klines. cbn [py_iter rbind].
  by rewrite (klines_loop rows ks []).
Qed.

(** What [check_retCode] does on a dict. *)
Lemma check_retCode_spec (response : list (string * JSON)) :
  check_retCode float_repr (JObj response)
  = if py_eq_zero (retCode_of response) then Ok tt
    else Raise (Exception_ ("Bybit API error: " +:+ py_str float_repr (retMsg_of response))).
Proof.
  unfold check_retCode, retCode_of, retMsg_of. cbn [dict_get rbind].
  destruct (assoc_get "retCode" response) as [code|]; cbn [default];
    by destruct (py_eq_zero _).
Qed.

(** [fetch_klines] once its arguments are valid and the first attempt is
    answered 2xx with a dict. *)
Lemma fetch_klines_answered symbol interval market st et limit tz (s : Net.State)
    (response : list (string * JSON)) :
  (forall req, attempt http req s 0 = Ok (JObj response)) ->
  interval ∈ valid_intervals ->
  1 <= limit <= 1000 ->
  market = "spot" \/ market = "futures" ->
  exists url,
    fetch_klines http float_repr symbol interval market st et limit tz s
    = (rbind (check_retCode float_repr (JObj response)) (fun _ =>
       rbind (result_list (JObj response)) parse_klines),
       {| requests := requests s ++ [GET url]; sleeps := sleeps s |}).
Proof.
  intros Hresp Hi Hl Hm. unfold fetch_klines.
  rewrite decide_False by (by intros H).
  destruct (Z.ltb_spec 1000 limit); [lia|]. destruct (Z.ltb_spec limit 1); [lia|].
  cbn [orb].
  destruct Hm as [-> | ->]; cbn [String.eqb Ascii.eqb Bool.eqb];
    eexists; unfold bind at 1, _fetch_with_retry; rewrite retry_unfold, Hresp;
    unfold bind, lift;
    destruct (check_retCode float_repr (JObj response)) as [[]|e]; cbn [rbind]; try reflexivity;
    destruct (result_list (JObj response)); reflexivity.
Qed.

(** The same for [fetch_funding_rate_history]. *)
Lemma fetch_funding_answered symbol st et limit (s : Net.State)
    (response : list (string * JSON)) :
  (forall req, attempt http req s 0 = Ok (JObj response)) ->
  1 <= limit <= 200 ->
  (st = None \/ et <> None) ->
  exists url,
    fetch_funding_rate_history http float_repr symbol st et limit "futures" s
    = (rbind (check_retCode float_repr (JObj response)) (fun _ =>
       rbind (result_list (JObj response)) parse_funding_rates),
       {| requests := requests s ++ [GET url]; sleeps := sleeps s |}).
Proof.
  intros Hresp Hl Hse. unfold fetch_funding_rate_history.
  destruct (Z.ltb_spec 200 limit); [lia|]. destruct (Z.ltb_spec limit 1); [lia|].
  cbn [orb].
  assert (Hcomb : (if st is Some _ then true else false) && (if et is Some _ then false else true)
                  = false).
  { destruct Hse as [-> | He]; [done|]. destruct et; [|done]. by destruct st. }
  rewrite Hcomb. cbn [String.eqb Ascii.eqb Bool.eqb negb].
  eexists. unfold bind at 1, _fetch_with_retry. rewrite retry_unfold, Hresp.
  unfold bind, lift.
  destruct (check_retCode float_repr (JObj response)) as [[]|e]; cbn [rbind]; try reflexivity.
  destruct (result_list (JObj response)); reflexivity.
Qed.

(** C4.  Against a fixed answer (every request gets the same 200 document
    with status code zero) whose rows parse to klines [ks] in the vendor's
    newest-first order, [fetch_klines] returns [ks] reversed, which is
    oldest first; a second call after the first returns the same list, and
    so does a call from any other state of the client. *)
Theorem bybit_klines_oldest_first symbol interval market st et limit tz (s : Net.State)
    (response result : list (string * JSON)) (rows : list JSON) (ks : list Record_) :
  (forall n req, http n req = Response 200 (Some (JObj response))) ->
  interval ∈ valid_intervals ->
  1 <= limit <= 1000 ->
  market = "spot" \/ market = "futures" ->
  py_eq_zero (retCode_of response) = true ->
  assoc_get "result" response = Some (JObj result) ->
  assoc_get "list" result = Some (JArr rows) ->
  Forall2 (fun row k => kline_of_row row = Ok k) rows ks ->
  StronglySorted Z.gt (map open_time_of ks) ->
  let call := fetch_klines http float_repr symbol interval market st et limit tz in
  fst (call s) = Ok (rev ks)
  /\ StronglySorted Z.lt (map open_time_of (rev ks))
  /\ fst (call (snd (call s))) = fst (call s)
  /\ forall s', fst (call s') = Ok (rev ks).
Proof.
  intros Hfix Hi Hl Hm Hcode Hres Hlist Hrows Hsorted call.
  assert (Hany : forall s', fst (call s') = Ok (rev ks)).
  { intros s'. subst call.
    destruct (fetch_klines_answered symbol interval market st et limit tz s' response)
      as [url ->]; try done.
    { intros req. unfold attempt. by rewrite Hfix. }
    cbn [fst]. rewrite check_retCode_spec, Hcode. cbn [rbind].
    unfold result_list. cbn [dict_get rbind]. rewrite Hres. cbn [dict_get rbind].
    rewrite Hlist. cbn [rbind]. by apply parse_klines_rev. }
  split; [done|]. split; [|split; [by rewrite !Hany|done]].
  rewrite map_rev. by apply StronglySorted_rev_gt.
Qed.

(** When the first attempt is answered 2xx with a dict, [fetch_klines] and
    [fetch_funding_rate_history] (called with valid arguments) look at its
    ["retCode"].  If it is not zero they raise
    [Exception("Bybit API error: " + retMsg)], the vendor's own text when
    ["retMsg"] is a string; this is neither an [httpx.HTTPError] nor
    tenacity's [RetryError], and exactly one request was issued.  If it is
    zero they go on to parse ["result"]["list"]. *)
Lemma vendor_error_where_checked symbol interval market st et limit tz
    fsymbol fstart fend flimit (s : Net.State) (response : list (string * JSON)) :
  (forall req, attempt http req s 0 = Ok (JObj response)) ->
  interval ∈ valid_intervals ->
  1 <= limit <= 1000 ->
  market = "spot" \/ market = "futures" ->
  1 <= flimit <= 200 ->
  (fstart = None \/ fend <> None) ->
  let klines := fetch_klines http float_repr symbol interval market st et limit tz s in
  let funding := fetch_funding_rate_history http float_repr fsymbol fstart fend flimit "futures" s in
  let err := Exception_ ("Bybit API error: " +:+ py_str float_repr (retMsg_of response)) in
  (py_eq_zero (retCode_of response) = false ->
     fst klines = Raise err
     /\ fst funding = Raise err
     /\ is_HTTPError err = false
     /\ (forall e, err <> RetryError e)
     /\ (forall text, assoc_get "retMsg" response = Some (JStr text) ->
                     err = Exception_ ("Bybit API error: " +:+ text))
     /\ (exists url, requests (snd klines) = requests s ++ [GET url])
     /\ (exists url, requests (snd funding) = requests s ++ [GET url]))
  /\ (py_eq_zero (retCode_of response) = true ->
      fst klines = rbind (result_list (JObj response)) parse_klines
      /\ fst funding = rbind (result_list (JObj response)) parse_funding_rates).
Proof.
  intros Hresp Hi Hl Hm Hfl Hse klines funding err.
  destruct (fetch_klines_answered symbol interval market st et limit tz s response)
    as [kurl Hk]; try done.
  destruct (fetch_funding_answered fsymbol fstart fend flimit s response)
    as [furl Hf]; try done.
  subst klines funding. rewrite Hk, Hf. cbn [fst snd requests].
  rewrite check_retCode_spec. split; intros Hcode; rewrite Hcode; cbn [rbind].
  - repeat split; try done; eauto.
    intros text Ht. unfold err, retMsg_of. by rewrite Ht.
  - done.
Qed.

End Bybit.

Lemma bybit_klines_oldest_first_witness :
  let call := BybitExchange.fetch_klines (Mock.always (JObj Mock.bybit_klines_answer))
                Mock.no_float_repr "BTCUSDT" "60" "spot" None None 200 "0" in
  fst (call idle) = Ok (rev Mock.bybit_klines_newest_first)
  /\ map BybitExchange.open_time_of (rev Mock.bybit_klines_newest_first)
     = [1670601600000; 1670605200000; 1670608800000]
  /\ fst (call (snd (call idle))) = fst (call idle).
Proof.
  intros call.
  destruct (bybit_klines_oldest_first (Mock.always (JObj Mock.bybit_klines_answer))
              Mock.no_float_repr "BTCUSDT" "60" "spot" None None 200 "0" idle
              Mock.bybit_klines_answer Mock.bybit_result Mock.bybit_rows
              Mock.bybit_klines_newest_first)
    as (H1 & _ & H2 & _).
  - reflexivity.
  - apply (bool_decide_unpack _). vm_compute. exact I.
  - lia.
  - by left.
  - reflexivity.
  - reflexivity.
  - reflexivity.
  - repeat constructor.
  - repeat constructor.
  - split; [exact H1|]. split; [reflexivity|exact H2].
Defined.

(** ** Hyperliquid: the 24h price change *)

Lemma positive_nonzero (p : float) : PrimFloat.ltb 0 p = true -> PrimFloat.eqb p 0 = false.
Proof.
  rewrite ltb_spec, eqb_spec. change (Prim2SF 0) with (S754_zero false).
  destruct (Prim2SF p) as [s|s| |s m e]; try destruct s; cbn; congruence.
Qed.

Lemma zero_not_positive (p : float) : PrimFloat.eqb p 0 = true -> PrimFloat.ltb 0 p = false.
Proof.
  rewrite ltb_spec, eqb_spec. change (Prim2SF 0) with (S754_zero false).
  destruct (Prim2SF p) as [s|s| |s m e]; try destruct s; cbn; congruence.
Qed.

Section Hyperliquid.
Import HyperliquidExchange.

Lemma price_change_spec (mark prev : float) :
  price_change mark prev
  = if PrimFloat.ltb 0 prev then Ok (Float ((mark - prev) / prev * 100)%float) else Ok (Int 0).
Proof.
  unfold price_change, truediv.
  destruct (PrimFloat.ltb 0 prev) eqn:Hpos; [|done].
  by rewrite (positive_nonzero prev Hpos).
Qed.

(** The record also carries the asset's name. *)
Lemma market_data_record (asset_name : JSON) (asset_info ctx : list (string * JSON))
    (mark prev : float) :
  py_float (default (JInt 0) (assoc_get "markPx" ctx)) = Ok mark ->
  py_float (default (JInt 0) (assoc_get "prevDayPx" ctx)) = Ok prev ->
  exists md,
    market_data asset_name (JObj asset_info) (JObj ctx) = Ok md
    /\ assoc_get "symbol" md = Some asset_name
    /\ assoc_get "price_change_24h" md = Some (change_of mark prev).
Proof.
  intros Hm Hp. unfold market_data, change_of. cbn [dict_get rbind].
  assert (Hm' : py_float (match assoc_get "markPx" ctx with Some v => v | None => JInt 0 end)
                = Ok mark) by (by destruct (assoc_get "markPx" ctx)).
  assert (Hp' : py_float (match assoc_get "prevDayPx" ctx with Some v => v | None => JInt 0 end)
                = Ok prev) by (by destruct (assoc_get "prevDayPx" ctx)).
  rewrite Hm'. cbn [rbind]. rewrite Hp'. cbn [rbind].
  rewrite price_change_spec.
  destruct (PrimFloat.ltb 0 prev); cbn [rbind]; eexists; (split; [reflexivity|]);
    split; reflexivity.
Qed.

(** Past the contexts the loop adds nothing. *)
Lemma market_loop_exhausted (all : list JSON) (infos : list (list (string * JSON)))
    (k : nat) (acc : list Record_) :
  (length all <= k)%nat ->
  for_each (market_step None (JArr all)) (combine (seq k (length infos)) (map JObj infos)) acc
  = Ok acc.
Proof.
  revert k acc. induction infos as [|info infos IH]; intros k acc Hk; [done|].
  cbn [length seq map combine for_each market_step dict_get rbind py_len].
  destruct (Nat.ltb_spec k (length all)); [lia|]. cbn [rbind]. apply IH. lia.
Qed.

(** The loop of [fetch_market_data] without a filter: one record per asset
    that has a context, in order. *)
Lemma market_loop (infos : list (list (string * JSON))) :
  forall (pre ctxs : list (list (string * JSON))) (prices : list (float * float))
         (acc : list Record_),
    Forall2 (fun ctx mp => prices_of ctx = Ok mp) (take (length infos) ctxs) prices ->
    exists records,
      for_each (market_step None (JArr (map JObj (pre ++ ctxs))))
               (combine (seq (length pre) (length infos)) (map JObj infos)) acc
      = Ok (acc ++ records)
      /\ Forall2 (fun md mp => assoc_get "price_change_24h" md
                               = Some (change_of (fst mp) (snd mp))) records prices
      /\ Forall2 (fun md info => assoc_get "symbol" md = Some (default JNull (assoc_get "name" info)))
                 records (take (length prices) infos).
Proof.
  induction infos as [|info infos IH]; intros pre ctxs prices acc Hp.
  { cbn in Hp. apply Forall2_nil_inv_l in Hp as ->. exists []. rewrite app_nil_r.
    by repeat split; constructor. }
  destruct ctxs as [|ctx ctxs].
  { cbn in Hp. apply Forall2_nil_inv_l in Hp as ->. exists []. rewrite !app_nil_r.
    split; [|by split; constructor].
    apply market_loop_exhausted. by rewrite length_map. }
  cbn [length take] in Hp. apply Forall2_cons_inv_l in Hp as ([mark prev] & prices' & Hc & Hp & ->).
  unfold prices_of in Hc.
  destruct (py_float (default (JInt 0) (assoc_get "markPx" ctx))) as [m|] eqn:Hm; [|done].
  destruct (py_float (default (JInt 0) (assoc_get "prevDayPx" ctx))) as [q|] eqn:Hq; [|done].
  cbn [rbind] in Hc. injection Hc as -> ->.
  destruct (market_data_record (default JNull (assoc_get "name" info)) info ctx mark prev Hm Hq)
    as (md & Hmd & Hsym & Hchange).
  destruct (IH (pre ++ [ctx]) ctxs prices' (acc ++ [md]) Hp) as (records & Hloop & Hch & Hsy).
  exists (md :: records).
  split; [|split; [by constructor|cbn [length take]; by constructor]].
  cbn [length seq map combine for_each market_step dict_get rbind py_len py_index].
  rewrite length_map, length_app. cbn [length].
  destruct (Nat.ltb_spec (length pre) (length pre + S (length ctxs))); [|lia].
  rewrite map_app. cbn [map].
  rewrite nth_error_app2 by (rewrite length_map; lia).
  rewrite length_map, Nat.sub_diag. cbn [nth_error rbind].
  assert (Hname : match assoc_get "name" info with Some v => v | None => JNull end
                  = default JNull (assoc_get "name" info)) by (by destruct (assoc_get "name" info)).
  rewrite Hname, Hmd. cbn [rbind].
  rewrite length_app in Hloop. cbn [length] in Hloop.
  replace (length pre + 1)%nat with (S (length pre)) in Hloop by lia.
  rewrite <- app_assoc in Hloop. cbn [app] in Hloop.
  rewrite map_app in Hloop. cbn [map] in Hloop.
  rewrite Hloop. by rewrite <- app_assoc.
Qed.

Variable http : Remote.

(** On a [metaAndAssetCtxs] answer whose assets and contexts are dicts and
    whose prices convert to floats, [fetch_market_data] returns one record
    per asset that has a context, in order, under the asset's name, with the
    24h change of its two prices. *)
Lemma market_data_records (n : Net.State) (meta : list (string * JSON))
    (infos ctxs : list (list (string * JSON))) (prices : list (float * float)) :
  (forall req, attempt http req n 0 = Ok (JArr [JObj meta; JArr (map JObj ctxs)])) ->
  assoc_get "universe" meta = Some (JArr (map JObj infos)) ->
  Forall2 (fun ctx mp => prices_of ctx = Ok mp) (take (length infos) ctxs) prices ->
  (exists records,
      fst (fetch_market_data http None n) = Ok records
      /\ Forall2 (fun md mp =>
                    assoc_get "price_change_24h" md
                    = Some (if PrimFloat.ltb 0 (snd mp)
                            then JFloat (round_float ((fst mp - snd mp) / snd mp * 100)%float 2)
                            else JInt 0)) records prices
      /\ Forall2 (fun md mp => PrimFloat.eqb (snd mp) 0 = true ->
                                assoc_get "price_change_24h" md = Some (JInt 0)) records prices
      /\ Forall2 (fun md ctx => assoc_get "prevDayPx" ctx = None ->
                                 assoc_get "price_change_24h" md = Some (JInt 0))
                 records (take (length prices) ctxs)
      /\ Forall2 (fun md info => assoc_get "symbol" md
                                  = Some (default JNull (assoc_get "name" info)))
                 records (take (length prices) infos))
.
Proof.
  intros Hanswer Huni Hprices.
  - destruct (market_loop infos [] ctxs prices [] Hprices) as (records & Hloop & Hch & Hsy).
    exists records.
    assert (Hrun : fst (fetch_market_data http None n) = Ok records).
    { unfold fetch_market_data, bind, _fetch_with_retry_post.
      rewrite retry_unfold, Hanswer. unfold lift, parse_market_data.
      cbn [fst py_index nth_error rbind dict_get]. rewrite Huni.
      cbn [rbind py_iter]. unfold enumerate. rewrite length_map.
      exact Hloop. }
    split; [exact Hrun|].
    split; [exact Hch|].
    split.
    { eapply Forall2_impl; [exact Hch|]. intros md [mark prev] Hmd Hz. cbn [fst snd] in *.
      rewrite Hmd. unfold change_of. by rewrite (zero_not_positive prev Hz). }
    split; [|exact Hsy].
    assert (Hlen : length prices = length (take (length infos) ctxs))
      by (symmetry; by eapply Forall2_length).
    assert (Htake : take (length prices) ctxs = take (length infos) ctxs).
    { rewrite Hlen, length_take. destruct (Nat.le_ge_cases (length infos) (length ctxs)).
      - by rewrite Nat.min_l.
      - rewrite Nat.min_r by done. by rewrite !take_ge. }
    rewrite Htake.
    clear -Hch Hprices. revert records Hch.
    induction Hprices as [|ctx [mark prev] cs ps Hc _ IH]; intros records Hch.
    { apply Forall2_nil_inv_r in Hch as ->. constructor. }
    apply Forall2_cons_inv_r in Hch as (md & records' & Hmd & Hch & ->).
    constructor; [|by apply IH].
    intros Hnone. rewrite Hmd. cbn [fst snd].
    unfold prices_of in Hc. rewrite Hnone in Hc. cbn [default] in Hc.
    destruct (py_float (default (JInt 0) (assoc_get "markPx" ctx))); [|done].
    cbn in Hc. by injection Hc as _ <-.
Qed.

(** C6.  On a [metaAndAssetCtxs] answer whose assets and contexts are dicts
    and whose prices convert to floats, [fetch_market_data] returns one
    record per asset that has a context, in order, under the asset's name,
    and its 24h change is [(mark - prev) / prev * 100] rounded to two
    decimals when the previous-day price is positive and the integer 0
    otherwise: so when that price is zero, and when the context has none.
    The division never raises.  On the answer with a mark price of 101540.0
    against a previous-day price of 102983.0 for BTC and no previous-day
    price for ETH, the records carry -1.4 and 0. *)
Theorem hyperliquid_price_change (n : Net.State) (meta : list (string * JSON))
    (infos ctxs : list (list (string * JSON))) (prices : list (float * float)) :
  (forall req, attempt http req n 0 = Ok (JArr [JObj meta; JArr (map JObj ctxs)])) ->
  assoc_get "universe" meta = Some (JArr (map JObj infos)) ->
  Forall2 (fun ctx mp => prices_of ctx = Ok mp) (take (length infos) ctxs) prices ->
  (exists records,
      fst (fetch_market_data http None n) = Ok records
      /\ Forall2 (fun md mp =>
                    assoc_get "price_change_24h" md
                    = Some (if PrimFloat.ltb 0 (snd mp)
                            then JFloat (round_float ((fst mp - snd mp) / snd mp * 100)%float 2)
                            else JInt 0)) records prices
      /\ Forall2 (fun md mp => PrimFloat.eqb (snd mp) 0 = true ->
                                assoc_get "price_change_24h" md = Some (JInt 0)) records prices
      /\ Forall2 (fun md ctx => assoc_get "prevDayPx" ctx = None ->
                                 assoc_get "price_change_24h" md = Some (JInt 0))
                 records (take (length prices) ctxs)
      /\ Forall2 (fun md info => assoc_get "symbol" md
                                  = Some (default JNull (assoc_get "name" info)))
                 records (take (length prices) infos))
  /\ (forall mark prev, price_change mark prev <> Raise ZeroDivisionError)
  /\ (forall n',
        (forall req, attempt http req n' 0 = Ok Mock.hl_market_answer) ->
        exists btc eth,
          fst (fetch_market_data http None n') = Ok [btc; eth]
          /\ assoc_get "symbol" btc = Some (JStr "BTC")
          /\ assoc_get "price_change_24h" btc = Some (JFloat (-1.4))
          /\ assoc_get "symbol" eth = Some (JStr "ETH")
          /\ assoc_get "price_change_24h" eth = Some (JInt 0)).
Proof.
  intros Hanswer Huni Hprices.
  split; [by apply (market_data_records n meta infos ctxs prices)|].
  split.
  { intros mark prev. rewrite price_change_spec. by destruct (PrimFloat.ltb 0 prev). }
  intros n' Hmock.
  destruct (market_data_records n'
              [("universe", JArr [JObj Mock.hl_info; JObj [("name", JStr "ETH")]])]
              [Mock.hl_info; [("name", JStr "ETH")]] [Mock.hl_ctx; Mock.hl_ctx_no_prev]
              [(101540%float, 102983%float); (101540%float, 0%float)])
    as (records & Hrun & Hchange & _ & _ & Hsym).
  - exact Hmock.
  - reflexivity.
  - repeat constructor; vm_compute; reflexivity.
  - apply Forall2_cons_inv_r in Hchange as (btc & rest & Hb & Hchange & ->).
    apply Forall2_cons_inv_r in Hchange as (eth & rest' & He & Hchange & ->).
    apply Forall2_nil_inv_r in Hchange as ->.
    apply Forall2_cons_inv_l in Hsym as (i1 & is1 & Hsb & Hsym & Hi).
    apply Forall2_cons_inv_l in Hsym as (i2 & is2 & Hse & _ & Hi2).
    injection Hi as <- <-. injection Hi2 as <- _.
    exists btc, eth. split; [exact Hrun|].
    split; [exact Hsb|]. split; [rewrite Hb; vm_compute; reflexivity|].
    split; [exact Hse|]. rewrite He. vm_compute. reflexivity.
Qed.


End Hyperliquid.

Lemma hyperliquid_price_change_witness :
  exists btc eth,
    fst (HyperliquidExchange.fetch_market_data (Mock.always Mock.hl_market_answer) None idle)
    = Ok [btc; eth]
    /\ assoc_get "symbol" btc = Some (JStr "BTC")
    /\ assoc_get "price_change_24h" btc = Some (JFloat (-1.4))
    /\ assoc_get "symbol" eth = Some (JStr "ETH")
    /\ assoc_get "price_change_24h" eth = Some (JInt 0).
Proof.
  destruct (hyperliquid_price_change (Mock.always Mock.hl_market_answer) idle
              [("universe", JArr [JObj Mock.hl_info; JObj [("name", JStr "ETH")]])]
              [Mock.hl_info; [("name", JStr "ETH")]] [Mock.hl_ctx; Mock.hl_ctx_no_prev]
              [(101540%float, 102983%float); (101540%float, 0%float)])
    as (_ & _ & Hmock).
  - reflexivity.
  - reflexivity.
  - repeat constructor; vm_compute; reflexivity.
  - apply (Hmock idle). reflexivity.
Defined.

(** ** The registry *)

Section Registry.
Import ExchangeFactory.

Lemma dict_set_lookup (key : string) (value : ExchangeClass) (d : Registry) :
  assoc_get key (dict_set key value d) = Some value.
Proof.
  induction d as [|[k v] d IH]; cbn.
  - by rewrite String.eqb_refl.
  - destruct (String.eqb key k) eqn:E; cbn; rewrite E; [done|exact IH].
Qed.

Lemma dict_set_lookup_ne (key k : string) (value : ExchangeClass) (d : Registry) :
  k <> key -> assoc_get k (dict_set key value d) = assoc_get k d.
Proof.
  intros Hne. induction d as [|[k' v] d IH]; cbn.
  - by apply String.eqb_neq in Hne as ->.
  - destruct (String.eqb key k') eqn:E; cbn; [|by rewrite IH].
    apply String.eqb_eq in E as <-. by apply String.eqb_neq in Hne as ->.
Qed.

(** Storing under a key the dict already has keeps the keys as they are. *)
Lemma dict_set_keys_present (key : string) (value : ExchangeClass) (d : Registry) :
  is_Some (assoc_get key d) -> map fst (dict_set key value d) = map fst d.
Proof.
  induction d as [|[k v] d IH]; cbn; [by intros [? ?]|].
  destruct (String.eqb key k) eqn:E; cbn; [done|]. intros H. by rewrite IH.
Qed.

(** Storing under a new key adds it at the end. *)
Lemma dict_set_keys_absent (key : string) (value : ExchangeClass) (d : Registry) :
  assoc_get key d = None -> map fst (dict_set key value d) = map fst d ++ [key].
Proof.
  induction d as [|[k v] d IH]; cbn; [done|].
  destruct (String.eqb key k) eqn:E; cbn; [done|]. intros H. by rewrite IH.
Qed.

(** C8.  [register] stores under the lower-cased name, and a later
    registration under a name with the same lower-casing replaces the class
    without adding a second entry.  [create] looks the lower-cased name up:
    two names with the same lower-casing get the same class and instance, and
    a name whose lower-casing is not registered raises [ValueError] with a
    message that ends in the rendered list of the registered names, naming
    each of them.  On the registry of the module, "BINANCE" and "binance"
    both give [BinanceExchange], and "unknown-xyz" is refused with the three
    registered names. *)
Theorem registry_lookup (reg : Registry) (name name' : string) (c1 c2 : ExchangeClass)
    (http : Remote) (float_repr : float -> string) :
  assoc_get (str_lower name) (register name c1 reg) = Some c1
  /\ (str_lower name = str_lower name' ->
      assoc_get (str_lower name) (register name' c2 (register name c1 reg)) = Some c2
      /\ list_exchanges (register name' c2 (register name c1 reg))
         = list_exchanges (register name c1 reg)
      /\ create name (register name' c2 (register name c1 reg)) = Ok (c2, construct c2)
      /\ (forall found, create name' reg = Ok found -> create name reg = Ok found))
  /\ (forall c, assoc_get (str_lower name) reg = Some c -> create name reg = Ok (c, construct c))
  /\ (assoc_get (str_lower name) reg = None ->
      let msg := "Exchange '" +:+ name +:+ "' not found. Available exchanges: "
                 +:+ repr_list_str (list_exchanges reg) in
      create name reg = Raise (ValueError msg)
      /\ is_ValueError (ValueError msg) = true
      /\ forall x, x ∈ list_exchanges reg -> mentions msg (repr_str x))
  /\ create "BINANCE" (registry http float_repr) = Ok (Binance http, BinanceExchange.new)
  /\ create "binance" (registry http float_repr) = Ok (Binance http, BinanceExchange.new)
  /\ create "unknown-xyz" (registry http float_repr)
     = Raise (ValueError ("Exchange 'unknown-xyz' not found. "
                          +:+ "Available exchanges: ['binance', 'bybit', 'hyperliquid']")).
Proof.
  split; [apply dict_set_lookup|].
  split.
  { intros Hsame. unfold register. rewrite <- Hsame.
    split; [apply dict_set_lookup|].
    split; [apply dict_set_keys_present; rewrite dict_set_lookup; by eexists|].
    split; [unfold create; by rewrite dict_set_lookup|].
    intros found. unfold create. rewrite <- Hsame.
    by destruct (assoc_get (str_lower name) reg). }
  split; [intros c Hc; unfold create; by rewrite Hc|].
  split.
  { intros Hnone msg. unfold create. rewrite Hnone.
    split; [reflexivity|]. split; [done|].
    intros x Hx. unfold msg.
    by apply mentions_append_l, mentions_append_l, mentions_append_l, repr_list_str_mentions. }
  repeat split.
Qed.

End Registry.

Lemma registry_lookup_witness :
  str_lower "binance" = str_lower "Binance"
  /\ ExchangeFactory.list_exchanges
       (ExchangeFactory.register "Binance" (ExchangeFactory.Bybit Mock.unreachable)
          (ExchangeFactory.register "binance" (ExchangeFactory.Binance Mock.unreachable) []))
     = ["binance"]
  /\ ExchangeFactory.create "binance"
       (ExchangeFactory.register "Binance" (ExchangeFactory.Bybit Mock.unreachable)
          (ExchangeFactory.register "binance" (ExchangeFactory.Binance Mock.unreachable) []))
     = Ok (ExchangeFactory.Bybit Mock.unreachable, BybitExchange.new)
  /\ ExchangeFactory.create "okx" []
     = Raise (ValueError "Exchange 'okx' not found. Available exchanges: []")
  /\ ExchangeFactory.create "éx"
       (ExchangeFactory.register "ÉX" (ExchangeFactory.Bybit Mock.unreachable)
          (ExchangeFactory.register "éx" (ExchangeFactory.Binance Mock.unreachable) []))
     = Ok (ExchangeFactory.Bybit Mock.unreachable, BybitExchange.new).
Proof.
  destruct (registry_lookup [] "binance" "Binance"
              (ExchangeFactory.Binance Mock.unreachable) (ExchangeFactory.Bybit Mock.unreachable)
              Mock.unreachable Mock.no_float_repr)
    as (_ & Hlast & _).
  destruct (Hlast eq_refl) as (_ & Hkeys & Hcreate & _).
  split; [reflexivity|].
  split; [etransitivity; [exact Hkeys|reflexivity]|].
  split; [exact Hcreate|].
  destruct (registry_lookup [] "okx" "okx"
              (ExchangeFactory.Binance Mock.unreachable) (ExchangeFactory.Bybit Mock.unreachable)
              Mock.unreachable Mock.no_float_repr)
    as (_ & _ & _ & Hmissing & _).
  split; [exact (proj1 (Hmissing eq_refl))|].
  destruct (registry_lookup [] "éx" "ÉX"
              (ExchangeFactory.Binance Mock.unreachable) (ExchangeFactory.Bybit Mock.unreachable)
              Mock.unreachable Mock.no_float_repr)
    as (_ & Hfold & _).
  destruct Hfold as (_ & _ & Hfound & _); [vm_compute; reflexivity|exact Hfound].
Defined.

(** * Further properties of the adapters *)

(** ** What a retried fetch can raise *)

Section RetryFailure.
Variable http : Remote.

(** A decorated fetch raises only after three failed attempts, and then what
    it raises is [RetryError] around the third failure. *)
Lemma retry_raises req (s : Net.State) e :
  fst (Tenacity.retry (send http req) s) = Raise e ->
  exists last,
    e = RetryError last
    /\ attempt http req s 2 = Raise last
    /\ (exists e0, attempt http req s 0 = Raise e0)
    /\ (exists e1, attempt http req s 1 = Raise e1)
    /\ snd (Tenacity.retry (send http req) s)
       = {| requests := requests s ++ [req; req; req]; sleeps := sleeps s ++ [2; 2] |}.
Proof.
  rewrite retry_unfold.
  destruct (attempt http req s 0) as [v0|e0]; [discriminate|].
  destruct (attempt http req s 1) as [v1|e1]; [discriminate|].
  destruct (attempt http req s 2) as [v2|e2]; [discriminate|].
  cbn. intros [= <-]. exists e2. eauto 10.
Qed.

(** X1.  Whatever [_fetch_with_retry] or [_fetch_with_retry_post] raises is a
    [RetryError] that wraps the exception of its third attempt: all three
    attempts at the function's own request failed, exactly those three
    requests were issued, with the two waits of 2 between them; so no
    [httpx.HTTPError] and no JSON decode error ever leaves them. *)
Theorem fetch_raises_only_RetryError (url : string) (payload : JSON) (s : Net.State) (e : exn) :
  let raised_after (req : Request) (after : Net.State) :=
    is_HTTPError e = false
    /\ e <> JSONDecodeError
    /\ (exists e0 e1 last,
          attempt http req s 0 = Raise e0
          /\ attempt http req s 1 = Raise e1
          /\ attempt http req s 2 = Raise last
          /\ e = RetryError last)
    /\ after = {| requests := requests s ++ [req; req; req]; sleeps := sleeps s ++ [2; 2] |} in
  (fst (_fetch_with_retry http url s) = Raise e ->
   raised_after (GET url) (snd (_fetch_with_retry http url s)))
  /\ (fst (HyperliquidExchange._fetch_with_retry_post http url payload s) = Raise e ->
      raised_after (POST url payload)
        (snd (HyperliquidExchange._fetch_with_retry_post http url payload s))).
Proof.
  intros raised_after. subst raised_after. cbv beta.
  split; intros H; apply retry_raises in H as (last & -> & Hl & [e0 H0] & [e1 H1] & Hs);
    (split; [done|]); (split; [done|]); (split; [by exists e0, e1, last|]); exact Hs.
Qed.

End RetryFailure.

Lemma fetch_raises_only_RetryError_witness :
  fst (_fetch_with_retry Mock.unreachable "u" idle)
  = Raise (RetryError (TransportError "connection refused"))
  /\ is_HTTPError (RetryError (TransportError "connection refused")) = false
  /\ snd (_fetch_with_retry Mock.unreachable "u" idle)
     = {| requests := [GET "u"; GET "u"; GET "u"]; sleeps := [2; 2] |}.
Proof.
  split; [reflexivity|].
  destruct (proj1 (fetch_raises_only_RetryError Mock.unreachable "u" JNull idle
                     (RetryError (TransportError "connection refused"))) eq_refl)
    as (Hh & _ & _ & Hs).
  split; [exact Hh|exact Hs].
Defined.

(** ** More on the pair cache *)

Section PairCacheFrame.
Variable time_time : nat -> float.
Variable cls : Adapter.

Abbreviation fetch_all_pairs := (BaseExchange.fetch_all_pairs time_time cls).

(** What any call does to the cache: nothing, or one store under its own
    market type. *)
Lemma fetch_all_pairs_cache (m : string) (use_cache : bool) (self : Instance) :
  _cache (snd (fetch_all_pairs m use_cache self)) = _cache self
  \/ exists entry,
       (exists r, fst (fetch_all_pairs m use_cache self) = Ok r /\ snd entry = r)
       /\ use_cache = true
       /\ _cache (snd (fetch_all_pairs m use_cache self)) = <[m := entry]> (_cache self).
Proof.
  unfold BaseExchange.fetch_all_pairs.
  destruct (decide (m ∉ get_supported_markets cls)) as [Hun|Hsup]; [by left|].
  assert (Hlive : forall self',
             _cache self' = _cache self ->
             _cache (snd (fetch_live time_time cls m use_cache self')) = _cache self
             \/ exists entry,
                  (exists r, fst (fetch_live time_time cls m use_cache self') = Ok r
                             /\ snd entry = r)
                  /\ use_cache = true
                  /\ _cache (snd (fetch_live time_time cls m use_cache self'))
                     = <[m := entry]> (_cache self)).
  { intros self' Hsame. unfold fetch_live.
    destruct (process_ cls m) as [method|]; [|by left].
    unfold bind, on_net, now, cache_store, ret.
    destruct (method (net self')) as [[[a i]|e] n']; cbn; [|by left].
    destruct use_cache; cbn; [|by left].
    right. eexists (_, _). rewrite Hsame. cbn. eauto. }
  destruct use_cache; [|by apply Hlive].
  destruct (_cache self !! m) as [[ts data]|] eqn:Hm; [|by apply Hlive].
  unfold bind, now. cbn [cache_ttl].
  destruct (float_lt_int _ _); [by left|]. by apply Hlive.
Qed.

(** X2.  Cache entries are per market type: a call for [m2] leaves the entry
    of every other market type as it was, whether it hits, fetches, stores or
    raises. *)
Theorem fetch_all_pairs_other_market (m1 m2 : string) (use_cache : bool) (self : Instance) :
  m1 <> m2 ->
  _cache (snd (fetch_all_pairs m2 use_cache self)) !! m1 = _cache self !! m1.
Proof.
  intros Hne.
  destruct (fetch_all_pairs_cache m2 use_cache self) as [->|(entry & _ & _ & ->)]; [done|].
  by rewrite lookup_insert_ne.
Qed.

(** X3.  A call that raises leaves the cache mapping as it was, and no call
    ever removes an entry: a market type that had one still has one. *)
Theorem fetch_all_pairs_cache_kept (m : string) (use_cache : bool) (self : Instance) :
  (forall e, fst (fetch_all_pairs m use_cache self) = Raise e ->
             _cache (snd (fetch_all_pairs m use_cache self)) = _cache self)
  /\ (forall m', is_Some (_cache self !! m') ->
                 is_Some (_cache (snd (fetch_all_pairs m use_cache self)) !! m')).
Proof.
  destruct (fetch_all_pairs_cache m use_cache self)
    as [Hsame|(entry & (r & Hr & _) & _ & Hstore)].
  - split; [done|]. by rewrite Hsame.
  - split; [intros e He; congruence|].
    intros m' Hm'. rewrite Hstore.
    destruct (decide (m = m')) as [->|Hne]; [by rewrite lookup_insert_eq|].
    by rewrite lookup_insert_ne.
Qed.

End PairCacheFrame.

(** ** Binance: the pair listings on any exchange-info document *)

Section BinanceListings.
Import BinanceExchange.
Variable http : Remote.

(** The spot loop on dicts: a listing quoted in another asset is passed over
    whatever else it holds; one quoted in USDT is read. *)
Lemma spot_loop_general (items : list (list (string * JSON))) (acc : Symbols) :
  Forall (fun x => quoted_in_default x = true ->
                   is_Some (assoc_get "baseAsset" x) /\ is_Some (assoc_get "symbol" x)) items ->
  for_each spot_item (map JObj items) acc
  = Ok (fst acc ++ map symbol_data_of
                     (List.filter (fun x => quoted_in_default x && has_status "TRADING" x) items),
        snd acc ++ map symbol_data_of
                     (List.filter (fun x => quoted_in_default x && negb (has_status "TRADING" x))
                                  items)).
Proof.
  intros Hall. revert acc.
  induction Hall as [|x items Hx _ IH]; intros [tr ntr].
  { cbn. by rewrite !app_nil_r. }
  cbn [map for_each]. unfold spot_item at 1. cbn [dict_get py_item rbind].
  assert (Hq : py_eq_str (match assoc_get "quoteAsset" x with Some v => v | None => JNull end)
                         default_quote_asset = quoted_in_default x).
  { unfold quoted_in_default. by destruct (assoc_get "quoteAsset" x). }
  rewrite Hq. cbn [List.filter fst snd].
  destruct (quoted_in_default x) eqn:Hquoted; cbn [andb]; [|cbn [rbind]; by rewrite IH].
  destruct (Hx eq_refl) as [[b Hb] [p Hp]]. rewrite Hb, Hp. cbn [rbind].
  assert (Hst : py_eq_str (match assoc_get "status" x with Some v => v | None => JNull end)
                          "TRADING" = has_status "TRADING" x).
  { unfold has_status. by destruct (assoc_get "status" x). }
  assert (Hsd : symbol_data_of x = {| sd_symbol := b; sd_pair := p |}).
  { unfold symbol_data_of. by rewrite Hb, Hp. }
  rewrite Hst.
  destruct (has_status "TRADING" x); cbn [rbind negb map]; rewrite IH, Hsd; cbn [fst snd];
    by rewrite <- !app_assoc.
Qed.

(** The futures loop on dicts: only USDT-quoted perpetual contracts are read. *)
Lemma futures_loop_general (items : list (list (string * JSON))) (acc : Symbols) :
  Forall (fun x => kept_for_futures x = true ->
                   is_Some (assoc_get "baseAsset" x) /\ is_Some (assoc_get "pair" x)) items ->
  for_each futures_item (map JObj items) acc
  = Ok (fst acc ++ map futures_symbol_data_of
                     (List.filter (fun x => kept_for_futures x && has_status "TRADING" x) items),
        snd acc ++ map futures_symbol_data_of
                     (List.filter (fun x => kept_for_futures x && negb (has_status "TRADING" x))
                                  items)).
Proof.
  intros Hall. revert acc.
  induction Hall as [|x items Hx _ IH]; intros [tr ntr].
  { cbn. by rewrite !app_nil_r. }
  cbn [map for_each]. unfold futures_item at 1. cbn [dict_get py_item rbind].
  assert (Hq : py_eq_str (match assoc_get "quoteAsset" x with Some v => v | None => JNull end)
                         default_quote_asset = quoted_in_default x).
  { unfold quoted_in_default. by destruct (assoc_get "quoteAsset" x). }
  assert (Hc : py_eq_str (match assoc_get "contractType" x with Some v => v | None => JNull end)
                         "PERPETUAL" = is_perpetual x).
  { unfold is_perpetual. by destruct (assoc_get "contractType" x). }
  rewrite Hq. cbn [List.filter fst snd]. unfold kept_for_futures in *.
  destruct (quoted_in_default x) eqn:Hquoted; cbn [andb rbind];
    [rewrite Hc|by rewrite IH].
  destruct (is_perpetual x) eqn:Hperp; cbn [andb rbind]; [|by rewrite IH].
  destruct (Hx eq_refl) as [[b Hb] [p Hp]]. rewrite Hb, Hp. cbn [rbind].
  assert (Hst : py_eq_str (match assoc_get "status" x with Some v => v | None => JNull end)
                          "TRADING" = has_status "TRADING" x).
  { unfold has_status. by destruct (assoc_get "status" x). }
  assert (Hsd : futures_symbol_data_of x = {| sd_symbol := b; sd_pair := p |}).
  { unfold futures_symbol_data_of. by rewrite Hb, Hp. }
  rewrite Hst.
  destruct (has_status "TRADING" x); cbn [rbind negb map]; rewrite IH, Hsd; cbn [fst snd];
    by rewrite <- !app_assoc.
Qed.

(** X4.  On any exchange-info answer whose ["symbols"] are dicts,
    [process_spot] reads only the listings quoted in USDT (each of which must
    carry ["baseAsset"] and ["symbol"]); those with status "TRADING" come
    back active, all the others inactive, in the vendor's order; a listing
    quoted in another asset never appears, whatever keys it has or lacks. *)
Theorem binance_spot_listing (doc : list (string * JSON)) (items : list (list (string * JSON)))
    (n : Net.State) :
  attempt http (GET spot_url) n 0 = Ok (JObj doc) ->
  assoc_get "symbols" doc = Some (JArr (map JObj items)) ->
  Forall (fun x => quoted_in_default x = true ->
                   is_Some (assoc_get "baseAsset" x) /\ is_Some (assoc_get "symbol" x)) items ->
  fst (process_spot http n)
  = Ok (map (spot_pair true)
            (List.filter (fun x => quoted_in_default x && has_status "TRADING" x) items),
        map (spot_pair false)
            (List.filter (fun x => quoted_in_default x && negb (has_status "TRADING" x)) items)).
Proof.
  intros Hdoc Hsym Hall.
  unfold process_spot, fetch_symbols_retry, fetch_symbols_from_exchange, bind, _fetch_with_retry.
  rewrite retry_unfold, Hdoc.
  unfold lift, partition_symbols. cbn [String.eqb Ascii.eqb Bool.eqb dict_get rbind].
  rewrite Hsym. cbn [rbind py_iter]. rewrite spot_loop_general by done. cbn [fst snd app].
  unfold ret, generate_symbol_updates, generate_symbol_updates_with_non_trading.
  by rewrite !map_map.
Qed.

(** X5.  On any exchange-info answer whose ["symbols"] are dicts,
    [process_futures] reads only the USDT-quoted contracts of type
    "PERPETUAL" (each of which must carry ["baseAsset"] and ["pair"]), names
    them by their ["pair"] field, and splits them by status "TRADING" into
    active and inactive; every pair is tagged "binance-futures". *)
Theorem binance_futures_listing (doc : list (string * JSON)) (items : list (list (string * JSON)))
    (n : Net.State) :
  attempt http (GET futures_url) n 0 = Ok (JObj doc) ->
  assoc_get "symbols" doc = Some (JArr (map JObj items)) ->
  Forall (fun x => kept_for_futures x = true ->
                   is_Some (assoc_get "baseAsset" x) /\ is_Some (assoc_get "pair" x)) items ->
  fst (process_futures http n)
  = Ok (map (futures_pair true)
            (List.filter (fun x => kept_for_futures x && has_status "TRADING" x) items),
        map (futures_pair false)
            (List.filter (fun x => kept_for_futures x && negb (has_status "TRADING" x)) items)).
Proof.
  intros Hdoc Hsym Hall.
  unfold process_futures, fetch_symbols_retry, fetch_symbols_from_exchange, bind,
    _fetch_with_retry.
  rewrite retry_unfold, Hdoc.
  unfold lift, partition_symbols. cbn [String.eqb Ascii.eqb Bool.eqb dict_get rbind].
  rewrite Hsym. cbn [rbind py_iter]. rewrite futures_loop_general by done. cbn [fst snd app].
  unfold ret, generate_symbol_updates, generate_symbol_updates_with_non_trading.
  by rewrite !map_map.
Qed.

(** X6.  One USDT-quoted spot listing without a ["baseAsset"] makes the whole
    listing fail with [KeyError('baseAsset')], whatever comes after it and
    however many good listings came before. *)
Theorem binance_spot_listing_missing_key (doc : list (string * JSON))
    (good : list (list (string * JSON))) (bad : list (string * JSON)) (rest : list JSON)
    (n : Net.State) :
  attempt http (GET spot_url) n 0 = Ok (JObj doc) ->
  assoc_get "symbols" doc = Some (JArr (map JObj good ++ JObj bad :: rest)) ->
  Forall (fun x => quoted_in_default x = true ->
                   is_Some (assoc_get "baseAsset" x) /\ is_Some (assoc_get "symbol" x)) good ->
  quoted_in_default bad = true ->
  assoc_get "baseAsset" bad = None ->
  fst (process_spot http n) = Raise (KeyError "baseAsset").
Proof.
  intros Hdoc Hsym Hall Hq Hmissing.
  unfold process_spot, fetch_symbols_retry, fetch_symbols_from_exchange, bind, _fetch_with_retry.
  rewrite retry_unfold, Hdoc.
  unfold lift, partition_symbols. cbn [String.eqb Ascii.eqb Bool.eqb dict_get rbind].
  rewrite Hsym. cbn [rbind py_iter].
  assert (Happ : forall xs ys acc,
             for_each spot_item (xs ++ ys) acc
             = rbind (for_each spot_item xs acc) (for_each spot_item ys)).
  { induction xs as [|x xs IH]; intros ys acc; cbn; [done|].
    destruct (spot_item acc x); cbn; [apply IH|done]. }
  rewrite Happ, spot_loop_general by done. cbn [rbind for_each].
  unfold spot_item at 1. cbn [dict_get py_item rbind].
  assert (Hq' : py_eq_str (match assoc_get "quoteAsset" bad with Some v => v | None => JNull end)
                          default_quote_asset = true).
  { unfold quoted_in_default in Hq. by destruct (assoc_get "quoteAsset" bad). }
  rewrite Hq', Hmissing. reflexivity.
Qed.

End BinanceListings.

(** ** Bybit: the pair listings *)

Section BybitListings.
Import BybitExchange.
Variable http : Remote.

Lemma field_is_get (key value : string) (x : list (string * JSON)) :
  py_eq_str (match assoc_get key x with Some v => v | None => JNull end) value
  = field_is key value x.
Proof. unfold field_is. by destruct (assoc_get key x). Qed.

Lemma symbol_data_dict (x : list (string * JSON)) :
  symbol_data (JObj x) = Ok (symbol_data_of x).
Proof.
  unfold symbol_data, symbol_data_of. cbn [dict_get rbind].
  by destruct (assoc_get "baseCoin" x), (assoc_get "symbol" x).
Qed.

Lemma bybit_spot_loop (items : list (list (string * JSON))) (acc : list SymbolData) :
  for_each spot_item (map JObj items) acc
  = Ok (acc ++ map symbol_data_of (List.filter kept_for_spot items)).
Proof.
  revert acc. induction items as [|x items IH]; intros acc.
  { cbn. by rewrite app_nil_r. }
  cbn [map for_each List.filter]. unfold spot_item at 1. cbn [dict_get rbind].
  rewrite field_is_get. unfold kept_for_spot at 1.
  destruct (field_is "quoteCoin" default_quote_asset x); cbn [rbind andb]; [|apply IH].
  rewrite field_is_get.
  destruct (field_is "status" "Trading" x); cbn [rbind andb]; [|apply IH].
  rewrite symbol_data_dict. cbn [rbind map]. rewrite IH. by rewrite <- app_assoc.
Qed.

Lemma bybit_futures_loop (items : list (list (string * JSON))) (acc : list SymbolData) :
  for_each futures_item (map JObj items) acc
  = Ok (acc ++ map symbol_data_of (List.filter kept_for_futures items)).
Proof.
  revert acc. induction items as [|x items IH]; intros acc.
  { cbn. by rewrite app_nil_r. }
  cbn [map for_each List.filter]. unfold futures_item at 1. cbn [dict_get rbind].
  rewrite field_is_get. unfold kept_for_futures at 1.
  destruct (field_is "quoteCoin" default_quote_asset x); cbn [rbind andb]; [|apply IH].
  rewrite field_is_get.
  destruct (field_is "contractType" "LinearPerpetual" x); cbn [rbind andb]; [|apply IH].
  rewrite field_is_get.
  destruct (field_is "status" "Trading" x); cbn [rbind andb]; [|apply IH].
  rewrite symbol_data_dict. cbn [rbind map]. rewrite IH. by rewrite <- app_assoc.
Qed.

(** X7.  On an answer whose [result.list] holds dicts, [process_spot] returns
    as active, in the vendor's order, exactly the instruments with
    [quoteCoin == "USDT"] and [status == "Trading"], and [process_futures]
    those that are also of contract type "LinearPerpetual"; no key is
    required of an instrument, a missing ["baseCoin"] or ["symbol"] becomes
    [None]; the inactive list is empty. *)
Theorem bybit_listings (doc result : list (string * JSON)) (items : list (list (string * JSON)))
    (n : Net.State) :
  (forall req, attempt http req n 0 = Ok (JObj doc)) ->
  assoc_get "result" doc = Some (JObj result) ->
  assoc_get "list" result = Some (JArr (map JObj items)) ->
  fst (process_spot http n)
  = Ok (map (pair_of "bybit-spot") (List.filter kept_for_spot items), [])
  /\ fst (process_futures http n)
     = Ok (map (pair_of "bybit-futures") (List.filter kept_for_futures items), []).
Proof.
  intros Hdoc Hres Hlist.
  split.
  - unfold process_spot, fetch_symbols_retry, fetch_symbols_from_exchange, bind,
      _fetch_with_retry.
    rewrite retry_unfold, Hdoc. unfold lift, partition_symbols, result_list.
    cbn [dict_get rbind]. rewrite Hres. cbn [dict_get rbind]. rewrite Hlist.
    cbn [String.eqb Ascii.eqb Bool.eqb rbind py_iter].
    rewrite bybit_spot_loop. cbn [rbind app fst].
    unfold ret, generate_symbol_updates, generate_symbol_updates_with_non_trading.
    cbn [map]. by rewrite map_map.
  - unfold process_futures, fetch_symbols_retry, fetch_symbols_from_exchange, bind,
      _fetch_with_retry.
    rewrite retry_unfold, Hdoc. unfold lift, partition_symbols, result_list.
    cbn [dict_get rbind]. rewrite Hres. cbn [dict_get rbind]. rewrite Hlist.
    cbn [String.eqb Ascii.eqb Bool.eqb rbind py_iter].
    rewrite bybit_futures_loop. cbn [rbind app fst].
    unfold ret, generate_symbol_updates, generate_symbol_updates_with_non_trading.
    cbn [map]. by rewrite map_map.
Qed.

(** Whatever document is parsed, the second list is empty. *)
Lemma partition_symbols_no_inactive (exchange : string) (data : JSON) trading non_trading :
  partition_symbols exchange data = Ok (trading, non_trading) -> non_trading = [].
Proof.
  unfold partition_symbols.
  destruct (result_list data) as [lst|]; cbn [rbind]; [|discriminate].
  destruct (String.eqb exchange "bybit-spot").
  { destruct (py_iter lst) as [items|]; cbn [rbind]; [|discriminate].
    destruct (for_each spot_item items []); cbn [rbind]; [|discriminate]. congruence. }
  destruct (String.eqb exchange "bybit-futures"); [|discriminate].
  destruct (py_iter lst) as [items|]; cbn [rbind]; [|discriminate].
  destruct (for_each futures_item items []); cbn [rbind]; [|discriminate]. congruence.
Qed.

(** X8.  Whatever the remote answers, when [process_spot] or
    [process_futures] returns, its inactive list is empty and every active
    pair is flagged active under the tag of the market. *)
Theorem bybit_never_inactive (n : Net.State) (act inact : list TradingPair) :
  (fst (process_spot http n) = Ok (act, inact) ->
   inact = [] /\ Forall (fun p => is_active p = true /\ exchange p = "bybit-spot") act)
  /\ (fst (process_futures http n) = Ok (act, inact) ->
      inact = [] /\ Forall (fun p => is_active p = true /\ exchange p = "bybit-futures") act).
Proof.
  split.
  - unfold process_spot, fetch_symbols_retry, fetch_symbols_from_exchange, bind, lift.
    destruct (_fetch_with_retry http spot_url n) as [[data|e] n1]; [|discriminate].
    destruct (partition_symbols "bybit-spot" data) as [[tr ntr]|e] eqn:Hp; [|discriminate].
    apply partition_symbols_no_inactive in Hp as ->.
    unfold ret, generate_symbol_updates, generate_symbol_updates_with_non_trading.
    cbn. intros [= <- <-]. split; [done|]. by apply Forall_map, Forall_forall.
  - unfold process_futures, fetch_symbols_retry, fetch_symbols_from_exchange, bind, lift.
    destruct (_fetch_with_retry http futures_url n) as [[data|e] n1]; [|discriminate].
    destruct (partition_symbols "bybit-futures" data) as [[tr ntr]|e] eqn:Hp; [|discriminate].
    apply partition_symbols_no_inactive in Hp as ->.
    unfold ret, generate_symbol_updates, generate_symbol_updates_with_non_trading.
    cbn. intros [= <- <-]. split; [done|]. by apply Forall_map, Forall_forall.
Qed.

End BybitListings.

(** ** Bybit: where the envelope's status is read *)

Section BybitEnvelope.
Import BybitExchange.
Variable http : Remote.
Variable float_repr : float -> string.
Variable time_time : nat -> float.

(** The listing of an answered fetch, whatever the envelope's status. *)
Lemma listing_answered (s : Net.State) (response result : list (string * JSON))
    (items : list (list (string * JSON))) :
  (forall req, attempt http req s 0 = Ok (JObj response)) ->
  assoc_get "result" response = Some (JObj result) ->
  default (JArr []) (assoc_get "list" result) = JArr (map JObj items) ->
  process_spot http s
  = (Ok (map (pair_of "bybit-spot") (List.filter kept_for_spot items), []),
     {| requests := requests s ++ [GET spot_url]; sleeps := sleeps s |})
  /\ process_futures http s
     = (Ok (map (pair_of "bybit-futures") (List.filter kept_for_futures items), []),
        {| requests := requests s ++ [GET futures_url]; sleeps := sleeps s |}).
Proof.
  intros Hdoc Hres Hlist.
  assert (Hlist' : match assoc_get "list" result with Some v => v | None => JArr [] end
                   = JArr (map JObj items)) by (by destruct (assoc_get "list" result)).
  split.
  - unfold process_spot, fetch_symbols_retry, fetch_symbols_from_exchange, bind,
      _fetch_with_retry.
    rewrite retry_unfold, Hdoc. unfold lift, partition_symbols, result_list.
    cbn [dict_get rbind]. rewrite Hres. cbn [dict_get rbind]. rewrite Hlist'.
    cbn [String.eqb Ascii.eqb Bool.eqb rbind py_iter].
    rewrite bybit_spot_loop. cbn [rbind app fst].
    unfold ret, generate_symbol_updates, generate_symbol_updates_with_non_trading.
    cbn [map]. by rewrite map_map.
  - unfold process_futures, fetch_symbols_retry, fetch_symbols_from_exchange, bind,
      _fetch_with_retry.
    rewrite retry_unfold, Hdoc. unfold lift, partition_symbols, result_list.
    cbn [dict_get rbind]. rewrite Hres. cbn [dict_get rbind]. rewrite Hlist'.
    cbn [String.eqb Ascii.eqb Bool.eqb rbind py_iter].
    rewrite bybit_futures_loop. cbn [rbind app fst].
    unfold ret, generate_symbol_updates, generate_symbol_updates_with_non_trading.
    cbn [map]. by rewrite map_map.
Qed.

(** C7.  An envelope with a non-zero ["retCode"], answered 2xx to the first
    attempt.  [fetch_klines], [fetch_funding_rate_history] and
    [fetch_open_interest] (called with valid arguments) raise
    [Exception("Bybit API error: " + retMsg)], the vendor's own text when
    ["retMsg"] is a string, which is neither an [httpx.HTTPError] nor
    tenacity's [RetryError].  [process_spot] and [process_futures] never read
    ["retCode"]: they return the listing of what ["result"]["list"] holds,
    two empty lists when ["result"] has no list, and [fetch_all_pairs] hands
    that on as the pairs of the market and stores it in the cache. *)
Theorem bybit_vendor_error symbol interval market st et limit tz
    fsymbol fstart fend flimit osymbol ointerval ostart oend olimit
    (self : Instance) (response result : list (string * JSON))
    (items : list (list (string * JSON))) :
  (forall req, attempt http req (net self) 0 = Ok (JObj response)) ->
  py_eq_zero (retCode_of response) = false ->
  interval ∈ valid_intervals ->
  1 <= limit <= 1000 ->
  market = "spot" \/ market = "futures" ->
  1 <= flimit <= 200 ->
  (fstart = None \/ fend <> None) ->
  ointerval ∈ valid_oi_intervals ->
  1 <= olimit <= 200 ->
  let s := net self in
  let err := Exception_ ("Bybit API error: " +:+ py_str float_repr (retMsg_of response)) in
  (fst (fetch_klines http float_repr symbol interval market st et limit tz s) = Raise err
   /\ fst (fetch_funding_rate_history http float_repr fsymbol fstart fend flimit "futures" s)
      = Raise err
   /\ fst (fetch_open_interest http float_repr osymbol ointerval ostart oend olimit "futures" s)
      = Raise err
   /\ is_HTTPError err = false
   /\ (forall e, err <> RetryError e)
   /\ (forall text, assoc_get "retMsg" response = Some (JStr text) ->
                    err = Exception_ ("Bybit API error: " +:+ text)))
  /\ (assoc_get "result" response = Some (JObj result) ->
      default (JArr []) (assoc_get "list" result) = JArr (map JObj items) ->
      fst (process_spot http s)
      = Ok (map (pair_of "bybit-spot") (List.filter kept_for_spot items), [])
      /\ fst (process_futures http s)
         = Ok (map (pair_of "bybit-futures") (List.filter kept_for_futures items), []))
  /\ (assoc_get "result" response = Some (JObj []) ->
      _cache self !! market = None ->
      let out := fetch_all_pairs time_time (cls http) market true self in
      let nothing := {| active := []; inactive := [] |} in
      fst out = Ok nothing
      /\ _cache (snd out) !! market = Some (time_time (clock_reads self), nothing)).
Proof.
  intros Hresp Hcode Hi Hl Hm Hfl Hse Hoi Hol s err. subst s.
  destruct (vendor_error_where_checked http float_repr symbol interval market st et limit tz
              fsymbol fstart fend flimit (net self) response Hresp Hi Hl Hm Hfl Hse)
    as [Hchecked _].
  destruct (Hchecked Hcode) as (Hk & Hf & Hh & Hr & Ht & _).
  split; [|split].
  - split; [exact Hk|]. split; [exact Hf|]. split; [|by repeat split].
    unfold fetch_open_interest. rewrite decide_False by (by intros H).
    destruct (Z.ltb_spec 200 olimit), (Z.ltb_spec olimit 1); try lia.
    cbn [orb String.eqb Ascii.eqb Bool.eqb negb].
    unfold bind, _fetch_with_retry. rewrite retry_unfold, Hresp.
    unfold lift. by rewrite check_retCode_spec, Hcode.
  - intros Hres Hlist.
    destruct (listing_answered (net self) response result items Hresp Hres Hlist) as [-> ->].
    by split.
  - intros Hres Hnone out nothing. subst out nothing.
    destruct (listing_answered (net self) response [] [] Hresp Hres eq_refl) as [Hs Hf'].
    assert (Hsup : market ∈ BaseExchange.get_supported_markets (cls http)).
    { destruct Hm as [-> | ->]; [apply list_elem_of_here|].
      apply list_elem_of_further, list_elem_of_here. }
    unfold fetch_all_pairs. rewrite decide_False by (by intros H).
    rewrite Hnone. unfold fetch_live.
    destruct Hm as [-> | ->]; cbn [cls process_ String.eqb Ascii.eqb Bool.eqb];
      unfold bind, on_net, now, cache_store, ret; rewrite ?Hs, ?Hf'; cbn;
      by rewrite lookup_insert_eq.
Qed.

End BybitEnvelope.

Lemma bybit_vendor_error_witness :
  let http := Mock.always (JObj Mock.bybit_error_answer) in
  fst (BybitExchange.fetch_klines http Mock.no_float_repr "NOPE" "60" "spot" None None 200 "0"
         idle)
  = Raise (Exception_ "Bybit API error: Invalid symbol.")
  /\ fst (BybitExchange.process_spot http idle) = Ok ([], [])
  /\ fst (BaseExchange.fetch_all_pairs Mock.clock (BybitExchange.cls http) "spot" true
            BybitExchange.new)
     = Ok {| active := []; inactive := [] |}.
Proof.
  intros http.
  destruct (bybit_vendor_error http Mock.no_float_repr Mock.clock "NOPE" "60" "spot" None None
              200 "0" "NOPE" None None 200 "NOPE" "5min" None None 50
              BybitExchange.new Mock.bybit_error_answer [] [])
    as ((Hk & _) & Hlist & Hcache).
  - reflexivity.
  - reflexivity.
  - apply (bool_decide_unpack _). vm_compute. exact I.
  - lia.
  - by left.
  - lia.
  - by left.
  - apply (bool_decide_unpack _). vm_compute. exact I.
  - lia.
  - split; [exact Hk|]. split.
    + exact (proj1 (Hlist eq_refl eq_refl)).
    + exact (proj1 (Hcache eq_refl eq_refl)).
Defined.

(** ** Klines: rows in, records out *)

Lemma for_each_app {A B} (body : B -> A -> Result B) (xs ys : list A) (acc : B) :
  for_each body (xs ++ ys) acc = rbind (for_each body xs acc) (for_each body ys).
Proof.
  revert acc. induction xs as [|x xs IH]; intros acc; cbn; [done|].
  destruct (body acc x); cbn; [apply IH|done].
Qed.

(** A loop that appends one record per item. *)
Lemma for_each_append {A B} (f : A -> Result B) (g : A -> B) (xs : list A) (acc : list B) :
  Forall (fun x => f x = Ok (g x)) xs ->
  for_each (fun out x => rbind (f x) (fun r => Ok (out ++ [r]))) xs acc = Ok (acc ++ map g xs).
Proof.
  intros H. revert acc. induction H as [|x xs Hx _ IH]; intros acc; cbn.
  - by rewrite app_nil_r.
  - rewrite Hx. cbn. rewrite IH. by rewrite <- app_assoc.
Qed.

Section Klines.
Variable http : Remote.
Variable float_repr : float -> string.

Lemma binance_row (row : list JSON) :
  (11 <= length row)%nat ->
  BinanceExchange.kline_of_row (JArr row) = Ok (BinanceExchange.kline_of_entries row).
Proof.
  intros Hlen.
  do 11 (destruct row as [|? row]; [cbn in Hlen; lia|]). reflexivity.
Qed.

Lemma binance_short_row (row : list JSON) :
  (length row < 11)%nat -> BinanceExchange.kline_of_row (JArr row) = Raise IndexError.
Proof.
  intros Hlen.
  do 11 (destruct row as [|? row]; [reflexivity|]). cbn in Hlen. lia.
Qed.

Lemma bybit_short_row (row : list JSON) :
  (length row < 7)%nat ->
  exists e, BybitExchange.kline_of_row (JArr row) = Raise e
            /\ (row <> [] -> forall t, py_int (hd JNull row) = Ok t -> e = IndexError).
Proof.
  intros Hlen.
  destruct row as [|x0 row]; [by eexists|].
  unfold BybitExchange.kline_of_row. cbn [py_index nth_error rbind hd].
  destruct (py_int x0) as [t|e] eqn:Ht; cbn [rbind].
  - exists IndexError. split; [|done].
    do 6 (destruct row as [|? row]; [reflexivity|]). cbn in Hlen. lia.
  - exists e. split; [done|]. intros _ t [=].
Qed.

(** X9.  Binance's [fetch_klines], answered with a list of rows that each
    have at least eleven entries, returns one record per row in the vendor's
    order (no reversal), entry [i] of a row under the [i]-th key and entries
    past the eleventh ignored. *)
Theorem binance_klines_positional symbol interval market st et limit tz (s : Net.State)
    (rows : list (list JSON)) :
  (forall req, attempt http req s 0 = Ok (JArr (map JArr rows))) ->
  interval ∈ BinanceExchange.valid_intervals ->
  market = "spot" \/ market = "futures" ->
  limit <= BinanceExchange.max_limit market ->
  Forall (fun row => (11 <= length row)%nat) rows ->
  fst (BinanceExchange.fetch_klines http symbol interval market st et limit tz s)
  = Ok (map BinanceExchange.kline_of_entries rows).
Proof.
  intros Hresp Hi Hm Hl Hrows.
  destruct (fetch_klines_within_cap http symbol interval market st et limit tz s Hi Hm Hl)
    as (url & -> & _).
  unfold bind, _fetch_with_retry. rewrite retry_unfold, Hresp.
  unfold lift, BinanceExchange.parse_klines. cbn [fst py_iter rbind].
  rewrite (for_each_append BinanceExchange.kline_of_row
             (fun v => match v with
                       | JArr row => BinanceExchange.kline_of_entries row
                       | _ => []
                       end)).
  - cbn [app]. by rewrite map_map.
  - apply Forall_map. eapply Forall_impl; [exact Hrows|]. intros row Hrow. by apply binance_row.
Qed.

Lemma bybit_full_row (row : list JSON) (t : Z) :
  (7 <= length row)%nat -> py_int (hd JNull row) = Ok t ->
  exists k, BybitExchange.kline_of_row (JArr row) = Ok k.
Proof.
  intros Hlen Ht.
  do 7 (destruct row as [|? row]; [cbn in Hlen; lia|]).
  unfold BybitExchange.kline_of_row. cbn [py_index nth_error rbind hd] in *.
  rewrite Ht. by eexists.
Qed.

(** One short row among list rows stops Binance's loop with [IndexError]. *)
Lemma binance_rows_short (rows : list (list JSON)) (acc : list Record_) :
  Exists (fun row => (length row < 11)%nat) rows ->
  for_each (fun klines item =>
              rbind (BinanceExchange.kline_of_row item) (fun k => Ok (klines ++ [k])))
           (map JArr rows) acc
  = Raise IndexError.
Proof.
  revert acc. induction rows as [|row rows IH]; intros acc Hex; [by apply Exists_nil in Hex|].
  cbn [map for_each].
  destruct (Nat.lt_ge_cases (length row) 11) as [Hshort|Hfull].
  - by rewrite binance_short_row.
  - rewrite binance_row by done. cbn [rbind].
    apply Exists_cons in Hex as [Hhead|Htail]; [lia|]. by apply IH.
Qed.

(** The same for Bybit's loop, where the first entry of a row is converted
    before the others are read. *)
Lemma bybit_rows_short (rows : list (list JSON)) (acc : list Record_) :
  Forall (fun row => row <> [] -> exists t, py_int (hd JNull row) = Ok t) rows ->
  Exists (fun row => (length row < 7)%nat) rows ->
  for_each (fun klines item =>
              rbind (BybitExchange.kline_of_row item) (fun k => Ok (klines ++ [k])))
           (map JArr rows) acc
  = Raise IndexError.
Proof.
  intros Hall. revert acc.
  induction Hall as [|row rows Hrow _ IH]; intros acc Hex; [by apply Exists_nil in Hex|].
  cbn [map for_each].
  destruct (Nat.lt_ge_cases (length row) 7) as [Hshort|Hfull].
  - destruct row as [|x0 row']; [reflexivity|].
    destruct (bybit_short_row (x0 :: row') Hshort) as (e & -> & He). cbn [rbind].
    destruct Hrow as [t Ht]; [done|]. by rewrite (He ltac:(done) t Ht).
  - destruct Hrow as [t Ht]; [intros ->; cbn in Hfull; lia|].
    destruct (bybit_full_row row t Hfull Ht) as [k ->]. cbn [rbind].
    apply Exists_cons in Hex as [Hhead|Htail]; [lia|]. by apply IH.
Qed.

(** X10.  When the rows of the answer are lists, one row shorter than the
    vendor's arity, wherever it stands, fails the whole call with
    [IndexError]: fewer than eleven entries for Binance; fewer than seven for
    Bybit, where the first entry of every non-empty row has to convert to an
    integer, as it is converted before the row's other entries are read. *)
Theorem klines_short_row symbol market st et limit tz (s : Net.State)
    (rows : list (list JSON)) :
  market = "spot" \/ market = "futures" ->
  1 <= limit <= 1000 ->
  (forall interval,
      interval ∈ BinanceExchange.valid_intervals ->
      (forall req, attempt http req s 0 = Ok (JArr (map JArr rows))) ->
      Exists (fun row => (length row < 11)%nat) rows ->
      fst (BinanceExchange.fetch_klines http symbol interval market st et limit tz s)
      = Raise IndexError)
  /\ (forall interval (response result : list (string * JSON)),
        interval ∈ BybitExchange.valid_intervals ->
        (forall req, attempt http req s 0 = Ok (JObj response)) ->
        py_eq_zero (BybitExchange.retCode_of response) = true ->
        assoc_get "result" response = Some (JObj result) ->
        assoc_get "list" result = Some (JArr (map JArr rows)) ->
        Forall (fun row => row <> [] -> exists t, py_int (hd JNull row) = Ok t) rows ->
        Exists (fun row => (length row < 7)%nat) rows ->
        fst (BybitExchange.fetch_klines http float_repr symbol interval market st et limit tz s)
        = Raise IndexError).
Proof.
  intros Hm Hl. split.
  - intros interval Hi Hresp Hshort.
    assert (Hcap : limit <= BinanceExchange.max_limit market).
    { destruct Hm as [-> | ->]; cbn; lia. }
    destruct (fetch_klines_within_cap http symbol interval market st et limit tz s Hi Hm Hcap)
      as (url & -> & _).
    unfold bind, _fetch_with_retry. rewrite retry_unfold, Hresp.
    unfold lift, BinanceExchange.parse_klines. cbn [fst py_iter rbind].
    by apply binance_rows_short.
  - intros interval response result Hi' Hresp Hcode Hres Hlist Hfirst Hshort.
    destruct (fetch_klines_answered http float_repr symbol interval market st et limit tz s
                response Hresp Hi' Hl Hm) as [url ->].
    cbn [fst]. rewrite check_retCode_spec, Hcode. cbn [rbind].
    unfold BybitExchange.result_list. cbn [dict_get rbind]. rewrite Hres. cbn [dict_get rbind].
    rewrite Hlist. unfold BybitExchange.parse_klines. cbn [py_iter rbind].
    by rewrite bybit_rows_short.
Qed.

End Klines.

(** ** Hyperliquid: symbols and listings *)

(** A loop keeps what each of its steps keeps. *)
Lemma for_each_invariant {A B} (P : B -> Prop) (body : B -> A -> Result B)
    (xs : list A) (acc out : B) :
  (forall b x b', P b -> body b x = Ok b' -> P b') ->
  P acc -> for_each body xs acc = Ok out -> P out.
Proof.
  intros Hstep. revert acc. induction xs as [|x xs IH]; intros acc Hacc; cbn.
  - by intros [= <-].
  - destruct (body acc x) as [b'|e] eqn:Hb; cbn; [|discriminate].
    apply IH. by eapply Hstep.
Qed.

Section HyperliquidListings.
Import HyperliquidExchange.
Variable http : Remote.
Variable float_repr : float -> string.

(** X11.  [_normalize_symbol] is idempotent and never returns "USDT0": the
    alias goes to "USDT", every other hashable symbol to itself, and a list
    or dict raises [TypeError]. *)
Theorem normalize_symbol_stable (symbol : JSON) :
  _normalize_symbol (JStr "USDT0") = Ok (JStr "USDT")
  /\ (hashable symbol = false -> _normalize_symbol symbol = Raise TypeError)
  /\ (symbol <> JStr "USDT0" -> hashable symbol = true -> _normalize_symbol symbol = Ok symbol)
  /\ (forall r, _normalize_symbol symbol = Ok r ->
                r <> JStr "USDT0" /\ _normalize_symbol r = Ok r).
Proof.
  assert (Hstr : forall s, s <> "USDT0" -> _normalize_symbol (JStr s) = Ok (JStr s)).
  { intros s Hs. unfold _normalize_symbol, symbol_mapping. cbn [assoc_get].
    destruct (String.eqb_spec s "USDT0") as [->|_]; [done|].
    by destruct (String.eqb_spec s "USDC") as [->|_]. }
  assert (Hfix : symbol <> JStr "USDT0" -> hashable symbol = true ->
                 _normalize_symbol symbol = Ok symbol).
  { intros Hne Hh. destruct symbol; try done. apply Hstr. congruence. }
  split; [reflexivity|]. split; [by destruct symbol|]. split; [exact Hfix|].
  intros r Hr.
  assert (Hcases : symbol = JStr "USDT0" \/ symbol <> JStr "USDT0").
  { destruct symbol as [| | | |s| |]; try (by right).
    destruct (String.eqb_spec s "USDT0") as [->|Hs]; [by left|right; congruence]. }
  destruct Hcases as [->|Hne].
  { cbn in Hr. injection Hr as <-. split; [done|]. by apply Hstr. }
  assert (Hh : hashable symbol = true) by (by destruct symbol).
  rewrite (Hfix Hne Hh) in Hr. injection Hr as <-. split; [done|by apply Hfix].
Qed.

Lemma futures_loop (items : list (list (string * JSON)))
    (acc : list SymbolData * list SymbolData) :
  let entry x := {| sd_symbol := name_of x;
                    sd_pair := JStr (py_str float_repr (name_of x) +:+ "-USD") |} in
  for_each (futures_step float_repr) (map JObj items) acc
  = Ok (fst acc ++ map entry (List.filter (fun x => negb (delisted x)) items),
        snd acc ++ map entry (List.filter delisted items)).
Proof.
  intros entry. revert acc. induction items as [|x items IH]; intros [tr ntr].
  { cbn. by rewrite !app_nil_r. }
  cbn [map for_each List.filter]. unfold futures_step at 1. cbn [dict_get rbind].
  fold (name_of x). change (py_truthy _) with (delisted x).
  destruct (delisted x); cbn [negb rbind map]; rewrite IH; cbn [fst snd];
    by rewrite <- !app_assoc.
Qed.

(** X12.  On a [meta] answer whose ["universe"] holds dicts,
    [process_futures] lists every asset exactly once, named [<name>-USD]:
    active when its ["isDelisted"] is absent or false, inactive otherwise. *)
Theorem hyperliquid_futures_listing (doc : list (string * JSON))
    (items : list (list (string * JSON))) (n : Net.State) :
  (forall req, attempt http req n 0 = Ok (JObj doc)) ->
  assoc_get "universe" doc = Some (JArr (map JObj items)) ->
  exists act inact,
    fst (process_futures http float_repr n) = Ok (act, inact)
    /\ act = map (futures_pair float_repr true) (List.filter (fun x => negb (delisted x)) items)
    /\ inact = map (futures_pair float_repr false) (List.filter delisted items)
    /\ (length act + length inact = length items)%nat.
Proof.
  intros Hdoc Huni.
  unfold process_futures, fetch_symbols_retry, fetch_symbols_from_exchange.
  cbn [String.eqb Ascii.eqb Bool.eqb].
  unfold bind, _fetch_with_retry_post. rewrite retry_unfold, Hdoc.
  unfold lift, parse_futures. cbn [dict_get rbind]. rewrite Huni. cbn [py_iter rbind].
  rewrite futures_loop. cbn [fst snd app].
  unfold ret, generate_symbol_updates, generate_symbol_updates_with_non_trading.
  rewrite !map_map. eexists _, _. split; [reflexivity|]. split; [done|]. split; [done|].
  rewrite !length_map.
  clear. induction items as [|x items IH]; cbn; [done|].
  destruct (delisted x); cbn; lia.
Qed.

Lemma key_set_values {V} (P : V -> Prop) (key : JSON) (value : V) (d : list (JSON * V)) :
  P value -> Forall (fun kv => P (snd kv)) d -> Forall (fun kv => P (snd kv)) (key_set key value d).
Proof.
  intros Hv. induction 1 as [|[k v] d Hkv Hd IH]; cbn; [by repeat constructor|].
  destruct (key_eq key k); constructor; done.
Qed.

Lemma key_get_values {V} (P : V -> Prop) (key : JSON) (d : list (JSON * V)) (v : V) :
  Forall (fun kv => P (snd kv)) d -> key_get key d = Some v -> P v.
Proof.
  induction 1 as [|[k w] d Hkv _ IH]; cbn; [done|].
  destruct (key_eq key k); [by intros [= <-]|done].
Qed.

Lemma token_step_values (tokens_map tokens_map' : TokensMap) (token : JSON) :
  Forall (fun kv => snd kv <> JStr "USDT0") tokens_map ->
  token_step tokens_map token = Ok tokens_map' ->
  Forall (fun kv => snd kv <> JStr "USDT0") tokens_map'.
Proof.
  intros Hinv. unfold token_step.
  destruct (py_item token "name") as [name|]; cbn [rbind]; [|discriminate].
  destruct (_normalize_symbol name) as [sym|] eqn:Hsym; cbn [rbind]; [|discriminate].
  destruct (dict_get token "tokenId" (JStr "")); cbn [rbind]; [|discriminate].
  destruct (dict_get token "weiDecimals" (JInt 0)); cbn [rbind]; [|discriminate].
  destruct (py_item token "index") as [index|]; cbn [rbind]; [|discriminate].
  destruct (hashable index); [|discriminate]. intros [= <-].
  apply (key_set_values (fun v => v <> JStr "USDT0")); [|done].
  by destruct (normalize_symbol_stable name) as (_ & _ & _ & H); destruct (H sym Hsym).
Qed.

Lemma spot_pair_step_symbols (tokens_map : TokensMap) (acc acc' : list SymbolData)
    (pair : JSON) :
  Forall (fun kv => snd kv <> JStr "USDT0") tokens_map ->
  Forall (fun sd => sd_symbol sd <> JStr "USDT0") acc ->
  spot_pair_step float_repr tokens_map acc pair = Ok acc' ->
  Forall (fun sd => sd_symbol sd <> JStr "USDT0") acc'.
Proof.
  intros Hinv Hacc. unfold spot_pair_step.
  destruct (dict_get pair "tokens" (JArr [])) as [idx|]; cbn [rbind]; [|discriminate].
  destruct (py_len idx) as [len|]; cbn [rbind]; [|discriminate].
  destruct (2 <=? len)%nat; [|by intros [= <-]].
  destruct (py_index idx 0) as [b|]; cbn [rbind]; [|discriminate].
  destruct (py_index idx 1) as [q|]; cbn [rbind]; [|discriminate].
  destruct (in_tokens_map b tokens_map) as [hb|]; cbn [rbind]; [|discriminate].
  destruct (if hb then in_tokens_map q tokens_map else Ok false) as [both|];
    cbn [rbind]; [|discriminate].
  destruct both; [|by intros [= <-]].
  destruct (key_get b tokens_map) as [bs|] eqn:Hb; [|by intros [= <-]].
  destruct (key_get q tokens_map) as [qs|]; intros [= <-]; [|done].
  apply Forall_app. split; [done|]. constructor; [|done]. cbn.
  by apply (key_get_values (fun v => v <> JStr "USDT0") b tokens_map).
Qed.

(** X13.  Whatever the remote answers, when [process_spot] returns, its
    inactive list is empty, every pair is flagged active under
    "hyperliquid-spot", and no pair carries the alias "USDT0" as its symbol. *)
Theorem hyperliquid_spot_listing (n : Net.State) (act inact : list TradingPair) :
  fst (process_spot http float_repr n) = Ok (act, inact) ->
  inact = []
  /\ Forall (fun p => is_active p = true /\ exchange p = "hyperliquid-spot"
                      /\ symbol p <> JStr "USDT0") act.
Proof.
  unfold process_spot, fetch_symbols_retry, fetch_symbols_from_exchange.
  cbn [String.eqb Ascii.eqb Bool.eqb]. unfold bind, lift.
  destruct (_fetch_with_retry_post http spot_url _ n) as [[data|e] n1]; [|discriminate].
  destruct (parse_spot float_repr data) as [[tr ntr]|e] eqn:Hp; [|discriminate].
  unfold ret, generate_symbol_updates, generate_symbol_updates_with_non_trading.
  cbn. intros [= <- <-].
  unfold parse_spot in Hp.
  destruct (dict_get data "tokens" (JArr [])) as [tokens|]; cbn [rbind] in Hp; [|discriminate].
  destruct (py_iter tokens) as [token_list|]; cbn [rbind] in Hp; [|discriminate].
  destruct (for_each token_step token_list []) as [tm|] eqn:Htm; cbn [rbind] in Hp;
    [|discriminate].
  destruct (dict_get data "universe" (JArr [])) as [uni|]; cbn [rbind] in Hp; [|discriminate].
  destruct (py_iter uni) as [pairs|]; cbn [rbind] in Hp; [|discriminate].
  destruct (for_each (spot_pair_step float_repr tm) pairs []) as [ts|] eqn:Hts;
    cbn [rbind] in Hp; [|discriminate].
  injection Hp as <- <-. split; [done|].
  assert (Htm' : Forall (fun kv => snd kv <> JStr "USDT0") tm).
  { eapply (for_each_invariant _ token_step); [|constructor|exact Htm].
    intros b x b'. apply token_step_values. }
  assert (Hts' : Forall (fun sd => sd_symbol sd <> JStr "USDT0") ts).
  { eapply (for_each_invariant _ (spot_pair_step float_repr tm)); [|constructor|exact Hts].
    intros b x b'. by apply spot_pair_step_symbols. }
  apply Forall_map. eapply Forall_impl; [exact Hts'|]. intros sd Hsd. by cbn.
Qed.

End HyperliquidListings.

(** ** Hyperliquid: the symbol filter of [fetch_market_data] *)

Lemma py_eq_str_true (v : JSON) (s : string) : py_eq_str v s = true -> v = JStr s.
Proof. destruct v; cbn; try discriminate. by intros ->%String.eqb_eq. Qed.

Section MarketDataFilter.
Import HyperliquidExchange.
Variable http : Remote.

(** A record that [market_data] builds carries the asset's name and a
    24h change. *)
Lemma market_data_fields (asset_name asset_info ctx : JSON) (md : Record_) :
  market_data asset_name asset_info ctx = Ok md ->
  assoc_get "symbol" md = Some asset_name /\ is_Some (assoc_get "price_change_24h" md).
Proof.
  unfold market_data.
  repeat match goal with
         | |- rbind ?r _ = Ok _ -> _ => destruct r; cbn [rbind]; [|discriminate]
         end.
  intros [= <-]. split; [reflexivity|by eexists].
Qed.

Lemma market_step_filter (filter : string) (asset_ctxs : JSON) (acc acc' : list Record_)
    (entry : nat * JSON) :
  filter <> "" ->
  Forall (fun md => assoc_get "symbol" md = Some (JStr filter)
                    /\ is_Some (assoc_get "price_change_24h" md)) acc ->
  market_step (Some filter) asset_ctxs acc entry = Ok acc' ->
  Forall (fun md => assoc_get "symbol" md = Some (JStr filter)
                    /\ is_Some (assoc_get "price_change_24h" md)) acc'.
Proof.
  intros Hne Hacc. destruct entry as [i info]. unfold market_step.
  destruct (dict_get info "name" JNull) as [name|]; cbn [rbind]; [|discriminate].
  apply String.eqb_neq in Hne as ->. cbn [negb andb].
  destruct (py_eq_str name filter) eqn:Hname; cbn [negb]; [|by intros [= <-]].
  apply py_eq_str_true in Hname as ->.
  destruct (py_len asset_ctxs) as [len|]; cbn [rbind]; [|discriminate].
  destruct (i <? len)%nat; [|by intros [= <-]].
  destruct (py_index asset_ctxs i) as [ctx|]; cbn [rbind]; [|discriminate].
  destruct (market_data (JStr filter) info ctx) as [md|] eqn:Hmd; cbn [rbind]; [|discriminate].
  intros [= <-]. apply Forall_app. split; [done|].
  constructor; [|done]. by apply market_data_fields in Hmd.
Qed.

(** X14.  With a non-empty symbol filter every record [fetch_market_data]
    returns is for that symbol (and carries a 24h change), whatever the
    remote answered; an empty filter is no filter, the call is the one with
    [symbol=None]. *)
Theorem fetch_market_data_filter (filter : string) (n : Net.State) (records : list Record_) :
  (filter <> "" ->
   fst (fetch_market_data http (Some filter) n) = Ok records ->
   Forall (fun md => assoc_get "symbol" md = Some (JStr filter)
                     /\ is_Some (assoc_get "price_change_24h" md)) records)
  /\ fetch_market_data http (Some "") n = fetch_market_data http None n.
Proof.
  split.
  - intros Hne. unfold fetch_market_data, bind, lift.
    destruct (_fetch_with_retry_post http _ _ n) as [[data|e] n1]; [|discriminate].
    cbn [fst]. unfold parse_market_data.
    destruct (py_index data 0) as [meta|]; cbn [rbind]; [|discriminate].
    destruct (py_index data 1) as [ctxs|]; cbn [rbind]; [|discriminate].
    destruct (dict_get meta "universe" (JArr [])) as [uni|]; cbn [rbind]; [|discriminate].
    destruct (py_iter uni) as [items|]; cbn [rbind]; [|discriminate].
    intros Hloop.
    eapply (for_each_invariant _ (market_step (Some filter) ctxs)); [|constructor|exact Hloop].
    intros b x b'. by apply market_step_filter.
  - reflexivity.
Qed.

End MarketDataFilter.

(** ** Where the exchange tag is checked *)

Section ExchangeTag.
Variable http : Remote.
Variable float_repr : float -> string.

(** X15.  An exchange tag the adapter does not know is refused by
    Hyperliquid's [fetch_symbols_from_exchange] before any request, while
    Binance's version fetches the URL first: it always issues the request,
    and raises the [ValueError] about the tag only once an attempt has been
    answered. *)
Theorem exchange_tag_checked (url tag : string) (s : Net.State) :
  tag <> "hyperliquid-spot" -> tag <> "hyperliquid-futures" ->
  tag <> "binance-spot" -> tag <> "binance-futures" ->
  HyperliquidExchange.fetch_symbols_from_exchange http float_repr url tag s
  = (Raise (ValueError ("Invalid Hyperliquid exchange type: " +:+ tag)), s)
  /\ request_sent (GET url) s (snd (BinanceExchange.fetch_symbols_from_exchange http url tag s))
  /\ (forall data,
        attempt http (GET url) s 0 = Ok data ->
        BinanceExchange.fetch_symbols_from_exchange http url tag s
        = (Raise (ValueError ("Invalid Binance exchange type: " +:+ tag)),
           {| requests := requests s ++ [GET url]; sleeps := sleeps s |})).
Proof.
  intros H1 H2 H3 H4.
  apply String.eqb_neq in H1, H2, H3, H4.
  split; [|split].
  - unfold HyperliquidExchange.fetch_symbols_from_exchange. by rewrite H1, H2.
  - unfold BinanceExchange.fetch_symbols_from_exchange, bind, _fetch_with_retry.
    rewrite retry_unfold.
    repeat (destruct (attempt _ _ _ _)); unfold request_sent, lift; cbn [snd requests];
      eexists; reflexivity.
  - intros data Hdata.
    unfold BinanceExchange.fetch_symbols_from_exchange, bind, _fetch_with_retry.
    rewrite retry_unfold, Hdata.
    unfold lift, BinanceExchange.partition_symbols. by rewrite H3, H4.
Qed.

End ExchangeTag.

(** ** Validation before the network, and what is sent *)

Section Validation.
Variable http : Remote.
Variable float_repr : float -> string.

(** A fetch followed by a parse issues its request first, whatever follows. *)
Lemma fetch_then_sends {A} (url : string) (k : JSON -> NetM A) (s : Net.State) :
  (forall d s', snd (k d s') = s') ->
  request_sent (GET url) s (snd ((let! d := _fetch_with_retry http url in k d) s)).
Proof.
  intros Hk. unfold bind, _fetch_with_retry. rewrite retry_unfold.
  repeat (destruct (attempt _ _ _ _)); rewrite ?Hk; unfold request_sent; cbn [snd requests];
    eexists; reflexivity.
Qed.

(** X16.  Binance's [fetch_funding_rate_history] raises [ValueError] without
    a request when [limit] is outside 1..1000 and sends its request
    otherwise; [fetch_open_interest_history] raises [ValueError] without a
    request for a period outside its list (the message names every supported
    period) or a [limit] outside 1..500, and sends its request otherwise. *)
Theorem binance_derivatives_validation (osymbol : option string) (symbol period : string)
    (st et : option Z) (limit : Z) (s : Net.State) :
  (limit < 1 \/ 1000 < limit ->
   BinanceExchange.fetch_funding_rate_history http osymbol st et limit s
   = (Raise (ValueError "Limit must be between 1 and 1000"), s))
  /\ (1 <= limit <= 1000 ->
      exists url,
        request_sent (GET url) s
          (snd (BinanceExchange.fetch_funding_rate_history http osymbol st et limit s)))
  /\ (period ∉ BinanceExchange.valid_periods ->
      exists msg,
        BinanceExchange.fetch_open_interest_history http symbol period limit st et s
        = (Raise (ValueError msg), s)
        /\ forall p, p ∈ BinanceExchange.valid_periods -> mentions msg p)
  /\ (period ∈ BinanceExchange.valid_periods ->
      limit < 1 \/ 500 < limit ->
      BinanceExchange.fetch_open_interest_history http symbol period limit st et s
      = (Raise (ValueError "Limit must be between 1 and 500"), s))
  /\ (period ∈ BinanceExchange.valid_periods ->
      1 <= limit <= 500 ->
      exists url,
        request_sent (GET url) s
          (snd (BinanceExchange.fetch_open_interest_history http symbol period limit st et s))).
Proof.
  split; [|split; [|split; [|split]]].
  - intros Hl. unfold BinanceExchange.fetch_funding_rate_history.
    destruct (Z.ltb_spec 1000 limit), (Z.ltb_spec limit 1); try done. lia.
  - intros Hl. unfold BinanceExchange.fetch_funding_rate_history.
    destruct (Z.ltb_spec 1000 limit), (Z.ltb_spec limit 1); try lia. cbn [orb].
    eexists. by apply fetch_then_sends.
  - intros Hp. unfold BinanceExchange.fetch_open_interest_history.
    rewrite decide_True by done. eexists. split; [reflexivity|].
    intros p Hin.
    by apply mentions_append_l, mentions_append_l, mentions_append_l, mentions_append_l,
      str_join_mentions.
  - intros Hp Hl. unfold BinanceExchange.fetch_open_interest_history.
    rewrite decide_False by (by intros H).
    destruct (Z.ltb_spec 500 limit), (Z.ltb_spec limit 1); try done. lia.
  - intros Hp Hl. unfold BinanceExchange.fetch_open_interest_history.
    rewrite decide_False by (by intros H).
    destruct (Z.ltb_spec 500 limit), (Z.ltb_spec limit 1); try lia. cbn [orb].
    eexists. by apply fetch_then_sends.
Qed.

(** X17.  Bybit's [fetch_funding_rate_history] checks, in this order and
    before any request: [limit] within 1..200; no start time without an end
    time (a start time of 0 counts as given); [market == "futures"].  When
    all three pass the request goes out.  A start time of 0 next to an end
    time is then dropped from the query: the call is the one without a start
    time. *)
Theorem bybit_funding_validation (symbol market : string) (st et : option Z) (limit : Z)
    (s : Net.State) :
  let call := BybitExchange.fetch_funding_rate_history http float_repr symbol in
  (limit < 1 \/ 200 < limit ->
   call st et limit market s = (Raise (ValueError "Limit must be between 1 and 200"), s))
  /\ (1 <= limit <= 200 -> st <> None ->
      call st None limit market s
      = (Raise (ValueError "If startTime is provided, endTime must also be provided"), s))
  /\ (1 <= limit <= 200 -> (st = None \/ et <> None) -> market <> "futures" ->
      call st et limit market s
      = (Raise (ValueError ("Invalid market type '" +:+ market +:+ "'. Supported: 'futures'")),
         s))
  /\ (1 <= limit <= 200 -> (st = None \/ et <> None) ->
      exists url, request_sent (GET url) s (snd (call st et limit "futures" s)))
  /\ (forall e, call (Some 0) (Some e) limit market s = call None (Some e) limit market s).
Proof.
  intros call. subst call. unfold BybitExchange.fetch_funding_rate_history.
  split; [|split; [|split; [|split]]].
  - intros Hl. destruct (Z.ltb_spec 200 limit), (Z.ltb_spec limit 1); try done. lia.
  - intros Hl Hst. destruct (Z.ltb_spec 200 limit), (Z.ltb_spec limit 1); try lia.
    cbn [orb]. by destruct st.
  - intros Hl Hse Hm. destruct (Z.ltb_spec 200 limit), (Z.ltb_spec limit 1); try lia.
    cbn [orb].
    assert (Hcomb : (if st is Some _ then true else false) && (if et is Some _ then false else true)
                    = false).
    { destruct Hse as [-> | He]; [done|]. destruct et; [|done]. by destruct st. }
    rewrite Hcomb. by apply String.eqb_neq in Hm as ->.
  - intros Hl Hse. destruct (Z.ltb_spec 200 limit), (Z.ltb_spec limit 1); try lia.
    cbn [orb].
    assert (Hcomb : (if st is Some _ then true else false) && (if et is Some _ then false else true)
                    = false).
    { destruct Hse as [-> | He]; [done|]. destruct et; [|done]. by destruct st. }
    rewrite Hcomb. cbn [String.eqb Ascii.eqb Bool.eqb negb].
    eexists. apply fetch_then_sends. intros d s'. unfold bind, lift.
    by destruct (BybitExchange.check_retCode float_repr d);
      [destruct (BybitExchange.result_list d)|].
  - intros e. reflexivity.
Qed.

(** The URL built from a base and parameters shows every [key=value]. *)
Lemma url_with_mentions base params k v :
  (k, v) ∈ params -> mentions (url_with base params) (k +:+ "=" +:+ v).
Proof.
  intros Hin. unfold url_with.
  apply mentions_append_l, mentions_append_l, str_join_mentions.
  apply (list_elem_of_fmap_2 (fun kv : string * string => fst kv +:+ "=" +:+ snd kv) _ _ Hin).
Qed.

(** X18.  A [limit] below 1 is refused by Bybit's [fetch_klines] before any
    request, while Binance's [fetch_klines], which only checks the cap, sends
    it to the vendor as it is. *)
Theorem klines_limit_lower_bound (symbol binterval yinterval market tz : string)
    (st et : option Z) (limit : Z) (s : Net.State) :
  binterval ∈ BinanceExchange.valid_intervals ->
  yinterval ∈ BybitExchange.valid_intervals ->
  market = "spot" \/ market = "futures" ->
  limit < 1 ->
  BybitExchange.fetch_klines http float_repr symbol yinterval market st et limit tz s
  = (Raise (ValueError "Limit must be between 1 and 1000"), s)
  /\ exists url,
       request_sent (GET url) s
         (snd (BinanceExchange.fetch_klines http symbol binterval market st et limit tz s))
       /\ mentions url ("limit=" +:+ pretty limit).
Proof.
  intros Hb Hy Hm Hl. split.
  - unfold BybitExchange.fetch_klines. rewrite decide_False by (by intros H).
    destruct (Z.ltb_spec 1000 limit), (Z.ltb_spec limit 1); try done; lia.
  - unfold BinanceExchange.fetch_klines. rewrite decide_False by (by intros H).
    assert (Hcap : (BinanceExchange.max_limit market <? limit) = false).
    { apply Z.ltb_ge. destruct Hm as [-> | ->]; cbn; lia. }
    rewrite Hcap.
    destruct Hm as [-> | ->]; cbn [String.eqb Ascii.eqb Bool.eqb];
      (eexists; split; [by apply fetch_then_sends|]);
      apply (url_with_mentions _ _ "limit" (pretty limit));
      apply elem_of_app; left; do 2 apply list_elem_of_further; apply list_elem_of_here.
Qed.

End Validation.

(** ** Funding rates and open interest: the records *)

Section DerivativeRecords.
Variable http : Remote.
Variable float_repr : float -> string.

(** X19.  Binance's [fetch_funding_rate_history] and
    [fetch_open_interest_history], past validation and with the first attempt
    answered: a list of dicts becomes one record per dict, in the vendor's
    order, an absent field read as [None]; a dict answer with at least one key
    raises [AttributeError], as the loop then runs over its keys. *)
Theorem binance_derivative_records (osymbol : option string) (symbol period : string)
    (st et : option Z) (limit : Z) (s : Net.State) (answer : JSON) :
  (forall req, attempt http req s 0 = Ok answer) ->
  period ∈ BinanceExchange.valid_periods ->
  1 <= limit <= 500 ->
  (forall items, answer = JArr (map JObj items) ->
     fst (BinanceExchange.fetch_funding_rate_history http osymbol st et limit s)
     = Ok (map BinanceExchange.funding_record items)
     /\ fst (BinanceExchange.fetch_open_interest_history http symbol period limit st et s)
        = Ok (map BinanceExchange.open_interest_record items))
  /\ (forall k v fields, answer = JObj ((k, v) :: fields) ->
       fst (BinanceExchange.fetch_funding_rate_history http osymbol st et limit s)
       = Raise AttributeError
       /\ fst (BinanceExchange.fetch_open_interest_history http symbol period limit st et s)
          = Raise AttributeError).
Proof.
  intros Ha Hp Hl.
  assert (Hf : forall k,
    BinanceExchange.fetch_funding_rate_history http osymbol st et limit s
    = k -> exists url, k = lift (BinanceExchange.parse_funding_rates answer)
             {| requests := requests s ++ [GET url]; sleeps := sleeps s |}).
  { intros k <-. unfold BinanceExchange.fetch_funding_rate_history.
    destruct (Z.ltb_spec 1000 limit), (Z.ltb_spec limit 1); try lia. cbn [orb].
    eexists. unfold bind, _fetch_with_retry. by rewrite retry_unfold, Ha. }
  assert (Ho : forall k,
    BinanceExchange.fetch_open_interest_history http symbol period limit st et s
    = k -> exists url, k = lift (BinanceExchange.parse_open_interest answer)
             {| requests := requests s ++ [GET url]; sleeps := sleeps s |}).
  { intros k <-. unfold BinanceExchange.fetch_open_interest_history.
    rewrite decide_False by (by intros H).
    destruct (Z.ltb_spec 500 limit), (Z.ltb_spec limit 1); try lia. cbn [orb].
    eexists. unfold bind, _fetch_with_retry. by rewrite retry_unfold, Ha. }
  destruct (Hf _ eq_refl) as [uf ->]. destruct (Ho _ eq_refl) as [uo ->].
  unfold lift. cbn [fst]. split.
  - intros items ->. split.
    + unfold BinanceExchange.parse_funding_rates. cbn [py_iter rbind].
      rewrite (for_each_append _ (fun x => match x with
                                           | JObj f => BinanceExchange.funding_record f
                                           | _ => [] end)).
      * cbn [app]. by rewrite map_map.
      * apply Forall_forall. intros x [f [-> _]]%list_elem_of_fmap.
        unfold BinanceExchange.funding_rate_of, BinanceExchange.funding_record.
        cbn [dict_get rbind].
        by destruct (assoc_get "symbol" f), (assoc_get "fundingRate" f),
          (assoc_get "fundingTime" f), (assoc_get "markPrice" f).
    + unfold BinanceExchange.parse_open_interest. cbn [py_iter rbind].
      rewrite (for_each_append _ (fun x => match x with
                                           | JObj f => BinanceExchange.open_interest_record f
                                           | _ => [] end)).
      * cbn [app]. by rewrite map_map.
      * apply Forall_forall. intros x [f [-> _]]%list_elem_of_fmap.
        unfold BinanceExchange.open_interest_of, BinanceExchange.open_interest_record.
        cbn [dict_get rbind].
        by destruct (assoc_get "symbol" f), (assoc_get "sumOpenInterest" f),
          (assoc_get "sumOpenInterestValue" f), (assoc_get "timestamp" f).
  - intros k v fields ->. split; reflexivity.
Qed.

(** X20.  Bybit's [fetch_open_interest], past validation, with the first
    attempt answered by a dict whose [retCode] is zero and whose [result] holds
    a list of dicts: one record per item, in the vendor's order, and the symbol
    of every record is the [symbol] of [result], never the item's own. *)
Theorem bybit_open_interest_records (symbol interval : string) (st et : option Z) (limit : Z)
    (s : Net.State) (response result : list (string * JSON)) (items : list (list (string * JSON))) :
  (forall req, attempt http req s 0 = Ok (JObj response)) ->
  interval ∈ BybitExchange.valid_oi_intervals ->
  1 <= limit <= 200 ->
  py_eq_zero (BybitExchange.retCode_of response) = true ->
  assoc_get "result" response = Some (JObj result) ->
  assoc_get "list" result = Some (JArr (map JObj items)) ->
  fst (BybitExchange.fetch_open_interest http float_repr symbol interval st et limit "futures" s)
  = Ok (map (BybitExchange.open_interest_record result) items).
Proof.
  intros Ha Hi Hl Hz Hr Hlist. unfold BybitExchange.fetch_open_interest.
  rewrite decide_False by (by intros H).
  destruct (Z.ltb_spec 200 limit), (Z.ltb_spec limit 1); try lia.
  cbn [orb String.eqb Ascii.eqb Bool.eqb negb].
  unfold bind, _fetch_with_retry. rewrite retry_unfold, Ha.
  unfold lift. rewrite check_retCode_spec, Hz. cbn [fst].
  unfold BybitExchange.parse_open_interest. cbn [dict_get rbind].
  rewrite Hr. cbn [dict_get rbind]. rewrite Hlist. cbn [py_iter rbind].
  rewrite (for_each_append _ (fun x => match x with
                                       | JObj f => BybitExchange.open_interest_record result f
                                       | _ => [] end)).
  - cbn [app]. by rewrite map_map.
  - apply Forall_forall. intros x [f [-> _]]%list_elem_of_fmap.
    unfold BybitExchange.open_interest_of, BybitExchange.open_interest_record.
    cbn [dict_get rbind].
    by destruct (assoc_get "symbol" result), (assoc_get "openInterest" f),
      (assoc_get "timestamp" f).
Qed.

End DerivativeRecords.

(** ** [str.lower] is idempotent *)

Section StrLower.
Import Py.

Lemma append_cons (c : ascii) (a b : string) : String c a +:+ b = String c (a +:+ b).
Proof. reflexivity. Qed.

Lemma str_concat_utf8_chars (s : string) : str_concat (utf8_chars s) = s.
Proof.
  induction s as [|c r IH]; [done|].
  cbn [utf8_chars]. destruct (utf8_chars r) as [|ch chs].
  - cbn in IH. by subst r.
  - cbn [str_concat] in IH.
    destruct r as [|d r']; [|destruct (is_continuation_byte d)];
      cbn [str_concat]; rewrite ?append_cons, IH; reflexivity.
Qed.

Lemma utf8_chars_cons_nonempty (c : ascii) (r : string) : utf8_chars (String c r) <> [].
Proof. cbn [utf8_chars]. destruct (utf8_chars r), r as [|d r']; try done; by destruct (is_continuation_byte d). Qed.

Lemma utf8_chars_app (a b : string) :
  clean_start b = true -> utf8_chars (a +:+ b) = utf8_chars a ++ utf8_chars b.
Proof.
  intros Hb. induction a as [|c a' IH]; [done|].
  rewrite append_cons. destruct a' as [|d a''].
  - change ("" +:+ b) with b. cbn [utf8_chars app].
    destruct b as [|e b']; [done|]. cbn [clean_start] in Hb.
    apply negb_true_iff in Hb. rewrite Hb.
    by destruct (utf8_chars (String e b')).
  - rewrite append_cons in IH |- *.
    change (utf8_chars (String c (String d (a'' +:+ b))))
      with (match utf8_chars (String d (a'' +:+ b)) with
            | ch :: chs => if is_continuation_byte d then String c ch :: chs
                           else String c "" :: ch :: chs
            | [] => [String c ""]
            end).
    change (utf8_chars (String c (String d a'')))
      with (match utf8_chars (String d a'') with
            | ch :: chs => if is_continuation_byte d then String c ch :: chs
                           else String c "" :: ch :: chs
            | [] => [String c ""]
            end).
    rewrite IH.
    pose proof (utf8_chars_cons_nonempty d a'') as Hne.
    destruct (utf8_chars (String d a'')) as [|ch chs]; [done|].
    cbn [app]. by destruct (is_continuation_byte d).
Qed.

(** The characters of a text are characters, and all but the first begin
    cleanly. *)
Lemma utf8_chars_shape (s : string) :
  match utf8_chars s with
  | [] => s = ""
  | ch :: chs =>
      Forall (fun x => utf8_chars x = [x]) (ch :: chs)
      /\ Forall (fun x => clean_start x = true) chs
      /\ clean_start ch = clean_start s
  end.
Proof.
  induction s as [|c r IH]; [done|].
  destruct r as [|d r'].
  { cbn. split; [by repeat constructor|]. split; [constructor|done]. }
  change (utf8_chars (String c (String d r')))
    with (match utf8_chars (String d r') with
          | ch :: chs => if is_continuation_byte d then String c ch :: chs
                         else String c "" :: ch :: chs
          | [] => [String c ""]
          end).
  destruct (utf8_chars (String d r')) as [|ch chs]; [done|].
  destruct IH as (Hall & Hclean & Hhead).
  apply Forall_cons in Hall as [Hch Hchs].
  cbn [clean_start] in Hhead.
  destruct (is_continuation_byte d) eqn:Hd.
  - split; [|split; [done|done]].
    constructor; [|done].
    destruct ch as [|e ch']; [done|]. cbn [clean_start] in Hhead.
    change (utf8_chars (String c (String e ch')))
      with (match utf8_chars (String e ch') with
            | x :: xs => if is_continuation_byte e then String c x :: xs
                         else String c "" :: x :: xs
            | [] => [String c ""]
            end).
    rewrite Hch. apply negb_false_iff in Hhead. by rewrite Hhead.
  - split; [|split; [|done]].
    + constructor; [done|]. by constructor.
    + constructor; [|done]. by rewrite Hhead.
Qed.

Lemma lower_char_fixed (final : bool) (ch : string) :
  lower_fixed ch = true -> lower_char final ch = ch.
Proof.
  unfold lower_fixed, lower_char. destruct (code_point ch) as [cp|]; [|done].
  intros [Hs Ht]%andb_prop. apply negb_true_iff in Hs as ->.
  by destruct (to_lower cp).
Qed.

Lemma lower_chars_fixed (after_cased : bool) (chars : list string) :
  Forall (fun ch => lower_fixed ch = true) chars ->
  lower_chars after_cased chars = str_concat chars.
Proof.
  intros H. revert after_cased. induction H as [|ch chars Hch _ IH]; intros st; [done|].
  cbn [lower_chars str_concat]. by rewrite lower_char_fixed, IH.
Qed.

Lemma lower_in_outputs (cp l : Z) (runs : list (Z * Z * Z * Z)) :
  Forall (fun run => 0 < snd (fst run)) runs ->
  lower_in cp runs = Some l -> l ∈ flat_map run_outputs runs.
Proof.
  intros Hpos. induction Hpos as [|[[[first last] step] delta] runs Hstep _ IH]; [done|].
  cbn [lower_in flat_map]. cbn in Hstep.
  destruct ((first <=? cp) && (cp <=? last) && ((cp - first) mod step =? 0)) eqn:E.
  - intros [= <-]. apply elem_of_app. left.
    apply andb_prop in E as [[H1 H2]%andb_prop H3].
    apply Z.leb_le in H1, H2. apply Z.eqb_eq in H3.
    unfold run_outputs.
    apply (list_elem_of_fmap_2' _ _ (Z.to_nat ((cp - first) / step))).
    + apply elem_of_seq. split; [lia|].
      assert ((cp - first) / step <= (last - first) / step) by (apply Z.div_le_mono; lia).
      assert (0 <= (cp - first) / step) by (apply Z.div_pos; lia).
      lia.
    + rewrite Z2Nat.id by (apply Z.div_pos; lia).
      pose proof (Z.div_mod (cp - first) step ltac:(lia)). lia.
  - intros H. apply elem_of_app. right. by apply IH.
Qed.

Lemma lower_runs_steps : Forall (fun run : Z * Z * Z * Z => 0 < snd (fst run)) lower_runs.
Proof.
  apply Forall_forall. intros run Hin.
  assert (H : forallb (fun run : Z * Z * Z * Z => 0 <? snd (fst run)) lower_runs = true)
    by (vm_compute; reflexivity).
  rewrite forallb_forall in H. apply Z.ltb_lt, H. by apply list_elem_of_In.
Qed.

Lemma lower_outputs_settled (l : Z) :
  l ∈ flat_map run_outputs lower_runs -> settled (utf8_encode l) = true.
Proof.
  intros Hin.
  assert (H : forallb (fun l => settled (utf8_encode l)) (flat_map run_outputs lower_runs) = true)
    by (vm_compute; reflexivity).
  rewrite forallb_forall in H. apply H. by apply list_elem_of_In.
Qed.

(** What a character is lower-cased to is the character itself, which then
    stays for good, or a text of characters that stay. *)
Lemma lower_char_settled (final : bool) (ch : string) :
  (lower_char final ch = ch /\ lower_fixed ch = true) \/ settled (lower_char final ch) = true.
Proof.
  unfold lower_char, lower_fixed. destruct (code_point ch) as [cp|]; [|by left].
  destruct (cp =? capital_sigma) eqn:Hs.
  { right. by destruct final; vm_compute. }
  unfold to_lower. destruct (cp =? 304) eqn:Hi.
  { right. vm_compute. reflexivity. }
  destruct (lower_in cp lower_runs) as [l|] eqn:Hl; [|by left].
  right. cbn [map str_concat].
  replace (utf8_encode l +:+ "") with (utf8_encode l).
  - apply lower_outputs_settled. by eapply lower_in_outputs; [apply lower_runs_steps|].
  - clear. induction (utf8_encode l) as [|c s IH]; [done|]. rewrite append_cons. by rewrite <- IH.
Qed.

Lemma clean_start_app (a b : string) : a <> "" -> clean_start (a +:+ b) = clean_start a.
Proof. by destruct a. Qed.

Lemma lower_chars_settled (after_cased : bool) (chars : list string) :
  Forall (fun x => utf8_chars x = [x]) chars ->
  Forall (fun x => clean_start x = true) chars ->
  clean_start (lower_chars after_cased chars) = true
  /\ Forall (fun ch => lower_fixed ch = true) (utf8_chars (lower_chars after_cased chars)).
Proof.
  intros Hshape. revert after_cased.
  induction Hshape as [|ch chars Hch _ IH]; intros st Hclean; [by split|].
  apply Forall_cons in Hclean as [Hc Hcs].
  cbn [lower_chars].
  destruct (IH (if is_case_ignorable ch then st else is_cased ch) Hcs) as [IHc IHf].
  rewrite utf8_chars_app by done.
  destruct (lower_char_settled (st && negb (followed_by_cased chars)) ch) as [[-> Hfix]|Hset].
  - split.
    + rewrite clean_start_app; [done|]. intros ->. done.
    + apply Forall_app. split; [|done]. rewrite Hch. by constructor.
  - unfold settled in Hset. apply andb_prop in Hset as [[Hne Hcl]%andb_prop Hall].
    split.
    + rewrite clean_start_app; [done|]. intros E. by rewrite E in Hne.
    + apply Forall_app. split; [|done].
      apply Forall_forall. intros x Hx. rewrite forallb_forall in Hall.
      apply Hall. by apply list_elem_of_In.
Qed.

(** Lower-casing a lower-cased text changes nothing. *)
Lemma str_lower_idem (s : string) : str_lower (str_lower s) = str_lower s.
Proof.
  assert (Hfixed : Forall (fun ch => lower_fixed ch = true) (utf8_chars (str_lower s))).
  { unfold str_lower. pose proof (utf8_chars_shape s) as Hs.
    destruct (utf8_chars s) as [|ch chs]; [constructor|].
    destruct Hs as (Hall & Hclean & _). apply Forall_cons in Hall as [Hch Hchs].
    cbn [lower_chars].
    destruct (lower_chars_settled (if is_case_ignorable ch then false else is_cased ch) chs
                Hchs Hclean) as [IHc IHf].
    rewrite utf8_chars_app by done. apply Forall_app. split; [|done].
    destruct (lower_char_settled (false && negb (followed_by_cased chs)) ch) as [[-> Hfix]|Hset].
    - rewrite Hch. by constructor.
    - unfold settled in Hset. apply andb_prop in Hset as [_ Hall].
      apply Forall_forall. intros x Hx. rewrite forallb_forall in Hall.
      apply Hall. by apply list_elem_of_In. }
  unfold str_lower at 1. rewrite lower_chars_fixed by done.
  apply str_concat_utf8_chars.
Qed.

End StrLower.

(** ** The registry and the listing tool *)

Section RegistryInvariant.
Import ExchangeFactory.

Lemma assoc_get_None_keys {V} (k : string) (d : list (string * V)) :
  assoc_get k d = None -> k ∉ map fst d.
Proof.
  induction d as [|[k' v] d IH]; cbn; [intros _; apply not_elem_of_nil|].
  destruct (String.eqb_spec k k') as [->|Hne]; [done|].
  intros H. apply not_elem_of_cons. split; [done|by apply IH].
Qed.

Lemma assoc_get_NoDup {V} (k : string) (v : V) (d : list (string * V)) :
  NoDup (map fst d) -> (k, v) ∈ d -> assoc_get k d = Some v.
Proof.
  induction d as [|[k' v'] d IH]; cbn; [by intros _ ?%elem_of_nil|].
  intros [Hk Hd]%NoDup_cons [[= -> ->]|Hin]%elem_of_cons.
  - by rewrite String.eqb_refl.
  - destruct (String.eqb_spec k k') as [->|Hne]; [|by apply IH].
    exfalso. apply Hk. by apply (list_elem_of_fmap_2 fst _ (k', v)).
Qed.

Lemma registered_keys (reg : Registry) :
  registered reg ->
  NoDup (list_exchanges reg) /\ Forall (fun k => str_lower k = k) (list_exchanges reg).
Proof.
  induction 1 as [|name c reg _ [IHn IHl]]; [split; constructor|].
  unfold register, list_exchanges in *.
  destruct (assoc_get (str_lower name) reg) as [c'|] eqn:E.
  - by rewrite dict_set_keys_present.
  - rewrite dict_set_keys_absent by done. split.
    + apply NoDup_app. split; [done|]. split; [|apply NoDup_singleton].
      intros k Hk ->%list_elem_of_singleton. by apply (assoc_get_None_keys _ _ E).
    + apply Forall_app. split; [done|]. constructor; [apply str_lower_idem|constructor].
Qed.

(** X21.  On a registry built by [register] calls, the names
    [list_exchanges] gives are distinct and in lower case, every pair of a
    name and its class is found again by [create] under that name, and a
    further [register] drops none of the names. *)
Theorem registry_names_resolve (reg : Registry) :
  registered reg ->
  NoDup (list_exchanges reg)
  /\ (forall k, k ∈ list_exchanges reg -> str_lower k = k)
  /\ (forall k c, (k, c) ∈ reg -> create k reg = Ok (c, construct c))
  /\ (forall name c, list_exchanges reg ⊆ list_exchanges (register name c reg)).
Proof.
  intros Hreg. destruct (registered_keys reg Hreg) as [Hn Hl].
  rewrite Forall_forall in Hl.
  split; [done|]. split; [done|]. split.
  - intros k c Hin. unfold create.
    rewrite (Hl k) by apply (list_elem_of_fmap_2 fst _ (k, c) Hin).
    by rewrite (assoc_get_NoDup k c reg Hn Hin).
  - intros name c k Hk. unfold register, list_exchanges in *.
    destruct (assoc_get (str_lower name) reg) as [c'|] eqn:E.
    + by rewrite dict_set_keys_present.
    + rewrite dict_set_keys_absent by done. apply elem_of_app. by left.
Qed.

Section Listing.
Variable library_text : exn -> string.
Variable __doc__ : ExchangeClass -> option string.

Lemma exchange_entry_found (reg : Registry) (k : string) (c : ExchangeClass) (acc : list JSON) :
  assoc_get (str_lower k) reg = Some c ->
  App.exchange_entry __doc__ reg acc k = Ok (acc ++ [App.entry_of __doc__ k c]).
Proof. intros H. unfold App.exchange_entry, get_exchange_info. by rewrite H. Qed.

Lemma exchange_entries (reg : Registry) (part : list (string * ExchangeClass)) (acc : list JSON) :
  (forall k c, (k, c) ∈ part -> assoc_get (str_lower k) reg = Some c) ->
  for_each (App.exchange_entry __doc__ reg) (map fst part) acc
  = Ok (acc ++ map (fun kc => App.entry_of __doc__ (fst kc) (snd kc)) part).
Proof.
  revert acc. induction part as [|[k c] part IH]; intros acc Hfound; cbn [map for_each].
  - by rewrite app_nil_r.
  - rewrite (exchange_entry_found reg k c) by apply Hfound, list_elem_of_here.
    cbn [rbind]. rewrite IH.
    + by rewrite <- app_assoc.
    + intros k' c' Hin. apply Hfound. by apply list_elem_of_further.
Qed.

(** X22.  On a registry built by [register] calls,
    [list_supported_exchanges] never takes its error branch: it returns the
    number of registered names and, in registration order, one entry per
    name with the markets of the class registered under it and its stripped
    description. *)
Theorem list_supported_exchanges_total (reg : Registry) :
  registered reg ->
  App.list_supported_exchanges library_text __doc__ reg
  = JObj [("count", JInt (Z.of_nat (length reg)));
          ("exchanges",
           JArr (map (fun kc => App.entry_of __doc__ (fst kc) (snd kc)) reg))].
Proof.
  intros Hreg. destruct (registered_keys reg Hreg) as [Hn Hl].
  rewrite Forall_forall in Hl.
  unfold App.list_supported_exchanges, list_exchanges.
  rewrite exchange_entries.
  - by rewrite length_map.
  - intros k c Hin.
    rewrite (Hl k) by apply (list_elem_of_fmap_2 fst _ (k, c) Hin).
    by apply assoc_get_NoDup.
Qed.

End Listing.
End RegistryInvariant.

(** ** The HTTP client of an instance *)

Section ClientLifecycle.
Import Lifecycle.

Lemma held_only_client (self : State) : held_only self -> held_only (snd (client self)).
Proof.
  unfold held_only, client. intros H.
  destruct (_client self) as [h|] eqn:E; cbn; [by rewrite E|].
  intros i Hi. apply lookup_app_Some in Hi as [Hi|[Hlen Hi]].
  - by apply H in Hi.
  - f_equal. apply list_lookup_singleton_Some in Hi as [Hi _]. lia.
Qed.

Lemma all_closed_close (self : State) : held_only self -> all_closed (close self).
Proof.
  unfold held_only, all_closed, close. intros H i.
  destruct (_client self) as [h|] eqn:E; cbn.
  - intros Hi. destruct (decide (i = h)) as [->|Hne].
    + apply list_lookup_insert_Some in Hi as [(_ & ? & _)|(? & _)]; done.
    + rewrite list_lookup_insert_ne in Hi by done. apply H in Hi. congruence.
  - intros Hi. apply H in Hi. congruence.
Qed.

Lemma all_closed_held (self : State) : all_closed self -> held_only self.
Proof. intros H i Hi. by apply H in Hi. Qed.

(** X23.  An instance never holds more than the one open client it
    references: from a state where every open client is the held one, any
    sequence of client uses and [close] calls keeps that so; [close] then
    leaves no client open and is idempotent, [__del__] leaves none open
    either, and a [with] block closes the client whether its body returns or
    raises, handing the body's value or exception on unchanged. *)
Theorem client_never_leaks {A} (self : State) (steps : list Step) (body : M State A) :
  held_only self ->
  (forall s, held_only s -> held_only (snd (body s))) ->
  let after := foldl step self steps in
  held_only after
  /\ all_closed (close after)
  /\ close (close after) = close after
  /\ all_closed (__del__ after)
  /\ all_closed (snd (with_ body self))
  /\ _client (snd (with_ body self)) = None
  /\ fst (with_ body self) = match fst (body self) with
                             | Ok a => Ok (Some a)
                             | Raise e => Raise e
                             end.
Proof.
  intros Hheld Hbody after.
  assert (Hafter : held_only after).
  { subst after. revert self Hheld. induction steps as [|st steps IH]; intros self Hheld; [done|].
    cbn [foldl]. apply IH. destruct st; cbn [step].
    - by apply held_only_client.
    - by apply all_closed_held, all_closed_close. }
  clearbody after.
  split; [done|]. split; [by apply all_closed_close|]. split.
  { unfold close. destruct (_client after) eqn:E; cbn; [done|by rewrite E]. }
  split.
  { pose proof (all_closed_close after Hafter) as Hc. unfold all_closed, close, __del__ in *.
    destruct (_client after); cbn in *; done. }
  unfold with_, __enter__, __exit__.
  pose proof (Hbody self Hheld) as Hb.
  destruct (body self) as [[a|e] s'] eqn:E; cbn [fst snd] in *;
    (split; [by apply all_closed_close|]); (split; [|done]);
    unfold close; destruct (_client s') eqn:E'; cbn; done.
Qed.

End ClientLifecycle.

(** ** The trading-pairs tool *)

Section TradingPairsTool.
Import App ExchangeFactory.
Variable http : Remote.
Variable float_repr : float -> string.
Variable time_time : nat -> float.
Variable library_text : exn -> string.

Lemma ru_rbind {A B} (r : Result A) (k : A -> Result B) :
  raises_unexpected r -> (forall a, raises_unexpected (k a)) -> raises_unexpected (rbind r k).
Proof. destruct r; cbn; auto. Qed.

Lemma ru_for_each {A B} (body : B -> A -> Result B) (xs : list A) (acc : B) :
  (forall b x, raises_unexpected (body b x)) -> raises_unexpected (for_each body xs acc).
Proof.
  intros Hb. revert acc. induction xs as [|x xs IH]; intros acc; cbn; [done|].
  apply ru_rbind; auto.
Qed.

Lemma ru_dict_get d k v : raises_unexpected (dict_get d k v).
Proof. by destruct d. Qed.

Lemma ru_py_item d k : raises_unexpected (py_item d k).
Proof. destruct d as [|b|z|f|t|items|fields]; cbn; try done. by destruct (assoc_get k fields). Qed.

Lemma ru_py_iter v : raises_unexpected (py_iter v).
Proof. by destruct v. Qed.

Lemma ru_py_index v i : raises_unexpected (py_index v i).
Proof.
  destruct v as [|b|z|f|t|items|fields]; cbn; try done.
  - by destruct (nth_error (utf8_chars t) i).
  - by destruct (nth_error items i).
Qed.

Lemma ru_py_len v : raises_unexpected (py_len v).
Proof. by destruct v. Qed.

Ltac ru :=
  repeat first
    [ exact I
    | apply ru_dict_get | apply ru_py_item | apply ru_py_iter | apply ru_py_index
    | apply ru_py_len
    | apply ru_rbind; [|intros ?]
    | apply ru_for_each; intros ? ?
    | match goal with
      | |- raises_unexpected (Raise _) => reflexivity
      | |- raises_unexpected (if ?b then _ else _) => destruct b
      | |- raises_unexpected (match ?x with _ => _ end) => destruct x
      end ].

Ltac ru_items :=
  ru;
  try unfold BinanceExchange.spot_item; try unfold BinanceExchange.futures_item;
  try unfold BybitExchange.spot_item; try unfold BybitExchange.futures_item;
  try unfold BybitExchange.symbol_data;
  try unfold HyperliquidExchange.token_step; try unfold HyperliquidExchange._normalize_symbol;
  try unfold HyperliquidExchange.spot_pair_step; try unfold HyperliquidExchange.in_tokens_map;
  try unfold HyperliquidExchange.futures_step;
  ru.

Lemma binance_spot_parse d : raises_unexpected (BinanceExchange.partition_symbols "binance-spot" d).
Proof.
  unfold BinanceExchange.partition_symbols. cbn [String.eqb Ascii.eqb Bool.eqb]. ru_items.
Qed.

Lemma binance_futures_parse d :
  raises_unexpected (BinanceExchange.partition_symbols "binance-futures" d).
Proof.
  unfold BinanceExchange.partition_symbols. cbn [String.eqb Ascii.eqb Bool.eqb]. ru_items.
Qed.

Lemma bybit_spot_parse d : raises_unexpected (BybitExchange.partition_symbols "bybit-spot" d).
Proof.
  unfold BybitExchange.partition_symbols, BybitExchange.result_list.
  cbn [String.eqb Ascii.eqb Bool.eqb]. ru_items.
Qed.

Lemma bybit_futures_parse d :
  raises_unexpected (BybitExchange.partition_symbols "bybit-futures" d).
Proof.
  unfold BybitExchange.partition_symbols, BybitExchange.result_list.
  cbn [String.eqb Ascii.eqb Bool.eqb]. ru_items.
Qed.

Lemma hyperliquid_spot_parse d : raises_unexpected (HyperliquidExchange.parse_spot float_repr d).
Proof. unfold HyperliquidExchange.parse_spot. ru_items. Qed.

Lemma hyperliquid_futures_parse d :
  raises_unexpected (HyperliquidExchange.parse_futures float_repr d).
Proof. unfold HyperliquidExchange.parse_futures. ru_items. Qed.

(** What a [process_*] method shows of itself: it raises nothing the first
    two [except] clauses would catch, it issues a request, the pairs it
    returns carry the flag of their list, and it raises [RetryError] when
    every request fails. *)
Lemma process_profile (req : Request)
    (parse : JSON -> Result (list SymbolData * list SymbolData)) (tag : string) (s : Net.State) :
  (forall d, raises_unexpected (parse d)) ->
  let out := (let! (trading, non_trading) :=
                (let! d := Tenacity.retry (send http req) in lift (parse d)) in
              ret (generate_symbol_updates_with_non_trading tag trading non_trading)) s in
  raises_unexpected (fst out)
  /\ requests (snd out) <> []
  /\ (forall a i, fst out = Ok (a, i) ->
       Forall (fun p => is_active p = true) a /\ Forall (fun p => is_active p = false) i)
  /\ (every_request_fails http -> exists last, fst out = Raise (RetryError last)).
Proof.
  intros Hparse. unfold bind, lift, ret. rewrite retry_unfold.
  assert (Hdown : forall k d, every_request_fails http -> attempt http req s k <> Ok d).
  { intros k d Hd. unfold attempt. by destruct (Hd (length (requests s) + k)%nat req) as [e ->]. }
  assert (Hne : forall l (r : Request) rs, l ++ r :: rs <> []) by (by intros [|??] ??).
  assert (Hflags : forall t n a i,
             generate_symbol_updates_with_non_trading tag t n = (a, i) ->
             Forall (fun p => is_active p = true) a /\ Forall (fun p => is_active p = false) i).
  { intros t n a i [= <- <-]. split; by apply Forall_fmap, Forall_true. }
  destruct (attempt http req s 0) as [d|e0] eqn:E0;
    [|destruct (attempt http req s 1) as [d|e1] eqn:E1;
      [|destruct (attempt http req s 2) as [d|e2] eqn:E2]];
    try (specialize (Hparse d); destruct (parse d) as [[t n]|e];
         cbn [fst snd raises_unexpected];
         (split; [done|]); (split; [apply Hne|]);
         (split; [|intros Hd; exfalso; eapply (Hdown _ _ Hd); eassumption]);
         intros a i H; [|done];
         apply (Hflags t n); congruence).
  cbn [fst snd raises_unexpected]. split; [done|]. split; [apply Hne|].
  split; [done|]. intros _. by eexists.
Qed.

Lemma registered_methods (c : ExchangeClass) (market : string) :
  c = Binance http \/ c = Bybit http \/ c = Hyperliquid http float_repr ->
  market ∈ get_supported_markets (adapter c) ->
  exists method, process_ (adapter c) market = Some method /\ shows_profile http method.
Proof.
  intros Hc Hm.
  assert (Hmarket : market = "spot" \/ market = "futures").
  { destruct Hc as [-> | [-> | ->]]; cbn in Hm;
      apply elem_of_cons in Hm as [->|Hm]; auto;
      apply list_elem_of_singleton in Hm as ->; auto. }
  destruct Hc as [-> | [-> | ->]], Hmarket as [-> | ->]; cbn [adapter process_
    BinanceExchange.cls BybitExchange.cls HyperliquidExchange.cls String.eqb Ascii.eqb Bool.eqb
    Binance Bybit Hyperliquid];
    (eexists; split; [reflexivity|]); intros s.
  - apply (process_profile (GET BinanceExchange.spot_url)
             (BinanceExchange.partition_symbols "binance-spot") "binance-spot" s
             binance_spot_parse).
  - apply (process_profile (GET BinanceExchange.futures_url)
             (BinanceExchange.partition_symbols "binance-futures") "binance-futures" s
             binance_futures_parse).
  - apply (process_profile (GET BybitExchange.spot_url)
             (BybitExchange.partition_symbols "bybit-spot") "bybit-spot" s
             bybit_spot_parse).
  - apply (process_profile (GET BybitExchange.futures_url)
             (BybitExchange.partition_symbols "bybit-futures") "bybit-futures" s
             bybit_futures_parse).
  - apply (process_profile
             (POST HyperliquidExchange.spot_url (JObj [("type", JStr "spotMeta")]))
             (HyperliquidExchange.parse_spot float_repr) "hyperliquid-spot" s
             hyperliquid_spot_parse).
  - apply (process_profile
             (POST HyperliquidExchange.futures_url (JObj [("type", JStr "meta")]))
             (HyperliquidExchange.parse_futures float_repr) "hyperliquid-futures" s
             hyperliquid_futures_parse).
Qed.

Lemma assoc_get_Some_elem {V} (k : string) (v : V) (d : list (string * V)) :
  assoc_get k d = Some v -> (k, v) ∈ d.
Proof.
  induction d as [|[k' v'] d IH]; cbn; [done|].
  destruct (String.eqb_spec k k') as [->|Hne].
  - intros [= ->]. apply list_elem_of_here.
  - intros H. by apply list_elem_of_further, IH.
Qed.

(** A first call on a new instance of a registered class, on a supported
    market. *)
Lemma new_instance_fetch (c : ExchangeClass) (market : string) :
  c = Binance http \/ c = Bybit http \/ c = Hyperliquid http float_repr ->
  market ∈ get_supported_markets (adapter c) ->
  let out := fetch_all_pairs time_time (adapter c) market true (construct c) in
  raises_unexpected (fst out)
  /\ requests (net (snd out)) <> []
  /\ (forall r, fst out = Ok r ->
       Forall (fun p => is_active p = true) (active r)
       /\ Forall (fun p => is_active p = false) (inactive r))
  /\ (every_request_fails http -> exists last, fst out = Raise (RetryError last)).
Proof.
  intros Hc Hm. destruct (registered_methods c market Hc Hm) as (method & Hp & Hprofile).
  assert (Hnew : construct c = __init__ default_cache_ttl)
    by (by destruct Hc as [-> | [-> | ->]]).
  unfold fetch_all_pairs. rewrite decide_False by (by intros H). rewrite Hnew.
  cbn [_cache __init__]. rewrite lookup_empty. unfold fetch_live. rewrite Hp.
  unfold bind, on_net, now, cache_store, ret. cbn [net __init__].
  destruct (Hprofile idle) as (Hr & Hreq & Hflags & Hdown).
  destruct (method idle) as [[[a i]|e] n]; cbn [fst snd net] in *.
  - split; [done|]. split; [done|]. split; [intros r [= <-]; by apply Hflags|].
    intros Hd. by destruct (Hdown Hd).
  - split; [done|]. split; [done|]. split; [done|].
    intros Hd. destruct (Hdown Hd) as [last [= ->]]. by eexists.
Qed.

Lemma registry_entries :
  registry http float_repr
  = [("binance", Binance http); ("bybit", Bybit http);
     ("hyperliquid", Hyperliquid http float_repr)].
Proof. reflexivity. Qed.

Lemma report_unexpected (e : exn) (exchange market : string) :
  unexpected e = true ->
  report library_text e exchange market
  = JObj [("error", JStr "Unexpected error"); ("error_type", JStr (type_name e));
          ("message", JStr (exn_str library_text e)); ("exchange", JStr exchange);
          ("market", JStr market)].
Proof.
  unfold unexpected, report. intros [Hv Hh]%andb_prop.
  apply negb_true_iff in Hv as ->. by apply negb_true_iff in Hh as ->.
Qed.

(** The three ways a call of the tool can go on the registry of the module. *)
Lemma get_trading_pairs_cases (exchange market status : string) :
  let out := get_trading_pairs time_time library_text (registry http float_repr)
               exchange market status in
  let known := str_lower exchange ∈ list_exchanges (registry http float_repr) in
  let supported := market ∈ ["spot"; "futures"] in
  ((~ known \/ ~ supported)
   /\ snd out = idle
   /\ exists msg, fst out = report library_text (ValueError msg) exchange market)
  \/ (known /\ supported
      /\ requests (snd out) <> []
      /\ exists e, unexpected e = true /\ fst out = report library_text e exchange market
                /\ (every_request_fails http -> exists last, e = RetryError last))
  \/ (known /\ supported
      /\ requests (snd out) <> []
      /\ exists result,
           fst out = JObj [("exchange", JStr exchange); ("market", JStr market);
                           ("status_filter", JStr status);
                           ("count", JInt (Z.of_nat (length (select status result))));
                           ("pairs", JArr (map pair_json (select status result)))]
           /\ Forall (fun p => is_active p = true) (active result)
           /\ Forall (fun p => is_active p = false) (inactive result)
           /\ ~ every_request_fails http).
Proof.
  intros out known supported. subst out known supported.
  unfold get_trading_pairs, create.
  destruct (assoc_get (str_lower exchange) (registry http float_repr)) as [c|] eqn:E.
  - assert (Hin : (str_lower exchange, c) ∈ registry http float_repr)
      by (by apply assoc_get_Some_elem).
    assert (Hknown : str_lower exchange ∈ list_exchanges (registry http float_repr))
      by apply (list_elem_of_fmap_2 fst _ _ Hin).
    assert (Hc : c = Binance http \/ c = Bybit http \/ c = Hyperliquid http float_repr).
    { rewrite registry_entries in Hin.
      repeat (apply elem_of_cons in Hin as [[= _ ->]|Hin]; [by auto|]).
      by apply elem_of_nil in Hin. }
    assert (Hmarkets : get_supported_markets (adapter c) = ["spot"; "futures"])
      by (by destruct Hc as [-> | [-> | ->]]).
    destruct (decide (market ∈ ["spot"; "futures"])) as [Hm|Hm].
    + rewrite <- Hmarkets in Hm.
      destruct (new_instance_fetch c market Hc Hm) as (Hr & Hreq & Hflags & Hdown).
      rewrite Hmarkets in Hm.
      destruct (fetch_all_pairs time_time (adapter c) market true (construct c))
        as [[r|e] after]; cbn [fst snd] in *.
      * right. right. do 3 (split; [done|]). exists r. split; [done|].
        destruct (Hflags r eq_refl). do 2 (split; [done|]).
        intros Hd. by destruct (Hdown Hd).
      * right. left. do 3 (split; [done|]). exists e. do 2 (split; [done|]).
        intros Hd. destruct (Hdown Hd) as [last [= ->]]. by eexists.
    + left. split; [by right|]. unfold fetch_all_pairs.
      rewrite decide_True by (by rewrite Hmarkets). unfold raise. cbn [fst snd].
      split; [by destruct Hc as [-> | [-> | ->]]|]. by eexists.
  - left. split; [left; by apply assoc_get_None_keys|]. cbn [fst snd]. split; [done|].
    by eexists.
Qed.

(** X24.  [get_trading_pairs] on the registry of the module: when the
    lower-cased exchange name is not registered or the market is neither
    "spot" nor "futures", it answers "Invalid input" with error type
    "ValueError" and no request is made; otherwise the new instance, whose
    cache is empty, does make a request, and the answer is never "Invalid
    input".  No call ever answers "API request failed": a failure of the
    network arrives as [RetryError] and is reported as "Unexpected error". *)
Theorem get_trading_pairs_errors (exchange market status : string) :
  let out := get_trading_pairs time_time library_text (registry http float_repr)
               exchange market status in
  let known := str_lower exchange ∈ list_exchanges (registry http float_repr) in
  let supported := market ∈ ["spot"; "futures"] in
  (~ known \/ ~ supported ->
   field "error" (fst out) = Some (JStr "Invalid input")
   /\ field "error_type" (fst out) = Some (JStr "ValueError")
   /\ snd out = idle)
  /\ (known -> supported ->
      requests (snd out) <> []
      /\ field "error" (fst out) <> Some (JStr "Invalid input"))
  /\ field "error" (fst out) <> Some (JStr "API request failed")
  /\ (known -> supported ->
      (forall n req, exists e, receive (http n req) = Raise e) ->
      field "error" (fst out) = Some (JStr "Unexpected error")
      /\ field "error_type" (fst out) = Some (JStr "RetryError")).
Proof.
  intros out known supported.
  pose proof (get_trading_pairs_cases exchange market status) as Hcases.
  cbv zeta in Hcases. fold out known supported in Hcases.
  split; [|split; [|split]].
  - intros Hbad.
    destruct Hcases as [(_ & Hidle & msg & ->) | [(Hk & Hs & _) | (Hk & Hs & _)]];
      [done | by destruct Hbad | by destruct Hbad].
  - intros Hk Hs.
    destruct Hcases as [([Hbad|Hbad] & _) | [(_ & _ & Hreq & e & He & -> & _)
                                            | (_ & _ & Hreq & r & -> & _)]]; try done.
    split; [done|]. by rewrite report_unexpected.
  - destruct Hcases as [(_ & _ & msg & ->) | [(_ & _ & _ & e & He & -> & _)
                                             | (_ & _ & _ & r & -> & _)]]; try done.
    by rewrite report_unexpected.
  - intros Hk Hs Hd.
    destruct Hcases as [([Hbad|Hbad] & _) | [(_ & _ & _ & e & He & -> & Hlast)
                                            | (_ & _ & _ & r & _ & _ & _ & Hup)]]; try done.
    destruct (Hlast Hd) as [last ->]. by rewrite report_unexpected.
Qed.

(** X25.  What [get_trading_pairs] returns as pairs on the registry of the
    module: [count] is their number; under status "active" every pair is
    flagged active and under "inactive" every pair is flagged inactive; any
    other status gives the pairs of "all", the active ones followed by the
    inactive ones. *)
Theorem get_trading_pairs_status (exchange market status : string) (ps : list JSON) :
  let out := get_trading_pairs time_time library_text (registry http float_repr)
               exchange market status in
  field "pairs" (fst out) = Some (JArr ps) ->
  field "count" (fst out) = Some (JInt (Z.of_nat (length ps)))
  /\ (status = "active" -> Forall (fun p => field "is_active" p = Some (JBool true)) ps)
  /\ (status = "inactive" -> Forall (fun p => field "is_active" p = Some (JBool false)) ps)
  /\ (status <> "active" -> status <> "inactive" ->
      field "pairs" (fst (get_trading_pairs time_time library_text (registry http float_repr)
                            exchange market "all"))
      = Some (JArr ps)).
Proof.
  intros out Hps.
  pose proof (get_trading_pairs_cases exchange market status) as Hcases.
  cbv zeta in Hcases. fold out in Hcases.
  destruct Hcases as [(_ & _ & msg & Hout) | [(_ & _ & _ & e & He & Hout & _)
                                             | (_ & _ & _ & r & Hout & Ha & Hi & _)]].
  - by rewrite Hout in Hps.
  - rewrite Hout, report_unexpected in Hps by done. done.
  - rewrite Hout in Hps |- *. cbn in Hps. injection Hps as <-.
    split; [cbn; by rewrite length_map|].
    split; [|split].
    + intros ->. cbn. apply Forall_fmap. eapply Forall_impl; [exact Ha|].
      intros p Hp. cbn. by rewrite Hp.
    + intros ->. cbn. apply Forall_fmap. eapply Forall_impl; [exact Hi|].
      intros p Hp. cbn. by rewrite Hp.
    + intros H1 H2. subst out. revert Hout.
      unfold get_trading_pairs.
      destruct (create exchange (registry http float_repr)) as [[c inst]|e];
        [|cbn; unfold report; by repeat case_match].
      destruct (fetch_all_pairs time_time (adapter c) market true inst) as [[r'|e] after];
        [|cbn; unfold report; by repeat case_match].
      cbn [fst snd field assoc_get String.eqb Ascii.eqb Bool.eqb].
      intros [= Hlen Hsel]. rewrite <- Hsel. unfold select.
      apply String.eqb_neq in H1 as ->. by apply String.eqb_neq in H2 as ->.
Qed.

End TradingPairsTool.

(** ** The further properties on concrete answers *)

Lemma fetch_all_pairs_other_market_witness :
  let cls := BinanceExchange.cls (Mock.always Mock.exchange_info) in
  _cache (snd (BaseExchange.fetch_all_pairs Mock.clock cls "futures" true Mock.cached_instance))
    !! "spot"
  = _cache Mock.cached_instance !! "spot".
Proof.
  intros cls.
  apply (fetch_all_pairs_other_market Mock.clock cls "spot" "futures" true Mock.cached_instance).
  discriminate.
Defined.

Lemma fetch_all_pairs_cache_kept_witness :
  let cls := BinanceExchange.cls (Mock.always Mock.exchange_info) in
  is_Some (_cache (snd (BaseExchange.fetch_all_pairs Mock.clock cls "futures" true
                          Mock.cached_instance)) !! "spot").
Proof.
  intros cls.
  apply (proj2 (fetch_all_pairs_cache_kept Mock.clock cls "futures" true Mock.cached_instance)
               "spot").
  exists (1000%float, Mock.pairs). reflexivity.
Defined.

Lemma binance_spot_listing_witness :
  fst (BinanceExchange.process_spot (Mock.always Mock.exchange_info) idle)
  = Ok (Mock.active_pairs, Mock.inactive_pairs).
Proof.
  rewrite (binance_spot_listing (Mock.always Mock.exchange_info) Mock.exchange_info_fields
             Mock.listings idle).
  - reflexivity.
  - reflexivity.
  - reflexivity.
  - repeat constructor; by eexists.
Defined.

Lemma binance_futures_listing_witness :
  fst (BinanceExchange.process_futures (Mock.always (JObj Mock.futures_info_fields)) idle)
  = Ok ([Mock.futures_tagged "BTCUSDT" "BTC" true], [Mock.futures_tagged "LUNAUSDT" "LUNA" false]).
Proof.
  rewrite (binance_futures_listing (Mock.always (JObj Mock.futures_info_fields))
             Mock.futures_info_fields Mock.contracts idle).
  - reflexivity.
  - reflexivity.
  - reflexivity.
  - repeat constructor; by eexists.
Defined.

Lemma binance_spot_listing_missing_key_witness :
  fst (BinanceExchange.process_spot (Mock.always (JObj Mock.broken_info_fields)) idle)
  = Raise (KeyError "baseAsset").
Proof.
  apply (binance_spot_listing_missing_key (Mock.always (JObj Mock.broken_info_fields))
           Mock.broken_info_fields [Mock.listing "BTCUSDT" "BTC" "TRADING"] Mock.nameless
           [JObj (Mock.listing "ETHUSDT" "ETH" "TRADING")] idle).
  - reflexivity.
  - reflexivity.
  - repeat constructor; by eexists.
  - reflexivity.
  - reflexivity.
Defined.

Lemma bybit_listings_witness :
  let http := Mock.always (JObj Mock.instruments_answer) in
  fst (BybitExchange.process_spot http idle)
  = Ok ([Mock.bybit_tagged "bybit-spot" "BTCUSDT" "BTC";
         Mock.bybit_tagged "bybit-spot" "BTCUSDT-27JUN25" "BTC"], [])
  /\ fst (BybitExchange.process_futures http idle)
     = Ok ([Mock.bybit_tagged "bybit-futures" "BTCUSDT" "BTC"], []).
Proof.
  intros http.
  destruct (bybit_listings http Mock.instruments_answer Mock.instruments_result
              Mock.instruments idle) as [Hs Hf].
  - reflexivity.
  - reflexivity.
  - reflexivity.
  - rewrite Hs, Hf. split; reflexivity.
Defined.

Lemma bybit_never_inactive_witness :
  Forall (fun p => is_active p = true /\ exchange p = "bybit-futures")
         [Mock.bybit_tagged "bybit-futures" "BTCUSDT" "BTC"].
Proof.
  apply (proj2 (bybit_never_inactive (Mock.always (JObj Mock.instruments_answer)) idle
                  [Mock.bybit_tagged "bybit-futures" "BTCUSDT" "BTC"] [])).
  reflexivity.
Defined.

Lemma binance_klines_positional_witness :
  fst (BinanceExchange.fetch_klines (Mock.always (JArr (map JArr Mock.binance_kline_rows)))
         "BTCUSDT" "1m" "spot" None None 2 "0" idle)
  = Ok [Mock.binance_kline 1670601600000 "17001"; Mock.binance_kline 1670601660000 "17002"].
Proof.
  rewrite (binance_klines_positional (Mock.always (JArr (map JArr Mock.binance_kline_rows)))
             "BTCUSDT" "1m" "spot" None None 2 "0" idle Mock.binance_kline_rows).
  - reflexivity.
  - reflexivity.
  - apply (bool_decide_unpack _). vm_compute. exact I.
  - by left.
  - vm_compute. discriminate.
  - repeat constructor; cbn; lia.
Defined.

Lemma klines_short_row_witness :
  let rows := Mock.short_row :: Mock.binance_kline_rows in
  fst (BinanceExchange.fetch_klines (Mock.always (JArr (map JArr rows)))
         "BTCUSDT" "1m" "spot" None None 3 "0" idle)
  = Raise IndexError.
Proof.
  intros rows.
  apply (proj1 (klines_short_row (Mock.always (JArr (map JArr rows)))
                  Mock.no_float_repr "BTCUSDT" "spot" None None 3 "0" idle rows
                  (or_introl eq_refl) ltac:(lia)) "1m").
  - apply (bool_decide_unpack _). vm_compute. exact I.
  - reflexivity.
  - apply Exists_cons_hd. cbn. lia.
Defined.

Lemma normalize_symbol_stable_witness :
  HyperliquidExchange._normalize_symbol (JStr "PURR") = Ok (JStr "PURR").
Proof.
  apply (proj1 (proj2 (proj2 (normalize_symbol_stable (JStr "PURR"))))).
  - discriminate.
  - reflexivity.
Defined.

Lemma hyperliquid_futures_listing_witness :
  fst (HyperliquidExchange.process_futures (Mock.always (JObj Mock.hl_meta))
         Mock.no_float_repr idle)
  = Ok ([Mock.hl_tagged "BTC" true; Mock.hl_tagged "ETH" true], [Mock.hl_tagged "LOOM" false]).
Proof.
  destruct (hyperliquid_futures_listing (Mock.always (JObj Mock.hl_meta)) Mock.no_float_repr
              Mock.hl_meta Mock.hl_universe idle) as (act & inact & -> & -> & -> & _).
  - reflexivity.
  - reflexivity.
  - reflexivity.
Defined.

Lemma hyperliquid_spot_listing_witness :
  Forall (fun p => is_active p = true /\ exchange p = "hyperliquid-spot"
                   /\ symbol p <> JStr "USDT0")
         [Mock.hl_spot_tagged "PURR" "PURR/USDC"; Mock.hl_spot_tagged "USDT" "USDT/USDC"].
Proof.
  apply (proj2 (hyperliquid_spot_listing (Mock.always Mock.hl_spot_meta) Mock.no_float_repr idle
                  [Mock.hl_spot_tagged "PURR" "PURR/USDC";
                   Mock.hl_spot_tagged "USDT" "USDT/USDC"] [] eq_refl)).
Defined.

Lemma fetch_market_data_filter_witness :
  exists records,
    fst (HyperliquidExchange.fetch_market_data (Mock.always Mock.hl_market_answer)
           (Some "ETH") idle) = Ok records
    /\ Forall (fun md => assoc_get "symbol" md = Some (JStr "ETH")
                         /\ is_Some (assoc_get "price_change_24h" md)) records.
Proof.
  eexists. split; [vm_compute; reflexivity|].
  apply (proj1 (fetch_market_data_filter (Mock.always Mock.hl_market_answer) "ETH" idle _)).
  - discriminate.
  - vm_compute. reflexivity.
Defined.

Lemma exchange_tag_checked_witness :
  HyperliquidExchange.fetch_symbols_from_exchange Mock.unreachable Mock.no_float_repr
    "https://api.hyperliquid.xyz/info" "bybit-spot" idle
  = (Raise (ValueError "Invalid Hyperliquid exchange type: bybit-spot"), idle).
Proof.
  apply (exchange_tag_checked Mock.unreachable Mock.no_float_repr
           "https://api.hyperliquid.xyz/info" "bybit-spot" idle); discriminate.
Defined.

Lemma binance_derivatives_validation_witness :
  BinanceExchange.fetch_funding_rate_history Mock.unreachable (Some "BTCUSDT") None None 0 idle
  = (Raise (ValueError "Limit must be between 1 and 1000"), idle)
  /\ BinanceExchange.fetch_open_interest_history Mock.unreachable "BTCUSDT" "5m" 501 None None idle
     = (Raise (ValueError "Limit must be between 1 and 500"), idle).
Proof.
  split.
  - apply (proj1 (binance_derivatives_validation Mock.unreachable (Some "BTCUSDT") "BTCUSDT" "5m"
                    None None 0 idle)). lia.
  - apply (proj1 (proj2 (proj2 (proj2 (binance_derivatives_validation Mock.unreachable
                    (Some "BTCUSDT") "BTCUSDT" "5m" None None 501 idle))))).
    + apply (bool_decide_unpack _). vm_compute. exact I.
    + lia.
Defined.

Lemma bybit_funding_validation_witness :
  BybitExchange.fetch_funding_rate_history Mock.unreachable Mock.no_float_repr "BTCUSDT"
    (Some 0) None 200 "futures" idle
  = (Raise (ValueError "If startTime is provided, endTime must also be provided"), idle).
Proof.
  apply (proj1 (proj2 (bybit_funding_validation Mock.unreachable Mock.no_float_repr "BTCUSDT"
                         "futures" (Some 0) None 200 idle))).
  - lia.
  - discriminate.
Defined.

Lemma klines_limit_lower_bound_witness :
  BybitExchange.fetch_klines Mock.unreachable Mock.no_float_repr "BTCUSDT" "60" "spot"
    None None 0 "0" idle
  = (Raise (ValueError "Limit must be between 1 and 1000"), idle)
  /\ exists url,
       request_sent (GET url) idle
         (snd (BinanceExchange.fetch_klines Mock.unreachable "BTCUSDT" "1h" "spot"
                 None None 0 "0" idle))
       /\ mentions url "limit=0".
Proof.
  apply (klines_limit_lower_bound Mock.unreachable Mock.no_float_repr "BTCUSDT" "1h" "60" "spot"
           "0" None None 0 idle).
  - apply (bool_decide_unpack _). vm_compute. exact I.
  - apply (bool_decide_unpack _). vm_compute. exact I.
  - by left.
  - lia.
Defined.

Lemma binance_derivative_records_witness :
  fst (BinanceExchange.fetch_funding_rate_history
         (Mock.always (JArr (map JObj Mock.funding_items))) (Some "BTCUSDT") None None 2 idle)
  = Ok [[("symbol", JStr "BTCUSDT"); ("funding_rate", JStr "0.00010000");
         ("funding_time", JInt 1670601600000); ("mark_price", JStr "17000.1")];
        [("symbol", JStr "BTCUSDT"); ("funding_rate", JStr "-0.00002000");
         ("funding_time", JInt 1670630400000); ("mark_price", JNull)]].
Proof.
  destruct (binance_derivative_records (Mock.always (JArr (map JObj Mock.funding_items)))
              (Some "BTCUSDT") "BTCUSDT" "5m" None None 2 idle
              (JArr (map JObj Mock.funding_items))) as [Hlist _].
  - reflexivity.
  - apply (bool_decide_unpack _). vm_compute. exact I.
  - lia.
  - exact (proj1 (Hlist Mock.funding_items eq_refl)).
Defined.

Lemma bybit_open_interest_records_witness :
  fst (BybitExchange.fetch_open_interest (Mock.always (JObj Mock.open_interest_answer))
         Mock.no_float_repr "BTCUSDT" "5min" None None 2 "futures" idle)
  = Ok [[("symbol", JStr "BTCUSDT"); ("open_interest", JStr "461134384.00");
         ("timestamp", JStr "1669571400000")];
        [("symbol", JStr "BTCUSDT"); ("open_interest", JStr "461134292.00");
         ("timestamp", JStr "1669571100000")]].
Proof.
  apply (bybit_open_interest_records (Mock.always (JObj Mock.open_interest_answer))
           Mock.no_float_repr "BTCUSDT" "5min" None None 2 idle
           Mock.open_interest_answer Mock.open_interest_result Mock.open_interest_items).
  - reflexivity.
  - apply (bool_decide_unpack _). vm_compute. exact I.
  - lia.
  - reflexivity.
  - reflexivity.
  - reflexivity.
Defined.

Lemma registry_names_resolve_witness :
  ExchangeFactory.create "bybit" (ExchangeFactory.registry Mock.unreachable Mock.no_float_repr)
  = Ok (ExchangeFactory.Bybit Mock.unreachable, BybitExchange.new).
Proof.
  apply (proj1 (proj2 (proj2 (registry_names_resolve
           (ExchangeFactory.registry Mock.unreachable Mock.no_float_repr)
           ltac:(repeat constructor)))) "bybit" (ExchangeFactory.Bybit Mock.unreachable)).
  apply list_elem_of_further, list_elem_of_here.
Defined.

Lemma list_supported_exchanges_total_witness :
  App.list_supported_exchanges Mock.no_library_text Mock.class_doc
    (ExchangeFactory.registry Mock.unreachable Mock.no_float_repr)
  = JObj [("count", JInt 3);
          ("exchanges",
           JArr [JObj [("name", JStr "binance");
                       ("markets", JArr [JStr "spot"; JStr "futures"]);
                       ("description",
                        JStr "Binance exchange implementation for Spot and Futures markets")];
                 JObj [("name", JStr "bybit");
                       ("markets", JArr [JStr "spot"; JStr "futures"]);
                       ("description",
                        JStr "Bybit exchange implementation for Spot and Futures markets")];
                 JObj [("name", JStr "hyperliquid");
                       ("markets", JArr [JStr "spot"; JStr "futures"]);
                       ("description",
                        JStr "Hyperliquid exchange implementation for Spot and Futures markets")]])].
Proof.
  rewrite (list_supported_exchanges_total Mock.no_library_text Mock.class_doc
             (ExchangeFactory.registry Mock.unreachable Mock.no_float_repr)
             ltac:(repeat constructor)).
  vm_compute. reflexivity.
Defined.

Lemma client_never_leaks_witness :
  let start := {| Lifecycle.clients := []; Lifecycle._client := None |} in
  Lifecycle.all_closed (snd (Lifecycle.with_ Mock.failing_block start))
  /\ fst (Lifecycle.with_ Mock.failing_block start) = Raise TypeError.
Proof.
  intros start.
  destruct (client_never_leaks start [Lifecycle.use_client; Lifecycle.call_close;
                                      Lifecycle.use_client] Mock.failing_block)
    as (_ & _ & _ & _ & Hclosed & _ & Hvalue).
  - intros i Hi. discriminate Hi.
  - intros s Hs. by apply held_only_client.
  - split; [exact Hclosed|exact Hvalue].
Defined.

Lemma get_trading_pairs_errors_witness :
  let tool := App.get_trading_pairs Mock.clock Mock.no_library_text
                (ExchangeFactory.registry Mock.unreachable Mock.no_float_repr) in
  App.field "error" (fst (tool "binance" "margin" "active")) = Some (JStr "Invalid input")
  /\ snd (tool "binance" "margin" "active") = idle
  /\ App.field "error" (fst (tool "Binance" "spot" "active")) = Some (JStr "Unexpected error")
  /\ App.field "error_type" (fst (tool "Binance" "spot" "active")) = Some (JStr "RetryError").
Proof.
  intros tool.
  destruct (get_trading_pairs_errors Mock.unreachable Mock.no_float_repr Mock.clock
              Mock.no_library_text "binance" "margin" "active") as (Hbad & _).
  destruct Hbad as (He & _ & Hidle).
  { right. apply (bool_decide_unpack _). vm_compute. exact I. }
  destruct (get_trading_pairs_errors Mock.unreachable Mock.no_float_repr Mock.clock
              Mock.no_library_text "Binance" "spot" "active") as (_ & _ & _ & Hdown).
  destruct Hdown as (Hu & Ht).
  { apply (bool_decide_unpack _). vm_compute. exact I. }
  { apply (bool_decide_unpack _). vm_compute. exact I. }
  { intros n req. by eexists. }
  split; [exact He|]. split; [exact Hidle|]. split; [exact Hu|exact Ht].
Defined.

Lemma get_trading_pairs_status_witness :
  let tool := App.get_trading_pairs Mock.clock Mock.no_library_text
                (ExchangeFactory.registry (Mock.always Mock.exchange_info) Mock.no_float_repr) in
  App.field "count" (fst (tool "binance" "spot" "inactive")) = Some (JInt 1)
  /\ Forall (fun p => App.field "is_active" p = Some (JBool false))
            (map App.pair_json Mock.inactive_pairs).
Proof.
  intros tool.
  destruct (get_trading_pairs_status (Mock.always Mock.exchange_info) Mock.no_float_repr
              Mock.clock Mock.no_library_text "binance" "spot" "inactive"
              (map App.pair_json Mock.inactive_pairs)) as (Hcount & _ & Hflags & _).
  - vm_compute. reflexivity.
  - split; [exact Hcount|]. by apply Hflags.
Defined.
